(** * vue-map-drawing: the interactive editing engine

    A shallow embedding of the core classes of the library
    (core/HistoryManager.js, utils/geometry.js, snapping/SnapEngine.js and
    core/DrawingManager.js) together with the properties of their
    specification.

    Conventions.
    - A JavaScript number that is a coordinate, a distance or an area is a
      real number ([R]); arithmetic is exact (rounding is not modelled).
      Indices and bounds of the history are integers ([Z]).
    - [calculatePolygonArea], whose specification is about the equality
      of computed values, is also embedded over the binary64
      floating-point numbers that JavaScript numbers are (module
      [Doubles]), every operation with its rounding.
    - A callback is a function on the state it acts on that also says
      whether it returned or threw ([outcome]).
    - [null] / [undefined] is [None].
    - The event bus (core/EventBus.js) catches what its listeners throw;
      the manager keeps the list of the events it has emitted. *)

From Stdlib Require Import String DecimalString ZArith Bool Lia Reals Lra List.
From Stdlib Require PrimFloat.
Import ListNotations.

Set Implicit Arguments.

(** How a call of a JavaScript function ends. *)
Inductive outcome : Type :=
| Returned
| Threw.

(* ================================================================== *)
(** * core/HistoryManager.js *)
(* ================================================================== *)

Module History.

(** The object passed to the [onChange] subscriber ([getState]). *)
Record State : Type := mkState {
  st_canUndo : bool;
  st_canRedo : bool;
  st_historyLength : Z;
  st_currentIndex : Z
}.

(** [arr.slice(0, e)]: a negative end counts from the end of the array. *)
Definition slice0 {A : Type} (e : Z) (l : list A) : list A :=
  if (e <? 0)%Z
  then firstn (Z.to_nat (Z.max (Z.of_nat (length l) + e) 0)) l
  else firstn (Z.to_nat e) l.

(** [arr[i]]: [undefined] outside the array. *)
Definition at_index {A : Type} (l : list A) (i : Z) : option A :=
  if (i <? 0)%Z then None else nth_error l (Z.to_nat i).

Section Manager.

(** The entries are opaque to the manager: it only calls their [undo] and
    [redo] members, which act on the state of the owner. *)
Variable action : Type.
Variable world : Type.
Variable call_undo : action -> world -> world * outcome.
Variable call_redo : action -> world -> world * outcome.
(** [options.onChange || null] *)
Variable onChange : option (State -> world -> world * outcome).

Record t : Type := mk {
  maxSteps : Z;
  history : list action;
  currentIndex : Z
}.

Definition len (h : t) : Z := Z.of_nat (length (history h)).

(** [constructor(options)]: [options.maxSteps || 50], so that a missing
    bound and the bound [0] both give [50]. *)
Definition new (optMaxSteps : option Z) : t :=
  {| maxSteps := match optMaxSteps with
                 | Some n => if (n =? 0)%Z then 50%Z else n
                 | None => 50%Z
                 end;
     history := [];
     currentIndex := (-1)%Z |}.

Definition canUndo (h : t) : bool := (0 <=? currentIndex h)%Z.

Definition canRedo (h : t) : bool := (currentIndex h <? len h - 1)%Z.

Definition getState (h : t) : State :=
  {| st_canUndo := canUndo h;
     st_canRedo := canRedo h;
     st_historyLength := len h;
     st_currentIndex := currentIndex h |}.

Definition _notifyChange (h : t) (w : world) : world * outcome :=
  match onChange with
  | Some f => f (getState h) w
  | None => (w, Returned)
  end.

Definition set_history (l : list action) (h : t) : t :=
  {| maxSteps := maxSteps h; history := l; currentIndex := currentIndex h |}.

Definition set_index (i : Z) (h : t) : t :=
  {| maxSteps := maxSteps h; history := history h; currentIndex := i |}.

(** The three steps of [push] before [_notifyChange]. *)

(* Remove any future history if we're not at the end *)
Definition truncated (h : t) : t :=
  if (currentIndex h <? len h - 1)%Z
  then set_history (slice0 (currentIndex h + 1) (history h)) h
  else h.

(* Add the new action *)
Definition appended (a : action) (h : t) : t :=
  set_index (currentIndex h + 1) (set_history (history h ++ [a]) h).

(* Limit history size *)
Definition evicted (h : t) : t :=
  if (maxSteps h <? len h)%Z
  then set_index (currentIndex h - 1) (set_history (tl (history h)) h)
  else h.

Definition pushed (a : action) (h : t) : t :=
  evicted (appended a (truncated h)).

(** [push(action)]; it has no handler of its own, so that an exception of
    the subscriber reaches the caller after the entry is stored. *)
Definition push (a : action) (h : t) (w : world) : t * world * outcome :=
  let h' := pushed a h in
  let (w', o) := _notifyChange h' w in
  (h', w', o).

(** [undo()]: the last component is the returned boolean. *)
Definition undo (h : t) (w : world) : t * world * bool :=
  if negb (canUndo h) then (h, w, false)
  else
    match at_index (history h) (currentIndex h) with
    | None => (* [action.undo()] on [undefined] throws inside [try] *)
        (h, w, false)
    | Some a =>
        match call_undo a w with
        | (w1, Threw) => (h, w1, false)
        | (w1, Returned) =>
            let h1 := set_index (currentIndex h - 1) h in
            match _notifyChange h1 w1 with
            | (w2, Returned) => (h1, w2, true)
            | (w2, Threw) => (h1, w2, false)
            end
        end
    end.

(** [redo()] *)
Definition redo (h : t) (w : world) : t * world * bool :=
  if negb (canRedo h) then (h, w, false)
  else
    let h1 := set_index (currentIndex h + 1) h in
    match at_index (history h1) (currentIndex h1) with
    | None => (set_index (currentIndex h1 - 1) h1, w, false)
    | Some a =>
        match call_redo a w with
        | (w1, Threw) => (set_index (currentIndex h1 - 1) h1, w1, false)
        | (w1, Returned) =>
            match _notifyChange h1 w1 with
            | (w2, Returned) => (h1, w2, true)
            | (w2, Threw) => (set_index (currentIndex h1 - 1) h1, w2, false)
            end
        end
    end.

(** [clear()] *)
Definition clear (h : t) (w : world) : t * world * outcome :=
  let h' := set_index (-1)%Z (set_history [] h) in
  let (w', o) := _notifyChange h' w in
  (h', w', o).

(** ** Sequences of calls *)

Inductive op : Type :=
| Push (a : action)
| Undo
| Redo.

Definition step (o : op) (s : t * world) : t * world :=
  let (h, w) := s in
  match o with
  | Push a => let '(h', w', _) := push a h w in (h', w')
  | Undo => let '(h', w', _) := undo h w in (h', w')
  | Redo => let '(h', w', _) := redo h w in (h', w')
  end.

Definition run (ops : list op) (s : t * world) : t * world :=
  fold_left (fun s o => step o s) ops s.

(** [k] calls of [undo()]; the boolean says that every one returned
    [true]. *)
Fixpoint undo_times (k : nat) (h : t) (w : world) : t * world * bool :=
  match k with
  | O => (h, w, true)
  | S k' =>
      let '(h1, w1, ok) := undo h w in
      if ok then undo_times k' h1 w1 else (h1, w1, false)
  end.

(** The invariant of the specification: [-1 <= currentIndex <= length-1]. *)
Definition index_ok (h : t) : Prop :=
  (-1 <= currentIndex h <= len h - 1)%Z.

Definition bounded (h : t) : Prop := (len h <= maxSteps h)%Z.

(** The bound that holds for every value of [maxSteps]. *)
Definition capped (h : t) : Prop := (len h <= Z.max (maxSteps h) 0)%Z.

End Manager.

End History.

(** A small owner to run the manager on: an entry is a number, the state
    is the log of the callbacks that ran, and the callbacks of the entry
    [0] throw. *)
Module HistorySample.

Definition call_undo (a : nat) (log : list (string * nat))
    : list (string * nat) * outcome :=
  (log ++ [("undo"%string, a)], if (a =? 0)%nat then Threw else Returned).

Definition call_redo (a : nat) (log : list (string * nat))
    : list (string * nat) * outcome :=
  (log ++ [("redo"%string, a)], if (a =? 0)%nat then Threw else Returned).

Definition onChange
    : option (History.State -> list (string * nat) ->
              list (string * nat) * outcome) :=
  Some (fun s log =>
          (log ++ [("change"%string, Z.to_nat (History.st_historyLength s))],
           Returned)).

End HistorySample.

(* ================================================================== *)
(** * JavaScript [Map] with string keys *)
(* ================================================================== *)

(** A [Map] iterates in insertion order, and [set] on a key that is present
    keeps its place: an association list without repeated keys. *)
Module JSMap.

Definition t (V : Type) : Type := list (string * V).

Definition empty {V : Type} : t V := [].

Fixpoint get {V : Type} (k : string) (m : t V) : option V :=
  match m with
  | [] => None
  | (k', v) :: m' => if String.eqb k k' then Some v else get k m'
  end.

Definition has {V : Type} (k : string) (m : t V) : bool :=
  match get k m with Some _ => true | None => false end.

Fixpoint set {V : Type} (k : string) (v : V) (m : t V) : t V :=
  match m with
  | [] => [(k, v)]
  | (k', v') :: m' =>
      if String.eqb k k' then (k', v) :: m' else (k', v') :: set k v m'
  end.

Fixpoint delete {V : Type} (k : string) (m : t V) : t V :=
  match m with
  | [] => []
  | (k', v') :: m' =>
      if String.eqb k k' then m' else (k', v') :: delete k m'
  end.

Definition size {V : Type} (m : t V) : nat := length m.

Definition keys {V : Type} (m : t V) : list string := map fst m.

Definition values {V : Type} (m : t V) : list V := map snd m.

End JSMap.

(* ================================================================== *)
(** * utils/geometry.js *)
(* ================================================================== *)

Module Geometry.

Local Open Scope R_scope.

(** [{lat, lng}], in degrees. *)
Record Point : Type := mkPoint { lat : R; lng : R }.

(** [{x, y}], in pixels. *)
Record Pixel : Type := mkPixel { px : R; py : R }.

Definition origin : Point := mkPoint 0 0.

(** [Math.max], [Math.min], [Math.sqrt], [Math.abs] on numbers that are not
    [NaN]. *)
Definition Math_max (a b : R) : R := Rmax a b.
Definition Math_min (a b : R) : R := Rmin a b.
Definition Math_sqrt (a : R) : R := sqrt a.
Definition Math_abs (a : R) : R := Rabs a.

(** [a < b] and [a === 0] on numbers. *)
Definition Rltb (a b : R) : bool := if Rlt_dec a b then true else false.
Definition Reqb (a b : R) : bool := if Req_dec_T a b then true else false.

Definition distancePixels (p1 p2 : Pixel) : R :=
  let dx := px p2 - px p1 in
  let dy := py p2 - py p1 in
  Math_sqrt (dx * dx + dy * dy).

Definition toRadians (degrees : R) : R := degrees * (PI / 180).

Definition toDegrees (radians : R) : R := radians * (180 / PI).

(** [coordinates[i]] for an index inside the array. *)
Definition coord (coordinates : list Point) (i : nat) : Point :=
  nth i coordinates origin.

(** The summand of the loop of [calculatePolygonArea] for [p1] and [p2]. *)
Definition area_term (p1 p2 : Point) : R :=
  toRadians (lng p2 - lng p1) *
  (2 + sin (toRadians (lat p1)) + sin (toRadians (lat p2))).

(** Earth's radius in meters *)
Definition R_earth : R := 6371000.

Definition calculatePolygonArea (coordinates : list Point) : R :=
  if (length coordinates <? 3)%nat then 0
  else
    let n := length coordinates in
    let total :=
      fold_left
        (fun total i =>
           let j := ((i + 1) mod n)%nat in
           total + area_term (coord coordinates i) (coord coordinates j))
        (seq 0 n) 0 in
    Math_abs (total * R_earth * R_earth / 2).

(** [Math.atan2(y, x)] *)
Definition Math_atan2 (y x : R) : R :=
  if Rlt_dec 0 x then atan (y / x)
  else if Rlt_dec x 0 then
    (if Rlt_dec y 0 then atan (y / x) - PI else atan (y / x) + PI)
  else if Rlt_dec 0 y then PI / 2
  else if Rlt_dec y 0 then - (PI / 2)
  else 0.

(** Haversine distance in meters. *)
Definition distanceLatLng (p1 p2 : Point) : R :=
  let lat1 := toRadians (lat p1) in
  let lat2 := toRadians (lat p2) in
  let deltaLat := toRadians (lat p2 - lat p1) in
  let deltaLng := toRadians (lng p2 - lng p1) in
  let a := sin (deltaLat / 2) * sin (deltaLat / 2) +
           cos lat1 * cos lat2 * sin (deltaLng / 2) * sin (deltaLng / 2) in
  let c := 2 * Math_atan2 (Math_sqrt a) (Math_sqrt (1 - a)) in
  R_earth * c.

(** [calculateCentroid] *)
Definition calculateCentroid (coordinates : list Point) : Point :=
  match coordinates with
  | [] => origin
  | _ =>
      let sumLat := fold_left (fun s c => s + lat c) coordinates 0 in
      let sumLng := fold_left (fun s c => s + lng c) coordinates 0 in
      mkPoint (sumLat / INR (length coordinates))
              (sumLng / INR (length coordinates))
  end.

(** The sum of the summands along consecutive points of a chain; the loop
    of [calculatePolygonArea] computes it on the ring closed by its first
    point. *)
Fixpoint chain_sum (chain : list Point) : R :=
  match chain with
  | p1 :: (p2 :: _) as rest => area_term p1 p2 + chain_sum rest
  | _ => 0
  end.

Definition closed (ring : list Point) : list Point :=
  ring ++ [hd origin ring].

(** Rotation of a ring: the same vertices from start index [k]. *)
Definition rotate (k : nat) (ring : list Point) : list Point :=
  skipn k ring ++ firstn k ring.

End Geometry.

(* ================================================================== *)
(** * utils/geometry.js: the area of a polygon in double precision *)
(* ================================================================== *)

(** [calculatePolygonArea] once more, with JavaScript numbers as what
    they are: binary64 floating-point numbers, every operation rounded to
    nearest.  [Math.sin] is approximated by the host; it is a parameter,
    of which ECMAScript fixes the value at [+0], which is [+0]. *)
Module Doubles.

Import PrimFloat.
Local Open Scope float_scope.
#[local] Set Warnings "-inexact-float".

(** [{lat, lng}], in degrees. *)
Record Point : Type := mkPoint { lat : float; lng : float }.

Definition origin : Point := mkPoint 0 0.

(** [Math.PI], the double nearest to the number. *)
Definition Math_PI : float := 3.141592653589793.

(** [Math.abs] *)
Definition Math_abs (a : float) : float := abs a.

(** [toRadians(degrees)] *)
Definition toRadians (degrees : float) : float := degrees * (Math_PI / 180).

(** [coordinates[i]] for an index inside the array. *)
Definition coord (coordinates : list Point) (i : nat) : Point :=
  nth i coordinates origin.

(** Earth's radius in meters *)
Definition R_earth : float := 6371000.

Section Host.

(** [Math.sin] of the host. *)
Variable Math_sin : float -> float.

(** The summand of the loop of [calculatePolygonArea] for [p1] and
    [p2]; [2 + a + b] is [(2 + a) + b]. *)
Definition area_term (p1 p2 : Point) : float :=
  toRadians (lng p2 - lng p1) *
  (2 + Math_sin (toRadians (lat p1)) + Math_sin (toRadians (lat p2))).

(** [calculatePolygonArea(coordinates)]; [total * R * R / 2] is
    [((total * R) * R) / 2]. *)
Definition calculatePolygonArea (coordinates : list Point) : float :=
  if (length coordinates <? 3)%nat then 0
  else
    let n := length coordinates in
    let total :=
      fold_left
        (fun total i =>
           let j := ((i + 1) mod n)%nat in
           total + area_term (coord coordinates i) (coord coordinates j))
        (seq 0 n) 0 in
    Math_abs (total * R_earth * R_earth / 2).



End Host.

(** Rotation of a list: the same elements from the index [k]. *)
Definition rotate (A : Type) (k : nat) (l : list A) : list A :=
  skipn k l ++ firstn k l.



End Doubles.

(* ================================================================== *)
(** * The Google Maps objects the library talks to *)
(* ================================================================== *)

(** The rendering surface and the projection service are collaborators of
    the code.  They are modelled as far as the code uses them: an object is
    the data its getters read and its setters write.  A
    [google.maps.LatLng] is the point it was built from: coordinates are
    taken in the ranges where the constructor keeps them (latitude in
    [-90, 90], longitude in [-180, 180]). *)
Module GoogleMaps.

Import Geometry.
Local Open Scope R_scope.

(** [map.getProjection()]: both conversions of the projection. *)
Record Projection : Type := mkProjection {
  fromLatLngToPoint : Point -> Pixel;
  fromPointToLatLng : Pixel -> Point
}.

(** The part of [google.maps.Map] that is read; [getProjection()] is
    [undefined] until the map is initialised. *)
Record Map : Type := mkMap {
  getProjection : option Projection;
  getZoom : R
}.

(** [{north, south, east, west}] *)
Record Bounds : Type := mkBounds {
  north : R; south : R; east : R; west : R
}.

Definition getNorthEast (b : Bounds) : Point := mkPoint (north b) (east b).
Definition getSouthWest (b : Bounds) : Point := mkPoint (south b) (west b).

(** Style options; an absent key is [None]. *)
Record Style : Type := mkStyle {
  strokeColor : option string;
  strokeWeight : option R;
  fillColor : option string;
  fillOpacity : option R
}.

Definition or_else {A : Type} (a b : option A) : option A :=
  match a with Some _ => a | None => b end.

(** [{...old, ...new}] *)
Definition merge (old new : Style) : Style :=
  {| strokeColor := or_else (strokeColor new) (strokeColor old);
     strokeWeight := or_else (strokeWeight new) (strokeWeight old);
     fillColor := or_else (fillColor new) (fillColor old);
     fillOpacity := or_else (fillOpacity new) (fillOpacity old) |}.

(** What an overlay holds: [Polygon] and [Polyline] have [getPath()],
    [Circle] has [getCenter()] and [getRadius()], [Rectangle] has
    [getBounds()]. *)
Inductive Geom : Type :=
| Path (path : list Point)
| Disc (center : Point) (radius : R)
| Box (bounds : Bounds).

Record Overlay : Type := mkOverlay {
  geom : Geom;
  style : Style;
  attached : bool;          (* [getMap() !== null] *)
  editable : bool;
  clickable : bool
}.

Definition setOptions (s : Style) (o : Overlay) : Overlay :=
  {| geom := geom o; style := merge (style o) s; attached := attached o;
     editable := editable o; clickable := clickable o |}.

Definition setMap_null (o : Overlay) : Overlay :=
  {| geom := geom o; style := style o; attached := false;
     editable := editable o; clickable := clickable o |}.

Definition set_geom (g : Geom) (o : Overlay) : Overlay :=
  {| geom := g; style := style o; attached := attached o;
     editable := editable o; clickable := clickable o |}.

(** [MVCArray.insertAt(i, x)] *)
Definition insertAt {A : Type} (i : nat) (x : A) (l : list A) : list A :=
  firstn i l ++ x :: skipn i l.

(** [MVCArray.setAt(i, x)] for [i <= length]; beyond that the array would
    get holes, which no caller in the library produces, and the model
    leaves the array as it is. *)
Fixpoint setAt {A : Type} (i : nat) (x : A) (l : list A) : list A :=
  match i, l with
  | O, [] => [x]
  | O, _ :: l' => x :: l'
  | S i', [] => []
  | S i', y :: l' => y :: setAt i' x l'
  end.

(** [google.maps.Marker] *)
Record Marker : Type := mkMarker {
  position : Point;
  visible : bool;
  on_map : bool
}.

Definition setVisible (b : bool) (m : Marker) : Marker :=
  {| position := position m; visible := b; on_map := on_map m |}.

Definition setPosition (p : Point) (m : Marker) : Marker :=
  {| position := p; visible := visible m; on_map := on_map m |}.

(** The objects that are shared between the drawing manager and the snap
    engine live in a store; a reference is an index into it. *)
Definition Store : Type := list Overlay.

Definition deref (st : Store) (r : nat) : option Overlay := nth_error st r.

Definition alloc (o : Overlay) (st : Store) : Store * nat :=
  (st ++ [o], length st).

Fixpoint update (r : nat) (f : Overlay -> Overlay) (st : Store) : Store :=
  match r, st with
  | _, [] => []
  | O, o :: st' => f o :: st'
  | S r', o :: st' => o :: update r' f st'
  end.

End GoogleMaps.

(** A value, or the [TypeError] of a call on an object that has no such
    member. *)
Inductive result (A : Type) : Type :=
| Ok (a : A)
| TypeError.

Arguments Ok {A} a.
Arguments TypeError {A}.

(* ================================================================== *)
(** * snapping/SnapEngine.js *)
(* ================================================================== *)

Module Snap.

Import Geometry GoogleMaps.
Local Open Scope R_scope.

Record Edge : Type := mkEdge {
  e_start : Point;
  e_end : Point;
  e_shapeId : string
}.

(** The value of [this.shapes]: [{ id, type, obj }]. *)
Record Entry : Type := mkEntry {
  en_id : string;
  en_type : string;
  en_obj : nat
}.

(** [{ point, distance, edge, t }] *)
Record SnapResult : Type := mkSnapResult {
  sr_point : Point;
  sr_distance : R;
  sr_edge : Edge;
  sr_t : R
}.

(** The result of [_projectPointToSegment], in pixels. *)
Record Projected : Type := mkProjected {
  pr_point : Pixel;
  pr_distance : R;
  pr_t : R
}.

Record t : Type := mk {
  map : option Map;
  threshold : R;
  showIndicator : bool;
  enabled : bool;
  shapes : JSMap.t Entry;
  snapMarker : option Marker;
  _onSnapCallback : bool          (* a callback is registered *)
}.

(** The calls that leave the engine: on the map, on its projection, and on
    the [onSnap] callback. *)
Inductive Call : Type :=
| CallGetProjection
| CallGetZoom
| CallFromLatLngToPoint (p : Point)
| CallFromPointToLatLng (q : Pixel)
| CallOnSnap (r : SnapResult).

(** [constructor(options)]: [options.threshold || 15] and
    [options.showIndicator !== false]. *)
Definition new (optMap : option Map) (optThreshold : option R)
    (optShowIndicator : option bool) : t :=
  {| map := optMap;
     threshold := match optThreshold with
                  | Some n => if Reqb n 0 then 15 else n
                  | None => 15
                  end;
     showIndicator := match optShowIndicator with
                      | Some false => false
                      | _ => true
                      end;
     enabled := true;
     shapes := JSMap.empty;
     snapMarker := None;
     _onSnapCallback := false |}.

Definition set_enabled (b : bool) (se : t) : t :=
  {| map := map se; threshold := threshold se;
     showIndicator := showIndicator se; enabled := b; shapes := shapes se;
     snapMarker := snapMarker se; _onSnapCallback := _onSnapCallback se |}.

Definition set_shapes (m : JSMap.t Entry) (se : t) : t :=
  {| map := map se; threshold := threshold se;
     showIndicator := showIndicator se; enabled := enabled se; shapes := m;
     snapMarker := snapMarker se; _onSnapCallback := _onSnapCallback se |}.

Definition set_snapMarker (m : option Marker) (se : t) : t :=
  {| map := map se; threshold := threshold se;
     showIndicator := showIndicator se; enabled := enabled se;
     shapes := shapes se; snapMarker := m;
     _onSnapCallback := _onSnapCallback se |}.

Definition setThreshold (n : R) (se : t) : t :=
  {| map := map se; threshold := n;
     showIndicator := showIndicator se; enabled := enabled se;
     shapes := shapes se; snapMarker := snapMarker se;
     _onSnapCallback := _onSnapCallback se |}.

Definition hideIndicator (se : t) : t :=
  match snapMarker se with
  | Some m => set_snapMarker (Some (setVisible false m)) se
  | None => se
  end.

Definition enable (se : t) : t := set_enabled true se.

Definition disable (se : t) : t := hideIndicator (set_enabled false se).

Definition isEnabled (se : t) : bool := enabled se.

Definition addShape (id type : string) (obj : nat) (se : t) : t :=
  set_shapes (JSMap.set id (mkEntry id type obj) (shapes se)) se.

Definition removeShape (id : string) (se : t) : t :=
  set_shapes (JSMap.delete id (shapes se)) se.

Definition clearShapes (se : t) : t := set_shapes JSMap.empty se.

(** [onSnap(callback)] *)
Definition onSnap (se : t) : t :=
  {| map := map se; threshold := threshold se;
     showIndicator := showIndicator se; enabled := enabled se;
     shapes := shapes se; snapMarker := snapMarker se;
     _onSnapCallback := true |}.

(** [destroy()] *)
Definition destroy (se : t) : t :=
  {| map := map se; threshold := threshold se;
     showIndicator := showIndicator se; enabled := enabled se;
     shapes := JSMap.empty; snapMarker := None;
     _onSnapCallback := false |}.

(** [_showIndicator(latLng)] *)
Definition _showIndicator (latLng : Point) (se : t) : t :=
  match map se with
  | None => se
  | Some _ =>
      let m := match snapMarker se with
               | Some m => m
               | None => mkMarker latLng true true
               end in
      set_snapMarker (Some (setVisible true (setPosition latLng m))) se
  end.

(** [_projectPointToSegment(point, lineStart, lineEnd)] *)
Definition _projectPointToSegment (point lineStart lineEnd : Pixel)
    : Projected :=
  let dx := px lineEnd - px lineStart in
  let dy := py lineEnd - py lineStart in
  let lengthSquared := dx * dx + dy * dy in
  if Reqb lengthSquared 0 then
    let dist := Math_sqrt ((px point - px lineStart) ^ 2 +
                           (py point - py lineStart) ^ 2) in
    mkProjected lineStart dist 0
  else
    (* Calculate projection parameter *)
    let t0 := ((px point - px lineStart) * dx +
               (py point - py lineStart) * dy) / lengthSquared in
    let t1 := Math_max 0 (Math_min 1 t0) in
    let projected := mkPixel (px lineStart + t1 * dx)
                             (py lineStart + t1 * dy) in
    let distance := Math_sqrt ((px point - px projected) ^ 2 +
                               (py point - py projected) ^ 2) in
    mkProjected projected distance t1.

(** The edges of a closed ring: [i] to [(i + 1) % length]. *)
Definition ringEdges (id : string) (path : list Point) : list Edge :=
  List.map (fun i => mkEdge (coord path i)
                            (coord path ((i + 1) mod length path)) id)
           (seq 0 (length path)).

(** The edges of an open path: [i] to [i + 1] for [i < length - 1]. *)
Definition openEdges (id : string) (path : list Point) : list Edge :=
  List.map (fun i => mkEdge (coord path i) (coord path (i + 1)) id)
           (seq 0 (length path - 1)).

Definition segments : nat := 36.

(** The points that approximate a circle. *)
Definition circlePoints (center : Point) (radius : R) : list Point :=
  List.map
    (fun i =>
       let angle := (INR i / INR segments) * 2 * PI in
       mkPoint
         (lat center + (radius / 111111) * sin angle)
         (lng center +
          (radius / (111111 * cos (lat center * PI / 180))) * cos angle))
    (seq 0 segments).

(** The edges one registered shape contributes: the branch is chosen by
    the [type] string, and the getter it calls must exist on the object. *)
Definition shapeEdges (id type : string) (o : Overlay) : result (list Edge) :=
  if String.eqb type "polygon" then
    match geom o with
    | Path path => Ok (ringEdges id path)
    | _ => TypeError
    end
  else if String.eqb type "polyline" then
    match geom o with
    | Path path => Ok (openEdges id path)
    | _ => TypeError
    end
  else if String.eqb type "rectangle" then
    match geom o with
    | Box bounds =>
        let ne := getNorthEast bounds in
        let sw := getSouthWest bounds in
        let nw := mkPoint (lat ne) (lng sw) in
        let se := mkPoint (lat sw) (lng ne) in
        Ok [ mkEdge nw (mkPoint (lat ne) (lng ne)) id;
             mkEdge (mkPoint (lat ne) (lng ne)) se id;
             mkEdge se (mkPoint (lat sw) (lng sw)) id;
             mkEdge (mkPoint (lat sw) (lng sw)) nw id ]
    | _ => TypeError
    end
  else if String.eqb type "circle" then
    match geom o with
    | Disc center radius => Ok (ringEdges id (circlePoints center radius))
    | _ => TypeError
    end
  else Ok [].

(** [id === excludeId] *)
Definition is_excluded (id : string) (excludeId : option string) : bool :=
  match excludeId with
  | Some x => String.eqb id x
  | None => false
  end.

(** [_getAllEdges(excludeId)], over the entries in iteration order. *)
Fixpoint edgesOf (st : Store) (entries : list (string * Entry))
    (excludeId : option string) : result (list Edge) :=
  match entries with
  | [] => Ok []
  | (id, shape) :: rest =>
      if is_excluded id excludeId then edgesOf st rest excludeId
      else
        match deref st (en_obj shape) with
        | None => TypeError
        | Some o =>
            match shapeEdges id (en_type shape) o with
            | TypeError => TypeError
            | Ok es =>
                match edgesOf st rest excludeId with
                | TypeError => TypeError
                | Ok es' => Ok (es ++ es')
                end
            end
        end
  end.

Definition _getAllEdges (st : Store) (se : t) (excludeId : option string)
    : result (list Edge) :=
  edgesOf st (shapes se) excludeId.

(** The variables of the loop of [findSnapPoint], and the calls made. *)
Record Scan : Type := mkScan {
  bestSnap : option SnapResult;
  minDistance : R;
  calls : list Call
}.

Definition toPixel (projection : Projection) (scale : R) (p : Point)
    : Pixel :=
  let world := fromLatLngToPoint projection p in
  mkPixel (px world * scale) (py world * scale).

(** What [_projectPointToSegment] returns for an edge, in pixels. *)
Definition projectEdge (projection : Projection) (scale : R)
    (pointPixel : Pixel) (edge : Edge) : Projected :=
  _projectPointToSegment pointPixel
    (toPixel projection scale (e_start edge))
    (toPixel projection scale (e_end edge)).

(** One iteration of the loop over the edges. *)
Definition scanEdge (projection : Projection) (scale : R)
    (pointPixel : Pixel) (s : Scan) (edge : Edge) : Scan :=
  let projected := projectEdge projection scale pointPixel edge in
  let cs := calls s ++ [CallFromLatLngToPoint (e_start edge);
                        CallFromLatLngToPoint (e_end edge)] in
  if Rltb (pr_distance projected) (minDistance s) then
    let projectedWorld := mkPixel (px (pr_point projected) / scale)
                                  (py (pr_point projected) / scale) in
    let projectedLatLng := fromPointToLatLng projection projectedWorld in
    mkScan
      (Some (mkSnapResult
               (mkPoint (lat projectedLatLng) (lng projectedLatLng))
               (pr_distance projected) edge (pr_t projected)))
      (pr_distance projected)
      (cs ++ [CallFromPointToLatLng projectedWorld])
  else mkScan (bestSnap s) (minDistance s) cs.

(** The distance the loop computes for an edge. *)
Definition scanDistance (projection : Projection) (scale : R)
    (pointPixel : Pixel) (e : Edge) : R :=
  pr_distance (projectEdge projection scale pointPixel e).

(** What holds of the loop variables after the edges [done], for the
    threshold [thr]: without a candidate every edge is at least [thr]
    away; a candidate is closer than [thr], no edge is closer than it and
    the edges before it are farther. *)
Definition scanned (projection : Projection) (scale : R) (pointPixel : Pixel)
    (thr : R) (done : list Edge) (s : Scan) : Prop :=
  let dist := scanDistance projection scale pointPixel in
  match bestSnap s with
  | None =>
      minDistance s = thr /\
      forall e, In e done -> thr <= dist e
  | Some r =>
      minDistance s = sr_distance r /\
      sr_distance r < thr /\
      sr_distance r = dist (sr_edge r) /\
      exists i,
        nth_error done i = Some (sr_edge r) /\
        (forall j e, nth_error done j = Some e -> sr_distance r <= dist e) /\
        (forall j e, (j < i)%nat -> nth_error done j = Some e ->
                     sr_distance r < dist e)
  end.

(** [Math.pow(2, zoom)] *)
Definition scaleOf (zoom : R) : R := Rpower 2 zoom.

(** [findSnapPoint(point, excludeShapeId)]: the returned value, the engine
    afterwards and the calls made, in order.  The first test of the source,
    [!this.enabled || !this.map || this.shapes.size === 0], is the first
    two branches. *)
Definition findSnapPoint (st : Store) (se : t) (point : Point)
    (excludeShapeId : option string)
    : result (option SnapResult) * t * list Call :=
  match map se with
  | None => (Ok None, se, [])
  | Some gmap =>
      if negb (enabled se) || (JSMap.size (shapes se) =? 0)%nat
      then (Ok None, se, [])
      else
        match _getAllEdges st se excludeShapeId with
        | TypeError => (TypeError, se, [])
        | Ok edges =>
            if (length edges =? 0)%nat then (Ok None, se, [])
            else
              match getProjection gmap with
              | None => (Ok None, se, [CallGetProjection])
              | Some projection =>
                  let zoom := getZoom gmap in
                  let scale := scaleOf zoom in
                  let pointPixel := toPixel projection scale point in
                  let s :=
                    fold_left (scanEdge projection scale pointPixel) edges
                      (mkScan None (threshold se)
                         [CallGetProjection; CallGetZoom;
                          CallFromLatLngToPoint point]) in
                  match bestSnap s with
                  | Some b =>
                      let se1 := if showIndicator se
                                 then _showIndicator (sr_point b) se
                                 else se in
                      (Ok (Some b), se1,
                       if _onSnapCallback se
                       then calls s ++ [CallOnSnap b] else calls s)
                  | None => (Ok None, hideIndicator se, calls s)
                  end
              end
        end
  end.

(** The value [findSnapPoint] returns. *)
Definition snapOf (st : Store) (se : t) (point : Point)
    (excludeShapeId : option string) : result (option SnapResult) :=
  fst (fst (findSnapPoint st se point excludeShapeId)).

(** The distance in pixels from the cursor to an edge, as the loop of
    [findSnapPoint] computes it. *)
Definition edgeDistance (gmap : Map) (projection : Projection)
    (point : Point) (edge : Edge) : R :=
  let scale := scaleOf (getZoom gmap) in
  pr_distance (projectEdge projection scale
                 (toPixel projection scale point) edge).

End Snap.

(* ================================================================== *)
(** * The pixel-space distance of the specification *)
(* ================================================================== *)

(** The distance that the specification compares with the threshold, in
    the specification's words and independently of the code: "convert the
    cursor point and every edge endpoint to pixel space at the current
    zoom (world_point x 2^zoom); for each edge, run projectPointToSegment
    in pixel space", where projectPointToSegment is the "standard clamped
    scalar projection; when a == b, returns a with Euclidean distance to p
    and t=0".  [SnapFacts.edgeDistance_pixelDistance] compares it with
    what the loop of [findSnapPoint] computes. *)
Module SnapSpec.

Import Geometry GoogleMaps.
Local Open Scope R_scope.







End SnapSpec.

(* ================================================================== *)
(** * core/DrawingManager.js *)
(* ================================================================== *)

Module Drawing.

Import Geometry GoogleMaps.
Local Open Scope R_scope.
Local Open Scope string_scope.

(** The geometry of a shape; the [type] field is the constructor. *)
Inductive ShapeGeometry : Type :=
| Polygon (path : list Point)
| Polyline (path : list Point)
| Circle (center : Point) (radius : R)
| Rectangle (bounds : Bounds).

Definition type_of (g : ShapeGeometry) : string :=
  match g with
  | Polygon _ => "polygon"
  | Polyline _ => "polyline"
  | Circle _ _ => "circle"
  | Rectangle _ => "rectangle"
  end.

(** A shape of the registry: [{ id, name, type, ..., area, obj }]. *)
Record Shape : Type := mkShape {
  id : string;
  name : string;
  geometry : ShapeGeometry;
  area : R;
  obj : nat
}.

(** The snapshot [_serialize] builds: the shape without [obj]. *)
Record ShapeData : Type := mkShapeData {
  d_id : string;
  d_name : string;
  d_geometry : ShapeGeometry;
  d_area : R
}.

(** The path of a polygon or a polyline ([shape.path]). *)
Definition path_of (g : ShapeGeometry) : option (list Point) :=
  match g with
  | Polygon p | Polyline p => Some p
  | _ => None
  end.

(** The events of the bus, with their payload. *)
Inductive Event : Type :=
| DrawingStart (type : string)
| DrawingUpdate (count : nat)
| DrawingCancel
| DrawingComplete (shape : ShapeData)
| ShapeCreated (shape : ShapeData)
| ShapeUpdated (shape : ShapeData)
| ShapeDeleted (id : string)
| ShapeSelected (shape : ShapeData)
| ShapeDeselected
| ShapesCleared
| HistoryChange (state : History.State)
| SnapActive (active : bool) (point : option Point).

(** The entries the manager pushes on its history.  Each stands for the
    pair of closures of one [history.push] of the source. *)
Inductive Action : Type :=
| ActCreate (shapeId : string) (data : ShapeData)
    (* undo: [_removeShape(shape.id)]; redo: [_restoreShape(data)] *)
| ActDelete (data : ShapeData) (shapeId : string)
    (* undo: [_restoreShape(data)]; redo: [_removeShape(id)] *)
| ActClear (all : list ShapeData).
    (* undo: restore every snapshot; redo: remove every shape *)

Definition action_type (a : Action) : string :=
  match a with
  | ActCreate _ _ => "create"
  | ActDelete _ _ => "delete"
  | ActClear _ => "clear"
  end.

(** A midpoint marker with the variable [insertedIndex] of its closure. *)
Record MidpointMarker : Type := mkMidpointMarker {
  marker : Marker;
  insertedIndex : option nat
}.

(** The marker that carries the name of a shape. *)
Record Label : Type := mkLabel {
  lb_position : Point;
  lb_text : string;
  lb_on_map : bool
}.

(** [this.options], resolved. *)
Record Options : Type := mkOptions {
  snapping_enabled : bool;
  snapping_threshold : R;
  history_maxSteps : Z;
  styles_drawing : Style;
  styles_completed : Style;
  styles_selected : Style
}.

Definition default_options : Options :=
  {| snapping_enabled := true;
     snapping_threshold := 15;
     history_maxSteps := 50;
     styles_drawing := mkStyle (Some "#6366f1") (Some 2) (Some "#6366f1")
                               (Some (3 / 10));
     styles_completed := mkStyle (Some "#22c55e") (Some 2) (Some "#22c55e")
                                 (Some (2 / 10));
     styles_selected := mkStyle (Some "#f59e0b") (Some 3) None None |}.

Record t : Type := mk {
  map : Map;   (* the map, as far as it is read *)
  draggableCursor : option string;   (* [map.setOptions({ draggableCursor })] *)
  options : Options;
  shapes : JSMap.t Shape;
  selectedShapeId : option string;
  isDrawing : bool;
  drawingType : option string;
  drawingPath : list Point;
  lastSnapPoint : option Point;
  _idCounter : nat;
  _previewLine : option (list Point);   (* the path of the preview polyline *)
  _previewMarkers : list Marker;
  _drawingListeners : bool;   (* the drawing listeners are installed *)
  _vertexMarkers : JSMap.t (list Marker);
  _midpointMarkers : JSMap.t (list MidpointMarker);
  _labels : JSMap.t Label;
  _shapeNameCounter : nat;
  events : list Event;   (* what [this.events] has emitted, oldest first *)
  history : History.t Action;
  snapEngine : Snap.t;
  store : Store   (* the overlays created so far *)
}.

(** Assignments to the fields of [this]. *)
Definition set_map (v : Map) (dm : t) : t :=
  {| map := v; draggableCursor := draggableCursor dm; options := options dm;
     shapes := shapes dm; selectedShapeId := selectedShapeId dm;
     isDrawing := isDrawing dm; drawingType := drawingType dm;
     drawingPath := drawingPath dm; lastSnapPoint := lastSnapPoint dm;
     _idCounter := _idCounter dm; _previewLine := _previewLine dm;
     _previewMarkers := _previewMarkers dm;
     _drawingListeners := _drawingListeners dm;
     _vertexMarkers := _vertexMarkers dm;
     _midpointMarkers := _midpointMarkers dm; _labels := _labels dm;
     _shapeNameCounter := _shapeNameCounter dm; events := events dm;
     history := history dm; snapEngine := snapEngine dm; store := store dm |}.

Definition set_draggableCursor (v : option string) (dm : t) : t :=
  {| map := map dm; draggableCursor := v; options := options dm;
     shapes := shapes dm; selectedShapeId := selectedShapeId dm;
     isDrawing := isDrawing dm; drawingType := drawingType dm;
     drawingPath := drawingPath dm; lastSnapPoint := lastSnapPoint dm;
     _idCounter := _idCounter dm; _previewLine := _previewLine dm;
     _previewMarkers := _previewMarkers dm;
     _drawingListeners := _drawingListeners dm;
     _vertexMarkers := _vertexMarkers dm;
     _midpointMarkers := _midpointMarkers dm; _labels := _labels dm;
     _shapeNameCounter := _shapeNameCounter dm; events := events dm;
     history := history dm; snapEngine := snapEngine dm; store := store dm |}.

Definition set_options (v : Options) (dm : t) : t :=
  {| map := map dm; draggableCursor := draggableCursor dm; options := v;
     shapes := shapes dm; selectedShapeId := selectedShapeId dm;
     isDrawing := isDrawing dm; drawingType := drawingType dm;
     drawingPath := drawingPath dm; lastSnapPoint := lastSnapPoint dm;
     _idCounter := _idCounter dm; _previewLine := _previewLine dm;
     _previewMarkers := _previewMarkers dm;
     _drawingListeners := _drawingListeners dm;
     _vertexMarkers := _vertexMarkers dm;
     _midpointMarkers := _midpointMarkers dm; _labels := _labels dm;
     _shapeNameCounter := _shapeNameCounter dm; events := events dm;
     history := history dm; snapEngine := snapEngine dm; store := store dm |}.

Definition set_shapes (v : JSMap.t Shape) (dm : t) : t :=
  {| map := map dm; draggableCursor := draggableCursor dm;
     options := options dm; shapes := v;
     selectedShapeId := selectedShapeId dm; isDrawing := isDrawing dm;
     drawingType := drawingType dm; drawingPath := drawingPath dm;
     lastSnapPoint := lastSnapPoint dm; _idCounter := _idCounter dm;
     _previewLine := _previewLine dm; _previewMarkers := _previewMarkers dm;
     _drawingListeners := _drawingListeners dm;
     _vertexMarkers := _vertexMarkers dm;
     _midpointMarkers := _midpointMarkers dm; _labels := _labels dm;
     _shapeNameCounter := _shapeNameCounter dm; events := events dm;
     history := history dm; snapEngine := snapEngine dm; store := store dm |}.

Definition set_selectedShapeId (v : option string) (dm : t) : t :=
  {| map := map dm; draggableCursor := draggableCursor dm;
     options := options dm; shapes := shapes dm; selectedShapeId := v;
     isDrawing := isDrawing dm; drawingType := drawingType dm;
     drawingPath := drawingPath dm; lastSnapPoint := lastSnapPoint dm;
     _idCounter := _idCounter dm; _previewLine := _previewLine dm;
     _previewMarkers := _previewMarkers dm;
     _drawingListeners := _drawingListeners dm;
     _vertexMarkers := _vertexMarkers dm;
     _midpointMarkers := _midpointMarkers dm; _labels := _labels dm;
     _shapeNameCounter := _shapeNameCounter dm; events := events dm;
     history := history dm; snapEngine := snapEngine dm; store := store dm |}.

Definition set_isDrawing (v : bool) (dm : t) : t :=
  {| map := map dm; draggableCursor := draggableCursor dm;
     options := options dm; shapes := shapes dm;
     selectedShapeId := selectedShapeId dm; isDrawing := v;
     drawingType := drawingType dm; drawingPath := drawingPath dm;
     lastSnapPoint := lastSnapPoint dm; _idCounter := _idCounter dm;
     _previewLine := _previewLine dm; _previewMarkers := _previewMarkers dm;
     _drawingListeners := _drawingListeners dm;
     _vertexMarkers := _vertexMarkers dm;
     _midpointMarkers := _midpointMarkers dm; _labels := _labels dm;
     _shapeNameCounter := _shapeNameCounter dm; events := events dm;
     history := history dm; snapEngine := snapEngine dm; store := store dm |}.

Definition set_drawingType (v : option string) (dm : t) : t :=
  {| map := map dm; draggableCursor := draggableCursor dm;
     options := options dm; shapes := shapes dm;
     selectedShapeId := selectedShapeId dm; isDrawing := isDrawing dm;
     drawingType := v; drawingPath := drawingPath dm;
     lastSnapPoint := lastSnapPoint dm; _idCounter := _idCounter dm;
     _previewLine := _previewLine dm; _previewMarkers := _previewMarkers dm;
     _drawingListeners := _drawingListeners dm;
     _vertexMarkers := _vertexMarkers dm;
     _midpointMarkers := _midpointMarkers dm; _labels := _labels dm;
     _shapeNameCounter := _shapeNameCounter dm; events := events dm;
     history := history dm; snapEngine := snapEngine dm; store := store dm |}.

Definition set_drawingPath (v : list Point) (dm : t) : t :=
  {| map := map dm; draggableCursor := draggableCursor dm;
     options := options dm; shapes := shapes dm;
     selectedShapeId := selectedShapeId dm; isDrawing := isDrawing dm;
     drawingType := drawingType dm; drawingPath := v;
     lastSnapPoint := lastSnapPoint dm; _idCounter := _idCounter dm;
     _previewLine := _previewLine dm; _previewMarkers := _previewMarkers dm;
     _drawingListeners := _drawingListeners dm;
     _vertexMarkers := _vertexMarkers dm;
     _midpointMarkers := _midpointMarkers dm; _labels := _labels dm;
     _shapeNameCounter := _shapeNameCounter dm; events := events dm;
     history := history dm; snapEngine := snapEngine dm; store := store dm |}.

Definition set_lastSnapPoint (v : option Point) (dm : t) : t :=
  {| map := map dm; draggableCursor := draggableCursor dm;
     options := options dm; shapes := shapes dm;
     selectedShapeId := selectedShapeId dm; isDrawing := isDrawing dm;
     drawingType := drawingType dm; drawingPath := drawingPath dm;
     lastSnapPoint := v; _idCounter := _idCounter dm;
     _previewLine := _previewLine dm; _previewMarkers := _previewMarkers dm;
     _drawingListeners := _drawingListeners dm;
     _vertexMarkers := _vertexMarkers dm;
     _midpointMarkers := _midpointMarkers dm; _labels := _labels dm;
     _shapeNameCounter := _shapeNameCounter dm; events := events dm;
     history := history dm; snapEngine := snapEngine dm; store := store dm |}.

Definition set__idCounter (v : nat) (dm : t) : t :=
  {| map := map dm; draggableCursor := draggableCursor dm;
     options := options dm; shapes := shapes dm;
     selectedShapeId := selectedShapeId dm; isDrawing := isDrawing dm;
     drawingType := drawingType dm; drawingPath := drawingPath dm;
     lastSnapPoint := lastSnapPoint dm; _idCounter := v;
     _previewLine := _previewLine dm; _previewMarkers := _previewMarkers dm;
     _drawingListeners := _drawingListeners dm;
     _vertexMarkers := _vertexMarkers dm;
     _midpointMarkers := _midpointMarkers dm; _labels := _labels dm;
     _shapeNameCounter := _shapeNameCounter dm; events := events dm;
     history := history dm; snapEngine := snapEngine dm; store := store dm |}.

Definition set__previewLine (v : option (list Point)) (dm : t) : t :=
  {| map := map dm; draggableCursor := draggableCursor dm;
     options := options dm; shapes := shapes dm;
     selectedShapeId := selectedShapeId dm; isDrawing := isDrawing dm;
     drawingType := drawingType dm; drawingPath := drawingPath dm;
     lastSnapPoint := lastSnapPoint dm; _idCounter := _idCounter dm;
     _previewLine := v; _previewMarkers := _previewMarkers dm;
     _drawingListeners := _drawingListeners dm;
     _vertexMarkers := _vertexMarkers dm;
     _midpointMarkers := _midpointMarkers dm; _labels := _labels dm;
     _shapeNameCounter := _shapeNameCounter dm; events := events dm;
     history := history dm; snapEngine := snapEngine dm; store := store dm |}.

Definition set__previewMarkers (v : list Marker) (dm : t) : t :=
  {| map := map dm; draggableCursor := draggableCursor dm;
     options := options dm; shapes := shapes dm;
     selectedShapeId := selectedShapeId dm; isDrawing := isDrawing dm;
     drawingType := drawingType dm; drawingPath := drawingPath dm;
     lastSnapPoint := lastSnapPoint dm; _idCounter := _idCounter dm;
     _previewLine := _previewLine dm; _previewMarkers := v;
     _drawingListeners := _drawingListeners dm;
     _vertexMarkers := _vertexMarkers dm;
     _midpointMarkers := _midpointMarkers dm; _labels := _labels dm;
     _shapeNameCounter := _shapeNameCounter dm; events := events dm;
     history := history dm; snapEngine := snapEngine dm; store := store dm |}.

Definition set__drawingListeners (v : bool) (dm : t) : t :=
  {| map := map dm; draggableCursor := draggableCursor dm;
     options := options dm; shapes := shapes dm;
     selectedShapeId := selectedShapeId dm; isDrawing := isDrawing dm;
     drawingType := drawingType dm; drawingPath := drawingPath dm;
     lastSnapPoint := lastSnapPoint dm; _idCounter := _idCounter dm;
     _previewLine := _previewLine dm; _previewMarkers := _previewMarkers dm;
     _drawingListeners := v; _vertexMarkers := _vertexMarkers dm;
     _midpointMarkers := _midpointMarkers dm; _labels := _labels dm;
     _shapeNameCounter := _shapeNameCounter dm; events := events dm;
     history := history dm; snapEngine := snapEngine dm; store := store dm |}.

Definition set__vertexMarkers (v : JSMap.t (list Marker)) (dm : t) : t :=
  {| map := map dm; draggableCursor := draggableCursor dm;
     options := options dm; shapes := shapes dm;
     selectedShapeId := selectedShapeId dm; isDrawing := isDrawing dm;
     drawingType := drawingType dm; drawingPath := drawingPath dm;
     lastSnapPoint := lastSnapPoint dm; _idCounter := _idCounter dm;
     _previewLine := _previewLine dm; _previewMarkers := _previewMarkers dm;
     _drawingListeners := _drawingListeners dm; _vertexMarkers := v;
     _midpointMarkers := _midpointMarkers dm; _labels := _labels dm;
     _shapeNameCounter := _shapeNameCounter dm; events := events dm;
     history := history dm; snapEngine := snapEngine dm; store := store dm |}.

Definition set__midpointMarkers (v : JSMap.t (list MidpointMarker)) (dm : t)
    : t :=
  {| map := map dm; draggableCursor := draggableCursor dm;
     options := options dm; shapes := shapes dm;
     selectedShapeId := selectedShapeId dm; isDrawing := isDrawing dm;
     drawingType := drawingType dm; drawingPath := drawingPath dm;
     lastSnapPoint := lastSnapPoint dm; _idCounter := _idCounter dm;
     _previewLine := _previewLine dm; _previewMarkers := _previewMarkers dm;
     _drawingListeners := _drawingListeners dm;
     _vertexMarkers := _vertexMarkers dm; _midpointMarkers := v;
     _labels := _labels dm; _shapeNameCounter := _shapeNameCounter dm;
     events := events dm; history := history dm; snapEngine := snapEngine dm;
     store := store dm |}.

Definition set__labels (v : JSMap.t Label) (dm : t) : t :=
  {| map := map dm; draggableCursor := draggableCursor dm;
     options := options dm; shapes := shapes dm;
     selectedShapeId := selectedShapeId dm; isDrawing := isDrawing dm;
     drawingType := drawingType dm; drawingPath := drawingPath dm;
     lastSnapPoint := lastSnapPoint dm; _idCounter := _idCounter dm;
     _previewLine := _previewLine dm; _previewMarkers := _previewMarkers dm;
     _drawingListeners := _drawingListeners dm;
     _vertexMarkers := _vertexMarkers dm;
     _midpointMarkers := _midpointMarkers dm; _labels := v;
     _shapeNameCounter := _shapeNameCounter dm; events := events dm;
     history := history dm; snapEngine := snapEngine dm; store := store dm |}.

Definition set__shapeNameCounter (v : nat) (dm : t) : t :=
  {| map := map dm; draggableCursor := draggableCursor dm;
     options := options dm; shapes := shapes dm;
     selectedShapeId := selectedShapeId dm; isDrawing := isDrawing dm;
     drawingType := drawingType dm; drawingPath := drawingPath dm;
     lastSnapPoint := lastSnapPoint dm; _idCounter := _idCounter dm;
     _previewLine := _previewLine dm; _previewMarkers := _previewMarkers dm;
     _drawingListeners := _drawingListeners dm;
     _vertexMarkers := _vertexMarkers dm;
     _midpointMarkers := _midpointMarkers dm; _labels := _labels dm;
     _shapeNameCounter := v; events := events dm; history := history dm;
     snapEngine := snapEngine dm; store := store dm |}.

Definition set_events (v : list Event) (dm : t) : t :=
  {| map := map dm; draggableCursor := draggableCursor dm;
     options := options dm; shapes := shapes dm;
     selectedShapeId := selectedShapeId dm; isDrawing := isDrawing dm;
     drawingType := drawingType dm; drawingPath := drawingPath dm;
     lastSnapPoint := lastSnapPoint dm; _idCounter := _idCounter dm;
     _previewLine := _previewLine dm; _previewMarkers := _previewMarkers dm;
     _drawingListeners := _drawingListeners dm;
     _vertexMarkers := _vertexMarkers dm;
     _midpointMarkers := _midpointMarkers dm; _labels := _labels dm;
     _shapeNameCounter := _shapeNameCounter dm; events := v;
     history := history dm; snapEngine := snapEngine dm; store := store dm |}.

Definition set_history (v : History.t Action) (dm : t) : t :=
  {| map := map dm; draggableCursor := draggableCursor dm;
     options := options dm; shapes := shapes dm;
     selectedShapeId := selectedShapeId dm; isDrawing := isDrawing dm;
     drawingType := drawingType dm; drawingPath := drawingPath dm;
     lastSnapPoint := lastSnapPoint dm; _idCounter := _idCounter dm;
     _previewLine := _previewLine dm; _previewMarkers := _previewMarkers dm;
     _drawingListeners := _drawingListeners dm;
     _vertexMarkers := _vertexMarkers dm;
     _midpointMarkers := _midpointMarkers dm; _labels := _labels dm;
     _shapeNameCounter := _shapeNameCounter dm; events := events dm;
     history := v; snapEngine := snapEngine dm; store := store dm |}.

Definition set_snapEngine (v : Snap.t) (dm : t) : t :=
  {| map := map dm; draggableCursor := draggableCursor dm;
     options := options dm; shapes := shapes dm;
     selectedShapeId := selectedShapeId dm; isDrawing := isDrawing dm;
     drawingType := drawingType dm; drawingPath := drawingPath dm;
     lastSnapPoint := lastSnapPoint dm; _idCounter := _idCounter dm;
     _previewLine := _previewLine dm; _previewMarkers := _previewMarkers dm;
     _drawingListeners := _drawingListeners dm;
     _vertexMarkers := _vertexMarkers dm;
     _midpointMarkers := _midpointMarkers dm; _labels := _labels dm;
     _shapeNameCounter := _shapeNameCounter dm; events := events dm;
     history := history dm; snapEngine := v; store := store dm |}.

Definition set_store (v : Store) (dm : t) : t :=
  {| map := map dm; draggableCursor := draggableCursor dm;
     options := options dm; shapes := shapes dm;
     selectedShapeId := selectedShapeId dm; isDrawing := isDrawing dm;
     drawingType := drawingType dm; drawingPath := drawingPath dm;
     lastSnapPoint := lastSnapPoint dm; _idCounter := _idCounter dm;
     _previewLine := _previewLine dm; _previewMarkers := _previewMarkers dm;
     _drawingListeners := _drawingListeners dm;
     _vertexMarkers := _vertexMarkers dm;
     _midpointMarkers := _midpointMarkers dm; _labels := _labels dm;
     _shapeNameCounter := _shapeNameCounter dm; events := events dm;
     history := history dm; snapEngine := snapEngine dm; store := v |}.

(** [this.events.emit(event, data)]; the bus catches what a listener
    throws, so that [emit] always returns. *)
Definition emit (e : Event) (dm : t) : t := set_events (events dm ++ [e]) dm.

(** A string in a condition: the empty string is falsy. *)
Definition truthy (s : string) : bool := negb (String.eqb s "").

(** The decimal digits of a counter. *)
Definition digits (n : nat) : string := NilZero.string_of_uint (Nat.to_uint n).

Definition _serialize (shape : Shape) : ShapeData :=
  {| d_id := id shape; d_name := name shape;
     d_geometry := geometry shape; d_area := area shape |}.

(** [shape.obj.getPath()]: the array of the overlay of a polygon or a
    polyline. *)
Definition getPath (dm : t) (shape : Shape) : list Point :=
  match deref (store dm) (obj shape) with
  | Some o => match geom o with Path p => p | _ => [] end
  | None => []
  end.

(** A write to the array of [shape.obj.getPath()]. *)
Definition update_path (f : list Point -> list Point) (shape : Shape)
    (dm : t) : t :=
  set_store
    (update (obj shape)
       (fun o => match geom o with
                 | Path p => set_geom (Path (f p)) o
                 | _ => o
                 end)
       (store dm)) dm.

(** ** History *)

(** [onChange: (state) => this.events.emit('history:change', state)] *)
Definition onChange : option (History.State -> t -> t * outcome) :=
  Some (fun state dm => (emit (HistoryChange state) dm, Returned)).

(** [this.history.push(action)] *)
Definition history_push (a : Action) (dm : t) : t :=
  let '(h, dm', _) := History.push onChange a (history dm) dm in
  set_history h dm'.

(** ** Markers and labels *)

Definition _showMarkers (shapeId : string) (dm : t) : t :=
  let dm1 := match JSMap.get shapeId (_vertexMarkers dm) with
             | Some ms => set__vertexMarkers
                 (JSMap.set shapeId (List.map (setVisible true) ms)
                            (_vertexMarkers dm)) dm
             | None => dm
             end in
  match JSMap.get shapeId (_midpointMarkers dm1) with
  | Some ms => set__midpointMarkers
      (JSMap.set shapeId
         (List.map (fun m => mkMidpointMarker (setVisible true (marker m))
                                              (insertedIndex m)) ms)
         (_midpointMarkers dm1)) dm1
  | None => dm1
  end.

Definition _hideMarkers (shapeId : string) (dm : t) : t :=
  let dm1 := match JSMap.get shapeId (_vertexMarkers dm) with
             | Some ms => set__vertexMarkers
                 (JSMap.set shapeId (List.map (setVisible false) ms)
                            (_vertexMarkers dm)) dm
             | None => dm
             end in
  match JSMap.get shapeId (_midpointMarkers dm1) with
  | Some ms => set__midpointMarkers
      (JSMap.set shapeId
         (List.map (fun m => mkMidpointMarker (setVisible false (marker m))
                                              (insertedIndex m)) ms)
         (_midpointMarkers dm1)) dm1
  | None => dm1
  end.

(** The markers leave the map and both entries are deleted. *)
Definition _removeMarkers (shapeId : string) (dm : t) : t :=
  set__midpointMarkers (JSMap.delete shapeId (_midpointMarkers dm))
    (set__vertexMarkers (JSMap.delete shapeId (_vertexMarkers dm)) dm).

Definition midpoint (p1 p2 : Point) : Point :=
  mkPoint ((lat p1 + lat p2) / 2) ((lng p1 + lng p2) / 2).

(** The marker [_createVertexMarker(shape, index)] returns. *)
Definition _createVertexMarker (path : list Point) (index : nat) : Marker :=
  mkMarker (coord path index) false true.

(** The marker [_createMidpointMarker(shape, edgeIndex)] returns. *)
Definition _createMidpointMarker (path : list Point) (edgeIndex : nat)
    : MidpointMarker :=
  let p1 := coord path edgeIndex in
  let p2 := coord path ((edgeIndex + 1) mod length path) in
  mkMidpointMarker (mkMarker (midpoint p1 p2) false true) None.

Definition is_path_type (g : ShapeGeometry) : bool :=
  match g with
  | Polygon _ | Polyline _ => true
  | _ => false
  end.

Definition is_polygon (g : ShapeGeometry) : bool :=
  match g with
  | Polygon _ => true
  | _ => false
  end.

Definition _createVertexMarkers (shape : Shape) (dm : t) : t :=
  let path := getPath dm shape in
  let vertices := List.map (_createVertexMarker path) (seq 0 (length path)) in
  let edgeCount := if is_polygon (geometry shape)
                   then length path else (length path - 1)%nat in
  let midpoints := List.map (_createMidpointMarker path) (seq 0 edgeCount) in
  set__midpointMarkers (JSMap.set (id shape) midpoints (_midpointMarkers dm))
    (set__vertexMarkers (JSMap.set (id shape) vertices (_vertexMarkers dm))
       dm).

Definition _getShapeCenter (shape : Shape) : Point :=
  match geometry shape with
  | Circle center _ => center
  | Rectangle b =>
      mkPoint ((north b + south b) / 2) ((east b + west b) / 2)
  | Polygon path | Polyline path =>
      match path with
      | [] => origin
      | _ =>
          let latSum := fold_left (fun s p => s + lat p) path 0 in
          let lngSum := fold_left (fun s p => s + lng p) path 0 in
          mkPoint (latSum / INR (length path)) (lngSum / INR (length path))
      end
  end.

Definition _createLabel (shape : Shape) (dm : t) : t :=
  set__labels
    (JSMap.set (id shape) (mkLabel (_getShapeCenter shape) (name shape) true)
               (_labels dm)) dm.

Definition _updateLabel (shape : Shape) (dm : t) : t :=
  match JSMap.get (id shape) (_labels dm) with
  | None => dm
  | Some label =>
      set__labels
        (JSMap.set (id shape)
           (mkLabel (_getShapeCenter shape) (name shape) (lb_on_map label))
           (_labels dm)) dm
  end.

Definition _removeLabel (shapeId : string) (dm : t) : t :=
  match JSMap.get shapeId (_labels dm) with
  | Some _ => set__labels (JSMap.delete shapeId (_labels dm)) dm
  | None => dm
  end.

(** ** Selection *)

Definition restyle (s : Style) (shape : Shape) (dm : t) : t :=
  set_store (update (obj shape) (setOptions s) (store dm)) dm.

Definition selectShape (shapeId : string) (dm : t) : t :=
  if match selectedShapeId dm with
     | Some s => String.eqb s shapeId
     | None => false
     end
  then dm
  else
    let dm1 :=
      match selectedShapeId dm with
      | Some sel =>
          if truthy sel then
            let dm' := _hideMarkers sel dm in
            match JSMap.get sel (shapes dm') with
            | Some prev => restyle (styles_completed (options dm')) prev dm'
            | None => dm'
            end
          else dm
      | None => dm
      end in
    let dm2 := set_selectedShapeId (Some shapeId) dm1 in
    match JSMap.get shapeId (shapes dm2) with
    | Some shape =>
        emit (ShapeSelected (_serialize shape))
          (_showMarkers shapeId
             (restyle (styles_selected (options dm2)) shape dm2))
    | None => dm2
    end.

Definition deselectShape (dm : t) : t :=
  match selectedShapeId dm with
  | None => dm
  | Some sel =>
      if truthy sel then
        let dm1 := _hideMarkers sel dm in
        let dm2 := match JSMap.get sel (shapes dm1) with
                   | Some shape =>
                       restyle (styles_completed (options dm1)) shape dm1
                   | None => dm1
                   end in
        emit ShapeDeselected (set_selectedShapeId None dm2)
      else dm
  end.

(** ** Shapes *)

Definition _removeShape (shapeId : string) (dm : t) : t :=
  match JSMap.get shapeId (shapes dm) with
  | None => dm
  | Some shape =>
      let dm1 := _removeLabel shapeId (_removeMarkers shapeId dm) in
      let dm2 := set_store (update (obj shape) setMap_null (store dm1)) dm1 in
      let dm3 := set_shapes (JSMap.delete shapeId (shapes dm2)) dm2 in
      let dm4 := set_snapEngine (Snap.removeShape shapeId (snapEngine dm3))
                                dm3 in
      let dm5 := match selectedShapeId dm4 with
                 | Some s => if String.eqb s shapeId
                             then set_selectedShapeId None dm4 else dm4
                 | None => dm4
                 end in
      emit (ShapeDeleted shapeId) dm5
  end.

(** [{ strokeColor: style.strokeColor, strokeWeight: style.strokeWeight }] *)
Definition stroke_only (s : Style) : Style :=
  mkStyle (strokeColor s) (strokeWeight s) None None.

(** The overlay [new google.maps.X({...})] creates for a geometry. *)
Definition overlay_for (g : ShapeGeometry) (s : Style) : Overlay :=
  match g with
  | Polygon path => mkOverlay (Path path) s true false true
  | Polyline path => mkOverlay (Path path) (stroke_only s) true false true
  | Circle center radius => mkOverlay (Disc center radius) s true true true
  | Rectangle bounds => mkOverlay (Box bounds) s true true true
  end.

Definition _restoreShape (data : ShapeData) (dm : t) : t :=
  let style := styles_completed (options dm) in
  let (st, o) := alloc (overlay_for (d_geometry data) style) (store dm) in
  let dm0 := set_store st dm in
  let shape := mkShape (d_id data) (d_name data) (d_geometry data)
                       (d_area data) o in
  let dm1 := set_shapes (JSMap.set (d_id data) shape (shapes dm0)) dm0 in
  let dm2 := set_snapEngine
               (Snap.addShape (d_id data) (type_of (d_geometry data)) o
                              (snapEngine dm1)) dm1 in
  let dm3 := if is_path_type (geometry shape)
             then _createVertexMarkers shape dm2 else dm2 in
  let dm4 := _createLabel shape dm3 in
  emit (ShapeCreated (_serialize shape)) dm4.

Definition _registerShape (shape : Shape) (dm : t) : t :=
  let dm1 := set_shapes (JSMap.set (id shape) shape (shapes dm)) dm in
  let dm2 := set_snapEngine
               (Snap.addShape (id shape) (type_of (geometry shape))
                              (obj shape) (snapEngine dm1)) dm1 in
  (* Create vertex markers for polygon/polyline *)
  let dm3 := if is_path_type (geometry shape)
             then _createVertexMarkers shape dm2 else dm2 in
  (* Create label for the shape *)
  let dm4 := _createLabel shape dm3 in
  let data := _serialize shape in
  let dm5 := history_push (ActCreate (id shape) data) dm4 in
  emit (ShapeCreated data) dm5.

(** The closures of an entry. *)
Definition call_undo (a : Action) (dm : t) : t * outcome :=
  match a with
  | ActCreate shapeId _ => (_removeShape shapeId dm, Returned)
  | ActDelete data _ => (_restoreShape data dm, Returned)
  | ActClear all =>
      (fold_left (fun dm d => _restoreShape d dm) all dm, Returned)
  end.

Definition call_redo (a : Action) (dm : t) : t * outcome :=
  match a with
  | ActCreate _ data => (_restoreShape data dm, Returned)
  | ActDelete _ shapeId => (_removeShape shapeId dm, Returned)
  | ActClear _ =>
      (fold_left (fun dm k => _removeShape k dm) (JSMap.keys (shapes dm)) dm,
       Returned)
  end.

Definition undo (dm : t) : t :=
  let '(h, dm', _) := History.undo call_undo onChange (history dm) dm in
  set_history h dm'.

Definition redo (dm : t) : t :=
  let '(h, dm', _) := History.redo call_redo onChange (history dm) dm in
  set_history h dm'.

Definition canUndo (dm : t) : bool := History.canUndo (history dm).
Definition canRedo (dm : t) : bool := History.canRedo (history dm).

Definition getShapes (dm : t) : list ShapeData :=
  List.map _serialize (JSMap.values (shapes dm)).

Definition deleteShape (shapeId : string) (dm : t) : t :=
  match JSMap.get shapeId (shapes dm) with
  | None => dm
  | Some shape =>
      let data := _serialize shape in
      _removeShape shapeId (history_push (ActDelete data shapeId) dm)
  end.

Definition clearAll (dm : t) : t :=
  if (JSMap.size (shapes dm) =? 0)%nat then dm
  else
    let all := getShapes dm in
    let dm1 := history_push (ActClear all) dm in
    let dm2 := fold_left (fun dm k => _removeShape k dm)
                         (JSMap.keys (shapes dm1)) dm1 in
    emit ShapesCleared dm2.

Definition getShapeById (shapeId : string) (dm : t) : option ShapeData :=
  option_map _serialize (JSMap.get shapeId (shapes dm)).

Definition updateShapeName (shapeId newName : string) (dm : t) : t :=
  match JSMap.get shapeId (shapes dm) with
  | None => dm
  | Some shape =>
      let shape' := mkShape (id shape) newName (geometry shape) (area shape)
                            (obj shape) in
      let dm1 := set_shapes (JSMap.set shapeId shape' (shapes dm)) dm in
      emit (ShapeUpdated (_serialize shape')) (_updateLabel shape' dm1)
  end.

(** [setSnapping(opts)]; an absent key of [opts] is [None]. *)
Definition setSnapping (optEnabled : option bool) (optThreshold : option R)
    (dm : t) : t :=
  let dm1 :=
    match optEnabled with
    | Some b =>
        let se := if b then Snap.enable (snapEngine dm)
                  else Snap.disable (snapEngine dm) in
        let o := options dm in
        set_options (mkOptions b (snapping_threshold o) (history_maxSteps o)
                       (styles_drawing o) (styles_completed o)
                       (styles_selected o))
                    (set_snapEngine se dm)
    | None => dm
    end in
  match optThreshold with
  | Some n =>
      let o := options dm1 in
      set_options (mkOptions (snapping_enabled o) n (history_maxSteps o)
                     (styles_drawing o) (styles_completed o)
                     (styles_selected o))
                  (set_snapEngine (Snap.setThreshold n (snapEngine dm1)) dm1)
  | None => dm1
  end.

Definition isSnappingEnabled (dm : t) : bool :=
  Snap.isEnabled (snapEngine dm).

(** ** Drawing *)

Definition _cleanupDrawing (dm : t) : t :=
  let dm1 := set__drawingListeners false dm in
  let dm2 := set__previewLine None dm1 in
  let dm3 := set__previewMarkers [] dm2 in
  let dm4 := set_snapEngine (Snap.hideIndicator (snapEngine dm3)) dm3 in
  set_lastSnapPoint None dm4.

Definition stopDrawing (dm : t) : t :=
  let dm1 := _cleanupDrawing dm in
  let dm2 := set_isDrawing false dm1 in
  let dm3 := set_drawingType None dm2 in
  let dm4 := set_drawingPath [] dm3 in
  let dm5 := set_draggableCursor None dm4 in
  emit DrawingCancel dm5.

Definition startDrawing (type : string) (dm : t) : t :=
  let dm0 := if isDrawing dm then stopDrawing dm else dm in
  let dm1 := set_isDrawing true dm0 in
  let dm2 := set_drawingType (Some type) dm1 in
  let dm3 := set_drawingPath [] dm2 in
  let dm4 := set_lastSnapPoint None dm3 in
  let dm5 := deselectShape dm4 in
  let dm6 := set_draggableCursor (Some "crosshair") dm5 in
  let dm7 := set__drawingListeners true dm6 in
  emit (DrawingStart type) dm7.

(** The names that [Object.prototype] defines.  The object literal of
    [completeDrawing] inherits them: read under one of these names it
    gives the inherited member (a function, and for [__proto__] the
    prototype object), not [undefined]. *)
Definition prototype_names : list string :=
  ["constructor"; "__defineGetter__"; "__defineSetter__"; "hasOwnProperty";
   "__lookupGetter__"; "__lookupSetter__"; "isPrototypeOf";
   "propertyIsEnumerable"; "toString"; "valueOf"; "__proto__";
   "toLocaleString"].

Definition is_prototype_name (type : string) : bool :=
  existsb (String.eqb type) prototype_names.

(** The value of [minPoints] in [completeDrawing]: a number, or the
    member inherited under the name of the drawing type. *)
Inductive MinPoints : Type :=
| Points (n : nat)
| Inherited (name : string).

(** [{ polygon: 3, polyline: 2, circle: 2, rectangle: 2 }[type] || 2]: an
    inherited member is truthy and is kept by [||]; every other name, and
    [null] (the key ["null"]), reads [undefined] and gives [2]. *)
Definition minPoints (drawingType : option string) : MinPoints :=
  match drawingType with
  | Some type =>
      if String.eqb type "polygon" then Points 3
      else if String.eqb type "polyline" then Points 2
      else if String.eqb type "circle" then Points 2
      else if String.eqb type "rectangle" then Points 2
      else if is_prototype_name type then Inherited type
      else Points 2
  | None => Points 2
  end.

(** [length < minPoints]: a function or an object converts to [NaN], and
    a comparison with [NaN] is [false]. *)
Definition length_lt (length : nat) (m : MinPoints) : bool :=
  match m with
  | Points n => (length <? n)%nat
  | Inherited _ => false
  end.

(** The geometry and the area [_createShape] computes from the drawing
    path; nothing for another type.  A circle and a rectangle read the
    first two points of the path, which [completeDrawing] has checked to
    be there. *)
Definition shape_of_drawing (drawingType : option string)
    (drawingPath : list Point) : option (ShapeGeometry * R) :=
  match drawingType with
  | None => None
  | Some type =>
      if String.eqb type "polygon" then
        Some (Polygon drawingPath, calculatePolygonArea drawingPath)
      else if String.eqb type "polyline" then
        Some (Polyline drawingPath, 0)
      else if String.eqb type "circle" then
        match drawingPath with
        | center :: edge :: _ =>
            let radius := distanceLatLng center edge in
            Some (Circle center radius, PI * radius * radius)
        | _ => None
        end
      else if String.eqb type "rectangle" then
        match drawingPath with
        | p1 :: p2 :: _ =>
            let bounds := mkBounds (Math_max (lat p1) (lat p2))
                                   (Math_min (lat p1) (lat p2))
                                   (Math_max (lng p1) (lng p2))
                                   (Math_min (lng p1) (lng p2)) in
            let w := distanceLatLng (mkPoint (north bounds) (west bounds))
                                    (mkPoint (north bounds) (east bounds)) in
            let h := distanceLatLng (mkPoint (south bounds) (west bounds))
                                    (mkPoint (north bounds) (west bounds)) in
            Some (Rectangle bounds, w * h)
        | _ => None
        end
      else None
  end.

Definition _createShape (dm : t) : t * option Shape :=
  let dm1 := set__idCounter (S (_idCounter dm)) dm in
  let shapeId := "shape_" ++ digits (_idCounter dm1) in
  let dm2 := set__shapeNameCounter (S (_shapeNameCounter dm1)) dm1 in
  let shapeName := "Shape " ++ digits (_shapeNameCounter dm2) in
  let style := styles_completed (options dm2) in
  match shape_of_drawing (drawingType dm2) (drawingPath dm2) with
  | None => (dm2, None)
  | Some (g, a) =>
      let (st, o) := alloc (overlay_for g style) (store dm2) in
      (set_store st dm2, Some (mkShape shapeId shapeName g a o))
  end.

Definition completeDrawing (dm : t) : t :=
  if negb (isDrawing dm) then dm
  else if length_lt (length (drawingPath dm)) (minPoints (drawingType dm))
  then dm
  else
    let (dm1, shape) := _createShape dm in
    let dm2 := match shape with
               | Some sh =>
                   emit (DrawingComplete (_serialize sh))
                        (_registerShape sh dm1)
               | None => dm1
               end in
    stopDrawing dm2.

Definition _addPreviewMarker (pt : Point) (dm : t) : t :=
  set__previewMarkers (_previewMarkers dm ++ [mkMarker pt true true]) dm.

Definition _updatePreviewLine (path : list Point) (dm : t) : t :=
  set__previewLine (Some path) dm.

Definition is_type (drawingType : option string) (type : string) : bool :=
  match drawingType with
  | Some s => String.eqb s type
  | None => false
  end.

Definition _handleDrawingClick (pt : Point) (dm : t) : t :=
  if is_type (drawingType dm) "polygon" || is_type (drawingType dm) "polyline"
  then
    let dm1 := set_drawingPath (drawingPath dm ++ [pt]) dm in
    let dm2 := _addPreviewMarker pt dm1 in
    let dm3 := _updatePreviewLine (drawingPath dm2) dm2 in
    emit (DrawingUpdate (length (drawingPath dm3))) dm3
  else if is_type (drawingType dm) "circle" ||
          is_type (drawingType dm) "rectangle"
  then
    let dm1 := set_drawingPath (drawingPath dm ++ [pt]) dm in
    if (length (drawingPath dm1) =? 1)%nat
    then _addPreviewMarker pt dm1
    else completeDrawing dm1
  else dm.

(** The [click] listener of [_setupDrawingListeners]. *)
Definition drawing_click (latLng : Point) (dm : t) : t :=
  if negb (isDrawing dm) then dm
  else
    let pt := match lastSnapPoint dm with
              | Some p => p
              | None => latLng
              end in
    _handleDrawingClick pt dm.

(** [this.snapEngine.findSnapPoint(pt, excludeShapeId)] from the manager:
    the engine reads the overlays of the store. *)
Definition findSnapPoint (pt : Point) (excludeShapeId : option string)
    (dm : t) : result (option Snap.SnapResult) * t :=
  let '(r, se, _) :=
    Snap.findSnapPoint (store dm) (snapEngine dm) pt excludeShapeId in
  (r, set_snapEngine se dm).

(** The [mousemove] listener of [_setupDrawingListeners]; a [TypeError]
    ends the listener. *)
Definition drawing_mousemove (latLng : Point) (dm : t) : t :=
  let pt := latLng in
  let step1 :=
    if snapping_enabled (options dm) then
      match findSnapPoint pt None dm with
      | (Ok snap, dm1) =>
          let dm2 := set_lastSnapPoint (option_map Snap.sr_point snap) dm1 in
          Some (emit (SnapActive (match snap with Some _ => true
                                                | None => false end)
                                 (lastSnapPoint dm2)) dm2)
      | (TypeError, dm1) => None
      end
    else Some dm in
  match step1 with
  | None => dm
  | Some dm3 =>
      if (0 <? length (drawingPath dm3))%nat &&
         (is_type (drawingType dm3) "polygon" ||
          is_type (drawingType dm3) "polyline")
      then _updatePreviewLine
             (drawingPath dm3 ++ [match lastSnapPoint dm3 with
                                  | Some p => p
                                  | None => pt
                                  end]) dm3
      else dm3
  end.

(** The [click] listener of [_setupMapClickListener]; [stop] is the mark a
    shape or a marker left on the event. *)
Definition map_click (stop : bool) (dm : t) : t :=
  if negb (isDrawing dm) && negb stop then deselectShape dm else dm.

(** ** Editing with the handles *)

Definition _updateMidpointPositions (shape : Shape) (dm : t) : t :=
  let path := getPath dm shape in
  match JSMap.get (id shape) (_midpointMarkers dm) with
  | None => dm
  | Some midpoints =>
      let moved :=
        List.map
          (fun im : nat * MidpointMarker =>
             let (i, m) := im in
             let p1 := coord path i in
             let p2 := coord path ((i + 1) mod length path) in
             mkMidpointMarker (setPosition (midpoint p1 p2) (marker m))
                              (insertedIndex m))
          (combine (seq 0 (length midpoints)) midpoints) in
      set__midpointMarkers
        (JSMap.set (id shape) moved (_midpointMarkers dm)) dm
  end.

(** The shape with [path] (and [area] for a polygon) read again from the
    overlay. *)
Definition refreshed (path : list Point) (shape : Shape) : Shape :=
  match geometry shape with
  | Polygon _ =>
      mkShape (id shape) (name shape) (Polygon path)
              (calculatePolygonArea path) (obj shape)
  | Polyline _ =>
      mkShape (id shape) (name shape) (Polyline path) (area shape)
              (obj shape)
  | _ => shape
  end.

(** An assignment to fields of the object [shape]: it shows in the
    registry when the registry holds the object. *)
Definition mutate_shape (shape' : Shape) (dm : t) : t :=
  if JSMap.has (id shape') (shapes dm)
  then set_shapes (JSMap.set (id shape') shape' (shapes dm)) dm
  else dm.

Definition _updateShapeData (shape : Shape) (dm : t) : t :=
  let shape' := refreshed (getPath dm shape) shape in
  let dm1 := mutate_shape shape' dm in
  let dm2 := set_snapEngine
               (Snap.addShape (id shape') (type_of (geometry shape'))
                  (obj shape')
                  (Snap.removeShape (id shape') (snapEngine dm1))) dm1 in
  let dm3 := _updateLabel shape' dm2 in
  emit (ShapeUpdated (_serialize shape')) dm3.

Definition _rebuildMarkers (shape : Shape) (dm : t) : t :=
  let wasSelected := match selectedShapeId dm with
                     | Some s => String.eqb s (id shape)
                     | None => false
                     end in
  let dm1 := _removeMarkers (id shape) dm in
  let dm2 := _createVertexMarkers shape dm1 in
  let dm3 := if wasSelected then _showMarkers (id shape) dm2 else dm2 in
  _updateShapeData shape dm3.

(** [marker.setPosition] on the vertex marker [index] of a shape. *)
Definition move_vertexMarker (shapeId : string) (index : nat) (p : Point)
    (dm : t) : t :=
  match JSMap.get shapeId (_vertexMarkers dm) with
  | Some ms =>
      set__vertexMarkers
        (JSMap.set shapeId
           (List.map (fun im : nat * Marker =>
                        let (i, m) := im in
                        if (i =? index)%nat then setPosition p m else m)
                     (combine (seq 0 (length ms)) ms))
           (_vertexMarkers dm)) dm
  | None => dm
  end.

(** What a [drag] listener does with the result of the snap query on the
    vertex [index] of the path. *)
Definition apply_drag (shape : Shape) (index : nat) (latLng : Point)
    (snap : option Snap.SnapResult) (setMarker : Point -> t -> t) (dm : t)
    : t :=
  match snap with
  | Some s =>
      let dm1 := setMarker (Snap.sr_point s) dm in
      let dm2 := update_path (setAt index (Snap.sr_point s)) shape dm1 in
      emit (SnapActive true (Some (Snap.sr_point s))) dm2
  | None =>
      let dm1 := update_path (setAt index latLng) shape dm in
      let dm2 := set_snapEngine (Snap.hideIndicator (snapEngine dm1)) dm1 in
      emit (SnapActive false None) dm2
  end.

(** The snap query of a [drag] listener:
    [snapping.enabled ? findSnapPoint(pt, shape.id) : null]. *)
Definition drag_snap (shape : Shape) (pt : Point) (dm : t)
    : result (option Snap.SnapResult) * t :=
  if snapping_enabled (options dm)
  then findSnapPoint pt (Some (id shape)) dm
  else (Ok None, dm).

(** The listeners of the vertex marker [index] of the shape [shapeId].
    The closures hold the shape object; the registry holds the same object
    for as long as its markers exist. *)
Definition vertex_drag (shapeId : string) (index : nat) (latLng : Point)
    (dm : t) : t :=
  match JSMap.get shapeId (shapes dm) with
  | None => dm
  | Some shape =>
      match drag_snap shape latLng dm with
      | (TypeError, _) => dm
      | (Ok snap, dm1) =>
          _updateMidpointPositions shape
            (apply_drag shape index latLng snap
                        (move_vertexMarker shapeId index) dm1)
      end
  end.

Definition vertex_dragend (shapeId : string) (index : nat) (dm : t) : t :=
  match JSMap.get shapeId (shapes dm) with
  | None => dm
  | Some shape =>
      let dm1 := _updateShapeData shape dm in
      let dm2 := set_snapEngine (Snap.hideIndicator (snapEngine dm1)) dm1 in
      emit (SnapActive false None) dm2
  end.

(** The midpoint marker [edgeIndex] of a shape, when it exists. *)
Definition midpointMarker (shapeId : string) (edgeIndex : nat) (dm : t)
    : option MidpointMarker :=
  match JSMap.get shapeId (_midpointMarkers dm) with
  | Some ms => nth_error ms edgeIndex
  | None => None
  end.

Definition set_midpointMarker (shapeId : string) (edgeIndex : nat)
    (f : MidpointMarker -> MidpointMarker) (dm : t) : t :=
  match JSMap.get shapeId (_midpointMarkers dm) with
  | Some ms =>
      set__midpointMarkers
        (JSMap.set shapeId
           (List.map (fun im : nat * MidpointMarker =>
                        let (i, m) := im in
                        if (i =? edgeIndex)%nat then f m else m)
                     (combine (seq 0 (length ms)) ms))
           (_midpointMarkers dm)) dm
  | None => dm
  end.

(** The listeners of the midpoint marker [edgeIndex] of the shape
    [shapeId]. *)
Definition midpoint_dragstart (shapeId : string) (edgeIndex : nat) (dm : t)
    : t :=
  match JSMap.get shapeId (shapes dm), midpointMarker shapeId edgeIndex dm with
  | Some shape, Some m =>
      (* Insert new vertex at the start of drag *)
      let inserted := (edgeIndex + 1)%nat in
      let dm1 := set_midpointMarker shapeId edgeIndex
                   (fun m => mkMidpointMarker (marker m) (Some inserted)) dm in
      update_path (insertAt inserted (position (marker m))) shape dm1
  | _, _ => dm
  end.

Definition midpoint_drag (shapeId : string) (edgeIndex : nat)
    (latLng : Point) (dm : t) : t :=
  match JSMap.get shapeId (shapes dm), midpointMarker shapeId edgeIndex dm with
  | Some shape, Some m =>
      match insertedIndex m with
      | None => dm
      | Some inserted =>
          match drag_snap shape latLng dm with
          | (TypeError, _) => dm
          | (Ok snap, dm1) =>
              apply_drag shape inserted latLng snap
                (fun p => set_midpointMarker shapeId edgeIndex
                   (fun m => mkMidpointMarker (setPosition p (marker m))
                                              (insertedIndex m)))
                dm1
          end
      end
  | _, _ => dm
  end.

Definition midpoint_dragend (shapeId : string) (edgeIndex : nat) (dm : t)
    : t :=
  match JSMap.get shapeId (shapes dm), midpointMarker shapeId edgeIndex dm with
  | Some shape, Some _ =>
      (* Rebuild markers after drag is complete *)
      let dm1 := _rebuildMarkers shape dm in
      let dm2 := set_snapEngine (Snap.hideIndicator (snapEngine dm1)) dm1 in
      emit (SnapActive false None) dm2
  | _, _ => dm
  end.

(** A whole gesture on a midpoint marker: [dragstart], the [drag] events
    of the pointer positions [moves], [dragend]. *)
Definition midpoint_gesture (shapeId : string) (edgeIndex : nat)
    (moves : list Point) (dm : t) : t :=
  midpoint_dragend shapeId edgeIndex
    (fold_left (fun dm p => midpoint_drag shapeId edgeIndex p dm) moves
       (midpoint_dragstart shapeId edgeIndex dm)).

(** A whole gesture on a vertex marker. *)
Definition vertex_gesture (shapeId : string) (index : nat)
    (moves : list Point) (dm : t) : t :=
  vertex_dragend shapeId index
    (fold_left (fun dm p => vertex_drag shapeId index p dm) moves dm).

(** Between [dragstart] and [dragend] of the midpoint marker [e] of the
    shape under [k]: the path is the path [base] it had before, with one
    vertex inserted at [e + 1], and the marker remembers that index. *)
Definition midpoint_dragging (k : string) (e : nat) (shape : Shape)
    (base : list Point) (dm : t) : Prop :=
  JSMap.get k (shapes dm) = Some shape /\
  (exists x, getPath dm shape = insertAt (e + 1) x base) /\
  (exists m, midpointMarker k e dm = Some m /\
             insertedIndex m = Some (e + 1)%nat).

(** The [keydown] handler of [_setupKeyboardShortcuts]. *)
Definition keydown (ctrlKey shiftKey : bool) (key : string) (dm : t) : t :=
  let dm1 := if ctrlKey && String.eqb key "z" && negb shiftKey
             then undo dm else dm in
  let dm2 := if ctrlKey && (String.eqb key "y" ||
                            (shiftKey && String.eqb key "z"))
             then redo dm1 else dm1 in
  let dm3 := if String.eqb key "Escape" && isDrawing dm2
             then stopDrawing dm2 else dm2 in
  let dm4 := if String.eqb key "Enter" && isDrawing dm3
             then completeDrawing dm3 else dm3 in
  if String.eqb key "Delete" || String.eqb key "Backspace" then
    match selectedShapeId dm4 with
    | Some sel => if truthy sel then deleteShape sel dm4 else dm4
    | None => dm4
    end
  else dm4.

(** [new DrawingManager(map, options)] *)
Definition new (m : Map) (opts : Options) : t :=
  let se := Snap.new (Some m) (Some (snapping_threshold opts)) None in
  {| map := m;
     draggableCursor := None;
     options := opts;
     shapes := JSMap.empty;
     selectedShapeId := None;
     isDrawing := false;
     drawingType := None;
     drawingPath := [];
     lastSnapPoint := None;
     _idCounter := 0;
     _previewLine := None;
     _previewMarkers := [];
     _drawingListeners := false;
     _vertexMarkers := JSMap.empty;
     _midpointMarkers := JSMap.empty;
     _labels := JSMap.empty;
     _shapeNameCounter := 0;
     events := [];
     history := History.new Action (Some (history_maxSteps opts));
     snapEngine := if snapping_enabled opts then se else Snap.disable se;
     store := [] |}.

End Drawing.

(* ================================================================== *)
(** * A session to run the code on *)
(* ================================================================== *)

Module Sample.

Import Geometry GoogleMaps.
Local Open Scope R_scope.
Local Open Scope string_scope.

(** A projection that reads the degrees as pixels, at zoom [0]. *)
Definition projection : Projection :=
  mkProjection (fun p => mkPixel (lng p) (lat p))
               (fun q => mkPoint (py q) (px q)).

Definition map : Map := mkMap (Some projection) 0.

Definition v1 : Point := mkPoint 0 0.
Definition v2 : Point := mkPoint 0 10.
Definition v3 : Point := mkPoint 10 0.

(** A polygon drawn with three clicks and completed. *)
Definition triangle : Drawing.t :=
  Drawing.completeDrawing
    (Drawing.drawing_click v3
       (Drawing.drawing_click v2
          (Drawing.drawing_click v1
             (Drawing.startDrawing "polygon"
                (Drawing.new map Drawing.default_options))))).

(** A drawing of a polygon with two points so far. *)
Definition two_clicks : Drawing.t :=
  Drawing.drawing_click v2
    (Drawing.drawing_click v1
       (Drawing.startDrawing "polygon"
          (Drawing.new map Drawing.default_options))).

(** The triangle, selected. *)
Definition selected : Drawing.t := Drawing.selectShape "shape_1" triangle.

(** Pointer positions of a drag. *)
Definition m1 : Point := mkPoint 3 3.
Definition m2 : Point := mkPoint 4 6.

(** A snap engine with one registered polyline, the segment from
    [(0, 0)] to [(0, 10)], whose overlay is the only one of the store. *)
Definition store : Store :=
  [mkOverlay (Path [v1; v2]) (mkStyle None None None None) true false true].

Definition engine : Snap.t :=
  Snap.addShape "shape_1" "polyline" 0 (Snap.new (Some map) None None).

(** The cursor, 5 pixels from the middle of the segment. *)
Definition cursor : Point := mkPoint 5 5.

Definition segment : Snap.Edge := Snap.mkEdge v1 v2 "shape_1".



(** The triangle and a polyline drawn after it, from [(20, 0)] to
    [(20, 10)], and a pointer position 5 pixels from the polyline. *)
Definition w1 : Point := mkPoint 20 0.
Definition w2 : Point := mkPoint 20 10.

Definition two_shapes : Drawing.t :=
  Drawing.completeDrawing
    (Drawing.drawing_click w2
       (Drawing.drawing_click w1
          (Drawing.startDrawing "polyline" triangle))).

Definition near_polyline : Point := mkPoint 25 5.

(** A drawing started under a name that [Object.prototype] defines. *)
Definition constructor_drawing : Drawing.t :=
  Drawing.startDrawing "constructor"
    (Drawing.new map Drawing.default_options).

Definition segment2 : Snap.Edge := Snap.mkEdge w1 w2 "shape_2".

End Sample.


(* ================================================================== *)
(** * utils/geometry.js, the rest of the file *)
(* ================================================================== *)

Module GeometryMore.

Import Geometry GoogleMaps.
Local Open Scope R_scope.

(** [projectPointToLine(point, lineStart, lineEnd)] *)
Definition projectPointToLine (point lineStart lineEnd : Pixel)
    : Snap.Projected :=
  let dx := px lineEnd - px lineStart in
  let dy := py lineEnd - py lineStart in
  let lengthSquared := dx * dx + dy * dy in
  if Reqb lengthSquared 0 then
    (* Line segment is actually a point *)
    Snap.mkProjected (mkPixel (px lineStart) (py lineStart))
                     (distancePixels point lineStart) 0
  else
    (* Calculate projection parameter t *)
    let t0 := ((px point - px lineStart) * dx +
               (py point - py lineStart) * dy) / lengthSquared in
    (* Clamp t to [0, 1] to stay within line segment *)
    let t := Math_max 0 (Math_min 1 t0) in
    let projected := mkPixel (px lineStart + t * dx)
                             (py lineStart + t * dy) in
    Snap.mkProjected projected (distancePixels point projected) t.

(** The result of [projectLatLngToLine]: [{ point, distance, t }]. *)
Record LatLngProjection : Type := mkLatLngProjection {
  lp_point : Point;
  lp_distance : R;
  lp_t : R
}.

(** [projectLatLngToLine(point, lineStart, lineEnd, map)]; a map without
    projection makes the first conversion throw. *)
Definition projectLatLngToLine (point lineStart lineEnd : Point) (map : Map)
    : result LatLngProjection :=
  match getProjection map with
  | None => TypeError
  | Some projection =>
      let pointPixel := fromLatLngToPoint projection point in
      let startPixel := fromLatLngToPoint projection lineStart in
      let endPixel := fromLatLngToPoint projection lineEnd in
      let r := projectPointToLine
                 (mkPixel (px pointPixel) (py pointPixel))
                 (mkPixel (px startPixel) (py startPixel))
                 (mkPixel (px endPixel) (py endPixel)) in
      let projectedLatLng :=
        fromPointToLatLng projection
          (mkPixel (px (Snap.pr_point r)) (py (Snap.pr_point r))) in
      Ok (mkLatLngProjection
            (mkPoint (lat projectedLatLng) (lng projectedLatLng))
            (Snap.pr_distance r) (Snap.pr_t r))
  end.

(** An edge of [getEdgesFromCoordinates]: [{ start, end, index }]. *)
Record IndexedEdge : Type := mkIndexedEdge {
  ie_start : Point;
  ie_end : Point;
  ie_index : nat
}.

(** [getEdgesFromCoordinates(coordinates, closed)]; for an open path the
    bound [coordinates.length - 1] is [-1] on the empty array, and the
    loop does not run. *)
Definition getEdgesFromCoordinates (coordinates : list Point) (closed : bool)
    : list IndexedEdge :=
  let len := if closed then length coordinates
             else (length coordinates - 1)%nat in
  List.map
    (fun i =>
       let j := ((i + 1) mod length coordinates)%nat in
       mkIndexedEdge (coord coordinates i) (coord coordinates j) i)
    (seq 0 len).

(** The test of one edge in [isPointInPolygon]:
    [((yi > y) !== (yj > y)) && (x < (xj - xi) * (y - yi) / (yj - yi) + xi)]. *)
Definition intersect (x y : R) (pi pj : Point) : bool :=
  let xi := lng pi in
  let yi := lat pi in
  let xj := lng pj in
  let yj := lat pj in
  xorb (Rltb y yi) (Rltb y yj) &&
  Rltb x ((xj - xi) * (y - yi) / (yj - yi) + xi).

(** [isPointInPolygon(point, polygon)]: the loop
    [for (i = 0, j = length - 1; i < length; j = i++)] carries [inside]
    and [j]. *)
Definition isPointInPolygon (point : Point) (polygon : list Point) : bool :=
  let x := lng point in
  let y := lat point in
  fst (fold_left
         (fun (s : bool * nat) i =>
            let (inside, j) := s in
            (if intersect x y (coord polygon i) (coord polygon j)
             then negb inside else inside, i))
         (seq 0 (length polygon))
         (false, (length polygon - 1)%nat)).

(** The corners of a rectangle as a ring, in the order in which
    [SnapEngine._getAllEdges] walks them: north-west, north-east,
    south-east, south-west. *)
Definition rectangleRing (b : Bounds) : list Point :=
  [mkPoint (north b) (west b); mkPoint (north b) (east b);
   mkPoint (south b) (east b); mkPoint (south b) (west b)].


(** Sample inputs: a point north of the sample triangle, and a square. *)
Definition sample_north : Point := mkPoint 20 5.
Definition sample_bounds : Bounds := mkBounds 10 0 10 0.

End GeometryMore.

(* ================================================================== *)
(** * Sequences of pushes *)
(* ================================================================== *)

Module HistoryMore.

(** The last [n] elements of an array ([arr.slice(-n)] for [n > 0]). *)
Definition last_entries {A : Type} (n : Z) (l : list A) : list A :=
  skipn (length l - Z.to_nat n) l.

(** One [push] per element. *)
Definition pushes {action : Type} (entries : list action)
    : list (History.op action) :=
  List.map (@History.Push action) entries.

End HistoryMore.

(* ================================================================== *)
(** * core/EventBus.js *)
(* ================================================================== *)

(** A listener is a function object, and the [Set] of an event compares
    function objects by identity.  A function a client subscribes is
    named by a number; [once] creates a new closure at every call, named
    by the count of the closures created before it.  The listeners act
    on the state of their owner ([world]) and may throw; listeners that
    call back into the bus are outside the model. *)
Module EventBus.

Inductive Callback : Type :=
| Plain (f : nat)                 (* the client's function [f] *)
| Wrapper (n : nat) (f : nat).    (* the [n]-th closure of [once], around [f] *)

Definition same (a b : Callback) : bool :=
  match a, b with
  | Plain f, Plain g => (f =? g)%nat
  | Wrapper n f, Wrapper m g => (n =? m)%nat && (f =? g)%nat
  | _, _ => false
  end.

(** The client's function a listener ends up calling. *)
Definition target (cb : Callback) : nat :=
  match cb with Plain f => f | Wrapper _ f => f end.

Definition is_plain (cb : Callback) : bool :=
  match cb with Plain _ => true | Wrapper _ _ => false end.

(** [Set.prototype.add] and [Set.prototype.delete]; a [Set] iterates in
    insertion order. *)
Definition add (cb : Callback) (s : list Callback) : list Callback :=
  if existsb (same cb) s then s else s ++ [cb].

Definition remove (cb : Callback) (s : list Callback) : list Callback :=
  filter (fun c => negb (same cb c)) s.

Record t : Type := mk {
  listeners : JSMap.t (list Callback);
  closures : nat    (* how many closures [once] has created *)
}.

(** [constructor()] *)
Definition new : t := mk JSMap.empty 0.

(** [on(event, callback)]; the function it returns is
    [() => this.off(event, callback)]. *)
Definition on (event : string) (callback : Callback) (bus : t) : t :=
  let m := if negb (JSMap.has event (listeners bus))
           then JSMap.set event [] (listeners bus)
           else listeners bus in
  match JSMap.get event m with
  | Some s => mk (JSMap.set event (add callback s) m) (closures bus)
  | None => mk m (closures bus)
  end.

(** [off(event, callback)] *)
Definition off (event : string) (callback : Callback) (bus : t) : t :=
  match JSMap.get event (listeners bus) with
  | Some s =>
      mk (JSMap.set event (remove callback s) (listeners bus)) (closures bus)
  | None => bus
  end.

(** [once(event, callback)] *)
Definition once (event : string) (f : nat) (bus : t) : t :=
  let wrapper := Wrapper (closures bus) f in
  on event wrapper (mk (listeners bus) (S (closures bus))).

(** [clear(event)]: [if (event)] is false for a missing argument and for
    the empty string. *)
Definition clear (event : option string) (bus : t) : t :=
  match event with
  | Some e =>
      if String.eqb e "" then mk JSMap.empty (closures bus)
      else mk (JSMap.delete e (listeners bus)) (closures bus)
  | None => mk JSMap.empty (closures bus)
  end.

Section Emit.

Variable data : Type.
Variable world : Type.
(** What the client's function [f] does when it is called. *)
Variable call : nat -> data -> world -> world * outcome.

(** The call of one listener: a closure of [once] unsubscribes itself
    and then calls its function. *)
Definition invoke (event : string) (cb : Callback) (d : data)
    (bus : t) (w : world) : t * world * outcome :=
  match cb with
  | Plain f => let (w', o) := call f d w in (bus, w', o)
  | Wrapper n f =>
      let bus' := off event (Wrapper n f) bus in
      let (w', o) := call f d w in (bus', w', o)
  end.

(** [emit(event, data)]: every call is inside [try], and what a listener
    throws goes to [console.error].  The result carries the listeners
    that were called, in order, with the way each call ended.  During
    the loop only the listener being visited is deleted from the [Set],
    so the loop visits the elements the [Set] had at its start. *)
Definition emit (event : string) (d : data) (bus : t) (w : world)
    : t * world * list (Callback * outcome) :=
  match JSMap.get event (listeners bus) with
  | None => (bus, w, [])
  | Some s =>
      fold_left
        (fun (acc : t * world * list (Callback * outcome)) cb =>
           let '(b, w0, log) := acc in
           let '(b', w', o) := invoke event cb d b w0 in
           (b', w', log ++ [(cb, o)]))
        s (bus, w, [])
  end.

End Emit.

(** The [Set] of an event, empty when the event has none. *)
Definition listenersOf (event : string) (bus : t) : list Callback :=
  match JSMap.get event (listeners bus) with
  | Some s => s
  | None => []
  end.

(** A sample: listeners that log their number, of which the listener
    [0] throws, and a bus with a permanent and a one-time listener of
    the event ["a"] and a listener of the event ["b"]. *)
Definition sample_call (f : nat) (d : unit) (log : list nat)
    : list nat * outcome :=
  (log ++ [f], if (f =? 0)%nat then Threw else Returned).

Definition sample_bus : t :=
  on "b" (Plain 3) (once "a" 2 (on "a" (Plain 1) new)).

End EventBus.

(* ================================================================== *)
(** * shapes/Circle.js: the approximation of a circle *)
(* ================================================================== *)

Module CircleShape.

Import Geometry GoogleMaps GeometryMore.
Local Open Scope R_scope.

(** [_getCirclePoints(segments)] of a circle with [this.center] and
    [this.radius]. *)
Definition _getCirclePoints (center : Point) (radius : R) (segments : nat)
    : list Point :=
  let latRadius := radius / 111111 in
  let lngRadius := radius / (111111 * cos (lat center * PI / 180)) in
  List.map
    (fun i =>
       let angle := (INR i / INR segments) * 2 * PI in
       mkPoint (lat center + latRadius * sin angle)
               (lng center + lngRadius * cos angle))
    (seq 0 segments).

(** [getEdges(segments)]: nothing without a centre and for the radius
    [0], which is falsy. *)
Definition getEdges (center : option Point) (radius : R) (segments : nat)
    : list IndexedEdge :=
  match center with
  | None => []
  | Some c =>
      if Reqb radius 0 then []
      else
        let points := _getCirclePoints c radius segments in
        List.map
          (fun i =>
             let j := ((i + 1) mod length points)%nat in
             mkIndexedEdge (coord points i) (coord points j) i)
          (seq 0 (length points))
  end.

End CircleShape.

(* ================================================================== *)
(** * The candidate of an edge *)
(* ================================================================== *)

Module SnapMore.

Import Geometry GoogleMaps Snap.
Local Open Scope R_scope.

(** The object the loop of [findSnapPoint] builds for an edge that is
    closer than the best one so far. *)
Definition candidate (projection : Projection) (scale : R)
    (pointPixel : Pixel) (edge : Edge) : SnapResult :=
  let projected := projectEdge projection scale pointPixel edge in
  let projectedWorld := mkPixel (px (pr_point projected) / scale)
                                (py (pr_point projected) / scale) in
  let projectedLatLng := fromPointToLatLng projection projectedWorld in
  mkSnapResult (mkPoint (lat projectedLatLng) (lng projectedLatLng))
               (pr_distance projected) edge (pr_t projected).

Definition is_onSnap (c : Call) : bool :=
  match c with CallOnSnap _ => true | _ => false end.

(** The engine of [Sample.engine] with a callback and a registered
    circle of 100 metres around the origin. *)
Definition with_callback : Snap.t := onSnap Sample.engine.

End SnapMore.

(* ================================================================== *)
(** * Sessions of the drawing manager *)
(* ================================================================== *)

Module Session.

Import Geometry GoogleMaps Drawing.
Local Open Scope string_scope.

(** What reaches the manager: the calls of its public methods and the
    events of the listeners it installs on the map, on the document and
    on the markers.  The listeners of a drawing exist from
    [_setupDrawingListeners] to [_cleanupDrawing], and those of a marker
    for as long as the marker does. *)
Inductive Op : Type :=
| StartDrawing (type : string)
| StopDrawing
| CompleteDrawing
| Click (latLng : Point)
| MouseMove (latLng : Point)
| MapClick (stop : bool)
| SelectShape (shapeId : string)
| DeselectShape
| DeleteShape (shapeId : string)
| ClearAll
| Undo
| Redo
| UpdateShapeName (shapeId newName : string)
| SetSnapping (optEnabled : option bool) (optThreshold : option R)
| VertexDrag (shapeId : string) (index : nat) (latLng : Point)
| VertexDragEnd (shapeId : string) (index : nat)
| MidpointDragStart (shapeId : string) (edgeIndex : nat)
| MidpointDrag (shapeId : string) (edgeIndex : nat) (latLng : Point)
| MidpointDragEnd (shapeId : string) (edgeIndex : nat)
| KeyDown (ctrlKey shiftKey : bool) (key : string).

(** The vertex marker [index] of a shape, when it exists. *)
Definition vertexMarker (shapeId : string) (index : nat) (dm : t)
    : option Marker :=
  match JSMap.get shapeId (_vertexMarkers dm) with
  | Some ms => nth_error ms index
  | None => None
  end.

Definition apply (o : Op) (dm : t) : t :=
  match o with
  | StartDrawing type => startDrawing type dm
  | StopDrawing => stopDrawing dm
  | CompleteDrawing => completeDrawing dm
  | Click latLng =>
      if _drawingListeners dm then drawing_click latLng dm else dm
  | MouseMove latLng =>
      if _drawingListeners dm then drawing_mousemove latLng dm else dm
  | MapClick stop => map_click stop dm
  | SelectShape shapeId => selectShape shapeId dm
  | DeselectShape => deselectShape dm
  | DeleteShape shapeId => deleteShape shapeId dm
  | ClearAll => clearAll dm
  | Undo => undo dm
  | Redo => redo dm
  | UpdateShapeName shapeId newName => updateShapeName shapeId newName dm
  | SetSnapping optEnabled optThreshold =>
      setSnapping optEnabled optThreshold dm
  | VertexDrag shapeId index latLng =>
      match vertexMarker shapeId index dm with
      | Some _ => vertex_drag shapeId index latLng dm
      | None => dm
      end
  | VertexDragEnd shapeId index =>
      match vertexMarker shapeId index dm with
      | Some _ => vertex_dragend shapeId index dm
      | None => dm
      end
  | MidpointDragStart shapeId edgeIndex =>
      match midpointMarker shapeId edgeIndex dm with
      | Some _ => midpoint_dragstart shapeId edgeIndex dm
      | None => dm
      end
  | MidpointDrag shapeId edgeIndex latLng =>
      match midpointMarker shapeId edgeIndex dm with
      | Some _ => midpoint_drag shapeId edgeIndex latLng dm
      | None => dm
      end
  | MidpointDragEnd shapeId edgeIndex =>
      match midpointMarker shapeId edgeIndex dm with
      | Some _ => midpoint_dragend shapeId edgeIndex dm
      | None => dm
      end
  | KeyDown ctrlKey shiftKey key => keydown ctrlKey shiftKey key dm
  end.

Definition run (ops : list Op) (dm : t) : t :=
  fold_left (fun dm o => apply o dm) ops dm.

(** The triangle before its drawing is completed. *)
Definition three_clicks : t :=
  drawing_click Sample.v3 Sample.two_clicks.

(** A drawing of a circle or of a rectangle after its first click. *)
Definition one_click (type : string) : t :=
  drawing_click Sample.v1
    (startDrawing type (new Sample.map default_options)).

(** The events of the pointer during a drawing. *)
Definition is_pointer (o : Op) : bool :=
  match o with
  | Click _ | MouseMove _ => true
  | _ => false
  end.

(** The part of the state the registry, the snap engine and the store
    share. *)
Definition core (dm : t) : JSMap.t Shape * JSMap.t Snap.Entry * Store :=
  (shapes dm, Snap.shapes (snapEngine dm), store dm).

(** The entry [_registerShape] and [_restoreShape] give the snap engine
    for a shape. *)
Definition entry_of (shape : Shape) : Snap.Entry :=
  Snap.mkEntry (id shape) (type_of (geometry shape)) (obj shape).

(** The overlay has the getters of the type of the shape. *)
Definition fits (g : ShapeGeometry) (o : Geom) : bool :=
  match g, o with
  | Polygon _, Path _ | Polyline _, Path _ => true
  | Circle _ _, Disc _ _ => true
  | Rectangle _, Box _ => true
  | _, _ => false
  end.

(** The registry, the snap engine and the overlays agree: the engine
    holds an entry for exactly the registered shapes, under the same
    key, which is the id of the shape, and the overlay of every shape
    exists and is of its type. *)
Record consistent (dm : t) : Prop := mkConsistent {
  keys_once : NoDup (JSMap.keys (shapes dm));
  engine_keys_once : NoDup (JSMap.keys (Snap.shapes (snapEngine dm)));
  engine_entries : forall k,
    JSMap.get k (Snap.shapes (snapEngine dm)) =
    option_map entry_of (JSMap.get k (shapes dm));
  key_is_id : forall k shape,
    JSMap.get k (shapes dm) = Some shape -> id shape = k;
  overlay_fits : forall k shape,
    JSMap.get k (shapes dm) = Some shape ->
    exists o, deref (store dm) (obj shape) = Some o /\
              fits (geometry shape) (geom o) = true
}.

End Session.

(* ================================================================== *)
(** * Properties of the history manager *)
(* ================================================================== *)

Module HistoryFacts.

Import History.

Section Facts.

Variable action : Type.
Variable world : Type.
Variable call_undo : action -> world -> world * outcome.
Variable call_redo : action -> world -> world * outcome.
Variable onChange : option (State -> world -> world * outcome).

Abbreviation hist := (t action).
Abbreviation push := (@push action world onChange).
Abbreviation undo := (@undo action world call_undo onChange).
Abbreviation redo := (@redo action world call_redo onChange).
Abbreviation run := (@run action world call_undo call_redo onChange).
Abbreviation undo_times := (@undo_times action world call_undo onChange).

(** Closes the conjuncts that hold by reflexivity, from a false premise
    or from the bounds of the index. *)
Ltac settle :=
  repeat split; auto; try discriminate;
  try (unfold index_ok, len in *; cbn in *; lia).

Lemma eta (h : hist) :
  mk (maxSteps h) (history h) (currentIndex h) = h.
Proof. destruct h; reflexivity. Qed.

Lemma set_index_back (h : hist) (i : Z) :
  set_index (currentIndex (set_index i h) - 1) (set_index i h) =
  set_index (i - 1) h.
Proof. reflexivity. Qed.

Lemma set_index_same (h : hist) (i : Z) :
  i = currentIndex h -> set_index i h = h.
Proof. intros ->. destruct h; reflexivity. Qed.

Lemma length_slice0 (l : list action) (e : Z) :
  (0 <= e <= Z.of_nat (length l))%Z ->
  Z.of_nat (length (slice0 e l)) = e.
Proof.
  intros He. unfold slice0.
  destruct (e <? 0)%Z eqn:E; [apply Z.ltb_lt in E; lia|].
  rewrite length_firstn. lia.
Qed.

Lemma slice0_firstn (l : list action) (e : Z) :
  (0 <= e)%Z -> slice0 e l = firstn (Z.to_nat e) l.
Proof.
  intros He. unfold slice0.
  destruct (e <? 0)%Z eqn:E; [apply Z.ltb_lt in E; lia|reflexivity].
Qed.

(** After the truncation the index is the last one. *)
Lemma truncated_tail (h : hist) :
  index_ok h ->
  currentIndex (truncated h) = (len (truncated h) - 1)%Z /\
  maxSteps (truncated h) = maxSteps h /\
  (len (truncated h) <= len h)%Z /\
  history (truncated h) =
    firstn (Z.to_nat (currentIndex h + 1)) (history h).
Proof.
  unfold index_ok, truncated, len. intros H.
  destruct (currentIndex h <? Z.of_nat (length (history h)) - 1)%Z eqn:E.
  - apply Z.ltb_lt in E. cbn.
    rewrite length_slice0 by lia.
    rewrite slice0_firstn by lia. repeat split; lia.
  - apply Z.ltb_ge in E. repeat split; try lia.
    rewrite firstn_all2; [reflexivity|lia].
Qed.

Lemma len_appended (a : action) (h : hist) :
  len (appended a h) = (len h + 1)%Z.
Proof. unfold len, appended. cbn. rewrite length_app. cbn. lia. Qed.

Lemma len_tl (l : list action) :
  l <> [] -> Z.of_nat (length (tl l)) = (Z.of_nat (length l) - 1)%Z.
Proof. destruct l; [congruence|]. cbn [tl length]. lia. Qed.

(** After [push] the index is the last one, whatever the bound. *)
Lemma pushed_tail (a : action) (h : hist) :
  index_ok h ->
  currentIndex (pushed a h) = (len (pushed a h) - 1)%Z.
Proof.
  intros H. destruct (truncated_tail H) as (Hi & _ & _ & _).
  unfold pushed, evicted. rewrite len_appended.
  destruct (maxSteps (appended a (truncated h)) <? len (truncated h) + 1)%Z.
  - unfold len. cbn. rewrite len_tl.
    + rewrite length_app. cbn. unfold len in Hi. lia.
    + intro E. apply (f_equal (@length _)) in E.
      rewrite length_app in E. cbn in E. lia.
  - rewrite len_appended. cbn. lia.
Qed.

Lemma pushed_index_ok (a : action) (h : hist) :
  index_ok h -> index_ok (pushed a h).
Proof.
  intros H. pose proof (pushed_tail a H) as E.
  unfold index_ok. rewrite E. unfold len. lia.
Qed.

Lemma pushed_maxSteps (a : action) (h : hist) :
  maxSteps (pushed a h) = maxSteps h.
Proof.
  unfold pushed, evicted, appended, truncated.
  repeat match goal with |- context [if ?b then _ else _] =>
    destruct b end; reflexivity.
Qed.

Lemma pushed_capped (a : action) (h : hist) :
  index_ok h -> capped h -> capped (pushed a h).
Proof.
  intros H C. destruct (truncated_tail H) as (_ & Hm & Hl & _).
  unfold capped in *. rewrite pushed_maxSteps.
  unfold pushed, evicted. rewrite len_appended.
  change (maxSteps (appended a (truncated h))) with (maxSteps (truncated h)).
  rewrite Hm.
  destruct (maxSteps h <? len (truncated h) + 1)%Z eqn:E.
  - unfold len at 1. cbn. rewrite len_tl.
    + rewrite length_app. cbn. unfold len in *. lia.
    + intro E'. apply (f_equal (@length _)) in E'.
      rewrite length_app in E'. cbn in E'. lia.
  - apply Z.ltb_ge in E. rewrite len_appended. lia.
Qed.

(** [undo] and [redo] only move the index, by one, inside the array. *)
Lemma undo_shape (h : hist) (w : world) :
  let '(h', w', ok) := undo h w in
  maxSteps h' = maxSteps h /\ history h' = history h /\
  (ok = true -> currentIndex h' = (currentIndex h - 1)%Z /\
                (0 <= currentIndex h)%Z) /\
  (index_ok h -> index_ok h').
Proof.
  unfold History.undo, canUndo.
  destruct (0 <=? currentIndex h)%Z eqn:E; cbn [negb].
  2:{ settle. }
  apply Z.leb_le in E.
  destruct (at_index (history h) (currentIndex h)) as [a|].
  2:{ settle. }
  destruct (call_undo a w) as [w1 [|]].
  2:{ settle. }
  assert (index_ok h -> index_ok (set_index (currentIndex h - 1) h)).
  { unfold index_ok, len. cbn. lia. }
  destruct (_notifyChange onChange _ w1) as [w2 [|]]; settle.
Qed.

Lemma redo_shape (h : hist) (w : world) :
  let '(h', w', ok) := redo h w in
  maxSteps h' = maxSteps h /\ history h' = history h /\
  (index_ok h -> index_ok h').
Proof.
  unfold History.redo, canRedo.
  destruct (currentIndex h <? len h - 1)%Z eqn:E; cbn [negb].
  2:{ settle. }
  apply Z.ltb_lt in E.
  assert (B : set_index (currentIndex (set_index (currentIndex h + 1) h) - 1)
                (set_index (currentIndex h + 1) h) = h).
  { rewrite set_index_back. apply set_index_same. lia. }
  destruct (at_index _ _) as [a|].
  2:{ rewrite B. settle. }
  destruct (call_redo a w) as [w1 [|]].
  2:{ rewrite B. settle. }
  destruct (_notifyChange onChange _ w1) as [w2 [|]].
  - settle.
  - rewrite B. settle.
Qed.

(** The invariants hold after every sequence of calls on a new
    manager. *)
Lemma step_invariant (o : op action) (h : hist) (w : world) :
  index_ok h /\ capped h ->
  index_ok (fst (step call_undo call_redo onChange o (h, w))) /\
  capped (fst (step call_undo call_redo onChange o (h, w))).
Proof.
  intros [I C]. destruct o as [a| |]; cbn [step].
  - unfold History.push. destruct (_notifyChange _ _ _) as [w' o].
    cbn. split; [apply pushed_index_ok|apply pushed_capped]; assumption.
  - pose proof (undo_shape h w) as U.
    destruct (undo h w) as [[h' w'] ok]. cbn.
    destruct U as (Hm & Hh & _ & Hi). split; [auto|].
    unfold capped, len in *. rewrite Hm, Hh. assumption.
  - pose proof (redo_shape h w) as U.
    destruct (redo h w) as [[h' w'] ok]. cbn.
    destruct U as (Hm & Hh & Hi). split; [auto|].
    unfold capped, len in *. rewrite Hm, Hh. assumption.
Qed.

Lemma run_invariant (ops : list (op action)) (h : hist) (w : world) :
  index_ok h /\ capped h ->
  index_ok (fst (run ops (h, w))) /\ capped (fst (run ops (h, w))).
Proof.
  revert h w. induction ops as [|o ops IH]; intros h w H; [exact H|].
  cbn [History.run fold_left].
  destruct (step call_undo call_redo onChange o (h, w)) as [h' w'] eqn:E.
  apply IH. pose proof (step_invariant o w H) as S.
  rewrite E in S. exact S.
Qed.

Lemma new_invariant (o : option Z) :
  index_ok (new action o) /\ capped (new action o).
Proof. unfold index_ok, capped, len. cbn. lia. Qed.

Lemma run_maxSteps (ops : list (op action)) (h : hist) (w : world) :
  maxSteps (fst (run ops (h, w))) = maxSteps h.
Proof.
  revert h w. induction ops as [|o ops IH]; intros h w; [reflexivity|].
  cbn [History.run fold_left].
  destruct (step call_undo call_redo onChange o (h, w)) as [h' w'] eqn:E.
  fold (run ops (h', w')). rewrite IH.
  destruct o as [a| |]; cbn [step] in E.
  - unfold History.push in E. destruct (_notifyChange _ _ _).
    inversion E. apply pushed_maxSteps.
  - pose proof (undo_shape h w) as U. destruct (undo h w) as [[? ?] ?].
    inversion E; subst. tauto.
  - pose proof (redo_shape h w) as U. destruct (redo h w) as [[? ?] ?].
    inversion E; subst. tauto.
Qed.

(** A new manager has a bound that is not [0]. *)
Lemma new_maxSteps_nonzero (o : option Z) : maxSteps (new action o) <> 0%Z.
Proof.
  cbn. destruct o as [n|]; [|lia].
  destruct (n =? 0)%Z eqn:E; [lia|]. apply Z.eqb_neq in E. exact E.
Qed.

Lemma nth_error_snoc (l : list action) (a : action) :
  nth_error (l ++ [a]) (length l) = Some a.
Proof. induction l as [|x l IH]; [reflexivity|exact IH]. Qed.

Lemma tl_snoc (l : list action) (a : action) :
  l <> [] -> tl (l ++ [a]) = tl l ++ [a].
Proof. destruct l; [congruence|reflexivity]. Qed.

(** The entry a [push] stores is the one at the index, when the bound is
    at least [1]. *)
Lemma pushed_points_at (a : action) (h : hist) :
  index_ok h -> (1 <= maxSteps h)%Z ->
  at_index (history (pushed a h)) (currentIndex (pushed a h)) = Some a.
Proof.
  intros H M. pose proof (pushed_tail a H) as T. rewrite T.
  destruct (truncated_tail H) as (_ & Hm & _ & _).
  unfold pushed, evicted in *. rewrite len_appended in *.
  change (maxSteps (appended a (truncated h))) with (maxSteps (truncated h))
    in *.
  rewrite Hm in *.
  destruct (maxSteps h <? len (truncated h) + 1)%Z eqn:E.
  - apply Z.ltb_lt in E.
    assert (N : history (truncated h) <> []).
    { intro N. unfold len in E. rewrite N in E. cbn in E. lia. }
    unfold len, at_index. cbn. rewrite tl_snoc by exact N.
    rewrite length_app. cbn.
    assert (L : (1 <= length (tl (history (truncated h))) + 1)%nat) by lia.
    destruct (Z.of_nat (length (tl (history (truncated h))) + 1) - 1 <? 0)%Z
      eqn:F; [apply Z.ltb_lt in F; lia|].
    replace (Z.to_nat (Z.of_nat (length (tl (history (truncated h))) + 1)
                       - 1))
      with (length (tl (history (truncated h)))) by lia.
    apply nth_error_snoc.
  - unfold len, at_index. cbn. rewrite length_app. cbn.
    destruct (Z.of_nat (length (history (truncated h)) + 1) - 1 <? 0)%Z
      eqn:F; [apply Z.ltb_lt in F; lia|].
    replace (Z.to_nat (Z.of_nat (length (history (truncated h)) + 1) - 1))
      with (length (history (truncated h))) by lia.
    apply nth_error_snoc.
Qed.

Lemma pushed_bounded (a : action) (h : hist) :
  index_ok h -> capped h -> (0 <= maxSteps h)%Z -> bounded (pushed a h).
Proof.
  intros H C M. pose proof (pushed_capped a H C) as P.
  unfold capped, bounded in *. rewrite pushed_maxSteps in *. lia.
Qed.

(** C5. For every sequence of [push], [undo] and [redo] on a new manager
    whose bound [maxSteps] is not negative, the length of the history
    is at most [maxSteps]; a [push] that would exceed the bound drops
    the oldest entry and decrements [currentIndex]; and after every
    [push] the index is [length - 1] and points at the pushed entry. *)
Theorem history_never_exceeds_maxSteps
    (o : option Z) (ops : list (op action)) (w : world) :
  (0 <= maxSteps (new action o))%Z ->
  let h := fst (run ops (new action o, w)) in
  (len h <= maxSteps h)%Z /\
  forall (a : action) (w' : world),
    let grown := appended a (truncated h) in
    let h' := fst (fst (push a h w')) in
    ((maxSteps h < len grown)%Z ->
       history h' = tl (history grown) /\
       currentIndex h' = (currentIndex grown - 1)%Z) /\
    (len h' <= maxSteps h')%Z /\
    currentIndex h' = (len h' - 1)%Z /\
    at_index (history h') (currentIndex h') = Some a.
Proof.
  intros M h.
  destruct (run_invariant ops w (new_invariant o)) as [I C].
  fold h in I, C.
  assert (Mh : maxSteps h = maxSteps (new action o))
    by apply run_maxSteps.
  pose proof (new_maxSteps_nonzero o) as NZ.
  split.
  { unfold capped in C. lia. }
  intros a w' grown h'.
  assert (E : h' = pushed a h).
  { unfold h', History.push. destruct (_notifyChange _ _ _). reflexivity. }
  rewrite E. repeat split.
  - unfold pushed, evicted. fold grown.
    change (maxSteps grown) with (maxSteps (truncated h)).
    destruct (truncated_tail I) as (_ & Hm & _ & _). rewrite Hm.
    destruct (maxSteps h <? len grown)%Z eqn:F; [reflexivity|].
    apply Z.ltb_ge in F. lia.
  - unfold pushed, evicted. fold grown.
    change (maxSteps grown) with (maxSteps (truncated h)).
    destruct (truncated_tail I) as (_ & Hm & _ & _). rewrite Hm.
    destruct (maxSteps h <? len grown)%Z eqn:F; [reflexivity|].
    apply Z.ltb_ge in F. lia.
  - apply pushed_bounded; [assumption|assumption|lia].
  - apply pushed_tail; assumption.
  - apply pushed_points_at; [assumption|lia].
Qed.

(** What [k] successful calls of [undo] do. *)
Lemma undo_times_shape (k : nat) (h : hist) (w : world)
    (h' : hist) (w' : world) :
  undo_times k h w = (h', w', true) ->
  maxSteps h' = maxSteps h /\ history h' = history h /\
  currentIndex h' = (currentIndex h - Z.of_nat k)%Z /\
  ((1 <= k)%nat -> (-1 <= currentIndex h')%Z) /\
  (index_ok h -> index_ok h').
Proof.
  revert h w. induction k as [|k IH]; intros h w E.
  - cbn in E. inversion E; subst. settle.
  - cbn [History.undo_times] in E.
    pose proof (undo_shape h w) as U.
    destruct (undo h w) as [[h1 w1] ok].
    destruct ok; [|discriminate].
    destruct U as (Um & Uh & Ui & Uo). destruct (Ui eq_refl) as [Ui1 Ui2].
    destruct (IH _ _ E) as (Im & Ih & Ii & Ik & Io).
    split; [congruence|]. split; [congruence|]. split; [lia|].
    split; [|auto].
    intros _. destruct k as [|k]; [|apply Ik; lia].
    cbn in E. inversion E; subst. lia.
Qed.

(** C6. For every [N >= 1] and [1 <= k <= N]: after [N] calls of [push]
    on a new manager, [k] calls of [undo] that all succeed and one more
    [push], the entries after the index the undos reached are gone (the
    history is the entries up to that index followed by the new one),
    [canRedo] is false and [redo()] fails, leaving everything as it
    is. *)
Theorem push_after_undo_discards_redo
    (o : option Z) (entries : list action) (k : nat) (a : action)
    (w w1 w2 w3 : world) (h1 h2 h3 : hist) (r : outcome) :
  (1 <= length entries)%nat ->
  (1 <= k <= length entries)%nat ->
  run (List.map (@Push action) entries) (new action o, w) = (h1, w1) ->
  undo_times k h1 w1 = (h2, w2, true) ->
  push a h2 w2 = (h3, w3, r) ->
  currentIndex h2 = (currentIndex h1 - Z.of_nat k)%Z /\
  history h3 =
    firstn (Z.to_nat (currentIndex h2 + 1)) (history h1) ++ [a] /\
  canRedo h3 = false /\
  redo h3 w3 = (h3, w3, false).
Proof.
  intros HN Hk Hrun Hundo Hpush.
  destruct (run_invariant (List.map (@Push action) entries) w
              (new_invariant o)) as [I C].
  rewrite Hrun in I, C. cbn [fst] in I, C.
  destruct (undo_times_shape _ _ _ Hundo) as (Um & Uh & Ui & Uk & Uo).
  specialize (Uk (proj1 Hk)). specialize (Uo I).
  assert (E : h3 = pushed a h2).
  { unfold History.push in Hpush. destruct (_notifyChange _ _ _).
    inversion Hpush. reflexivity. }
  assert (T : canRedo h3 = false).
  { unfold canRedo. rewrite E, (pushed_tail a Uo). apply Z.ltb_irrefl. }
  split; [exact Ui|]. split; [|split; [exact T|]].
  - rewrite E. destruct (truncated_tail Uo) as (Ti & Tm & Tl & Th).
    unfold pushed, evicted. rewrite len_appended.
    change (maxSteps (appended a (truncated h2)))
      with (maxSteps (truncated h2)).
    assert (L : len (truncated h2) = (currentIndex h2 + 1)%Z).
    { unfold truncated in Ti |- *.
      destruct (currentIndex h2 <? len h2 - 1)%Z; cbn in Ti |- *; lia. }
    assert (B : (len (truncated h2) + 1 <= maxSteps (truncated h2))%Z).
    { unfold capped, index_ok, len in *. rewrite Tm, Um. rewrite Uh in *.
      lia. }
    destruct (maxSteps (truncated h2) <? len (truncated h2) + 1)%Z eqn:F;
      [apply Z.ltb_lt in F; lia|].
    cbn. rewrite Th, Uh. reflexivity.
  - unfold History.redo. rewrite T. reflexivity.
Qed.

(** C7. In every state of the manager: [undo()] with a negative index
    and [redo()] at the tail fail without calling anything; when the
    [undo] callback of the current entry throws, [undo()] fails and the
    index has not moved; when the [redo] callback of the next entry
    throws, [redo()] fails and the index is back at its value before the
    call.  In each of these cases the manager is the one before the
    call. *)
Theorem undo_redo_failures_keep_index (h : hist) (w : world) :
  ((currentIndex h < 0)%Z -> undo h w = (h, w, false)) /\
  ((len h - 1 <= currentIndex h)%Z -> redo h w = (h, w, false)) /\
  (forall (a : action) (w1 : world),
      (0 <= currentIndex h)%Z ->
      at_index (history h) (currentIndex h) = Some a ->
      call_undo a w = (w1, Threw) ->
      undo h w = (h, w1, false)) /\
  (forall (a : action) (w1 : world),
      (currentIndex h < len h - 1)%Z ->
      at_index (history h) (currentIndex h + 1) = Some a ->
      call_redo a w = (w1, Threw) ->
      redo h w = (h, w1, false)).
Proof.
  repeat split.
  - intros H. unfold History.undo, canUndo.
    destruct (0 <=? currentIndex h)%Z eqn:E; [apply Z.leb_le in E; lia|].
    reflexivity.
  - intros H. unfold History.redo, canRedo.
    destruct (currentIndex h <? len h - 1)%Z eqn:E;
      [apply Z.ltb_lt in E; lia|].
    reflexivity.
  - intros a w1 H Ha Hc. unfold History.undo, canUndo.
    destruct (0 <=? currentIndex h)%Z eqn:E; [|apply Z.leb_gt in E; lia].
    cbn [negb]. rewrite Ha, Hc. reflexivity.
  - intros a w1 H Ha Hc. unfold History.redo, canRedo.
    destruct (currentIndex h <? len h - 1)%Z eqn:E;
      [|apply Z.ltb_ge in E; lia].
    cbn [negb]. cbn [history currentIndex set_index].
    rewrite Ha, Hc. f_equal. f_equal.
    destruct h as [m l i]. unfold set_index. cbn. f_equal. lia.
Qed.

(** Every failure of [redo] leaves the manager as it was, also one that
    comes from the subscriber. *)
Lemma redo_failure_restores (h h' : hist) (w w' : world) :
  redo h w = (h', w', false) -> h' = h.
Proof.
  unfold History.redo, canRedo.
  destruct (currentIndex h <? len h - 1)%Z eqn:E; cbn [negb].
  2:{ intros H; inversion H; reflexivity. }
  assert (B : set_index (currentIndex (set_index (currentIndex h + 1) h) - 1)
                (set_index (currentIndex h + 1) h) = h).
  { rewrite set_index_back. apply set_index_same. lia. }
  destruct (at_index _ _) as [a|].
  2:{ rewrite B. intros H; inversion H; reflexivity. }
  destruct (call_redo a w) as [w1 [|]].
  2:{ rewrite B. intros H; inversion H; reflexivity. }
  destruct (_notifyChange onChange _ w1) as [w2 [|]].
  - discriminate.
  - rewrite B. intros H; inversion H; reflexivity.
Qed.

(** A failure of [undo] leaves the manager as it was when the subscriber
    returns. *)
Lemma undo_failure_restores (h h' : hist) (w w' : world) :
  (forall (s : hist) x, snd (_notifyChange onChange s x) = Returned) ->
  undo h w = (h', w', false) -> h' = h.
Proof.
  intros N. unfold History.undo.
  destruct (negb (canUndo h)); [intros H; inversion H; reflexivity|].
  destruct (at_index _ _) as [a|];
    [|intros H; inversion H; reflexivity].
  destruct (call_undo a w) as [w1 [|]];
    [|intros H; inversion H; reflexivity].
  specialize (N (set_index (currentIndex h - 1) h) w1).
  destruct (_notifyChange onChange _ w1) as [w2 [|]]; cbn in N;
    discriminate.
Qed.

End Facts.

(** The theorems on the sample owner. *)

Lemma history_never_exceeds_maxSteps_witness :
  let h := fst (run HistorySample.call_undo HistorySample.call_redo
                    HistorySample.onChange
                    [Push 1%nat; Push 2%nat; Push 3%nat; Undo _; Redo _]
                    (new nat (Some 2%Z), [])) in
  let h' := fst (fst (push HistorySample.onChange 4%nat h [])) in
  (0 <= maxSteps (new nat (Some 2%Z)))%Z /\
  (maxSteps h < len (appended 4%nat (truncated h)))%Z /\
  (len h <= maxSteps h)%Z /\
  history h' = tl (history (appended 4%nat (truncated h))) /\
  currentIndex h' = (currentIndex (appended 4%nat (truncated h)) - 1)%Z /\
  (len h' <= maxSteps h')%Z /\
  currentIndex h' = (len h' - 1)%Z /\
  at_index (history h') (currentIndex h') = Some 4%nat.
Proof.
  intros h h'.
  assert (M : (0 <= maxSteps (new nat (Some 2%Z)))%Z) by (cbn; lia).
  assert (F : (maxSteps h < len (appended 4%nat (truncated h)))%Z)
    by (vm_compute; reflexivity).
  destruct (@history_never_exceeds_maxSteps nat _
              HistorySample.call_undo HistorySample.call_redo
              HistorySample.onChange (Some 2%Z)
              [Push 1%nat; Push 2%nat; Push 3%nat; Undo _; Redo _] [] M)
    as [B P].
  destruct (P 4%nat []) as (Ev & Bd & Ti & At).
  destruct (Ev F) as [Eh Ei].
  repeat split; assumption.
Defined.

Lemma push_after_undo_discards_redo_witness :
  let s1 := run HistorySample.call_undo HistorySample.call_redo
                HistorySample.onChange
                (List.map (@Push nat) [1%nat; 2%nat; 3%nat])
                (new nat None, []) in
  let s2 := undo_times HistorySample.call_undo HistorySample.onChange 2
                       (fst s1) (snd s1) in
  let s3 := push HistorySample.onChange 9%nat (fst (fst s2)) (snd (fst s2)) in
  snd s2 = true /\
  history (fst (fst s3)) = [1%nat; 9%nat] /\
  canRedo (fst (fst s3)) = false /\
  redo HistorySample.call_redo HistorySample.onChange
       (fst (fst s3)) (snd (fst s3)) =
    (fst (fst s3), snd (fst s3), false).
Proof.
  intros s1 s2 s3.
  assert (L1 : (1 <= length [1%nat; 2%nat; 3%nat])%nat) by (cbn; lia).
  assert (L2 : (1 <= 2 <= length [1%nat; 2%nat; 3%nat])%nat) by (cbn; lia).
  assert (E1 : run HistorySample.call_undo HistorySample.call_redo
                   HistorySample.onChange
                   (List.map (@Push nat) [1%nat; 2%nat; 3%nat])
                   (new nat None, []) = (fst s1, snd s1))
    by (vm_compute; reflexivity).
  assert (E2 : undo_times HistorySample.call_undo HistorySample.onChange 2
                          (fst s1) (snd s1) =
               (fst (fst s2), snd (fst s2), true))
    by (vm_compute; reflexivity).
  assert (E3 : push HistorySample.onChange 9%nat (fst (fst s2))
                    (snd (fst s2)) =
               (fst (fst s3), snd (fst s3), snd s3))
    by (vm_compute; reflexivity).
  destruct (@push_after_undo_discards_redo nat _
              HistorySample.call_undo HistorySample.call_redo
              HistorySample.onChange None _ _ _ _ _ _ _ _ _ _ _
              L1 L2 E1 E2 E3) as (_ & Hh & Hc & Hr).
  split; [vm_compute; reflexivity|].
  split; [exact Hh|]. split; [exact Hc|exact Hr].
Defined.

Lemma undo_redo_failures_keep_index_witness :
  (* before all entries: [undo] fails; at the tail: [redo] fails *)
  undo HistorySample.call_undo HistorySample.onChange
       (mk 50 [1%nat] (-1)) [] = (mk 50 [1%nat] (-1), [], false) /\
  redo HistorySample.call_redo HistorySample.onChange
       (mk 50 [1%nat] 0) [] = (mk 50 [1%nat] 0, [], false) /\
  (* the callbacks of the entry [0] throw *)
  undo HistorySample.call_undo HistorySample.onChange
       (mk 50 [0%nat] 0) [] =
    (mk 50 [0%nat] 0, [("undo"%string, 0%nat)], false) /\
  redo HistorySample.call_redo HistorySample.onChange
       (mk 50 [0%nat] (-1)) [] =
    (mk 50 [0%nat] (-1), [("redo"%string, 0%nat)], false).
Proof.
  split; [|split; [|split]].
  - apply (@undo_redo_failures_keep_index nat _
             HistorySample.call_undo HistorySample.call_redo
             HistorySample.onChange (mk 50 [1%nat] (-1)) []).
    cbn. lia.
  - apply (@undo_redo_failures_keep_index nat _
             HistorySample.call_undo HistorySample.call_redo
             HistorySample.onChange (mk 50 [1%nat] 0) []).
    cbn. lia.
  - apply (proj1 (proj2 (proj2
             (@undo_redo_failures_keep_index nat _
                HistorySample.call_undo HistorySample.call_redo
                HistorySample.onChange (mk 50 [0%nat] 0) []))) 0%nat).
    + cbn. lia.
    + reflexivity.
    + reflexivity.
  - apply (proj2 (proj2 (proj2
             (@undo_redo_failures_keep_index nat _
                HistorySample.call_undo HistorySample.call_redo
                HistorySample.onChange (mk 50 [0%nat] (-1)) []))) 0%nat).
    + unfold len. cbn. lia.
    + reflexivity.
    + reflexivity.
Defined.

End HistoryFacts.

(* ================================================================== *)
(** * Properties of the polygon area *)
(* ================================================================== *)

Module GeometryFacts.

Import Geometry.
Local Open Scope R_scope.

Section Sums.

Variable g : nat -> R.

Lemma fold_add_acc (l : list nat) (a : R) :
  fold_left (fun total i => total + g i) l a =
  a + fold_left (fun total i => total + g i) l 0.
Proof.
  revert a. induction l as [|i l IH]; intros a; cbn.
  - ring.
  - rewrite (IH (a + g i)), (IH (0 + g i)). ring.
Qed.

End Sums.

Lemma fold_add_shift (g : nat -> R) (s n : nat) (a : R) :
  fold_left (fun total i => total + g i) (seq (S s) n) a =
  fold_left (fun total i => total + g (S i)) (seq s n) a.
Proof.
  revert s a. induction n as [|n IH]; intros s a; cbn; [reflexivity|].
  apply IH.
Qed.

Lemma fold_add_ext (g g' : nat -> R) (l : list nat) (a : R) :
  (forall i, In i l -> g i = g' i) ->
  fold_left (fun total i => total + g i) l a =
  fold_left (fun total i => total + g' i) l a.
Proof.
  revert a. induction l as [|i l IH]; intros a H; cbn; [reflexivity|].
  rewrite (H i) by (left; reflexivity).
  apply IH. intros j Hj. apply H. right. exact Hj.
Qed.

(** The indexed loop along a chain is [chain_sum]. *)
Lemma chain_loop (chain : list Point) :
  fold_left
    (fun total i => total + area_term (coord chain i) (coord chain (S i)))
    (seq 0 (length chain - 1)) 0 =
  chain_sum chain.
Proof.
  induction chain as [|p1 rest IH]; [reflexivity|].
  destruct rest as [|p2 rest]; [reflexivity|].
  change (length (p1 :: p2 :: rest) - 1)%nat with (S (length rest)).
  cbn [seq fold_left].
  rewrite fold_add_acc.
  rewrite (fold_add_shift
             (fun i => area_term (coord (p1 :: p2 :: rest) i)
                                 (coord (p1 :: p2 :: rest) (S i)))).
  change (length (p2 :: rest) - 1)%nat with (length rest - 0)%nat in IH.
  rewrite Nat.sub_0_r in IH.
  unfold coord in *. cbn [nth] in *. rewrite IH.
  cbn [chain_sum]. ring.
Qed.

(** The loop of [calculatePolygonArea] is [chain_sum] of the closed ring. *)
Lemma ring_loop (ring : list Point) :
  ring <> [] ->
  fold_left
    (fun total i =>
       total + area_term (coord ring i)
                         (coord ring ((i + 1) mod length ring)))
    (seq 0 (length ring)) 0 =
  chain_sum (closed ring).
Proof.
  intros N. rewrite <- chain_loop. unfold closed.
  rewrite length_app. cbn [length].
  replace (length ring + 1 - 1)%nat with (length ring) by lia.
  apply fold_add_ext. intros i Hi. apply in_seq in Hi.
  f_equal.
  - unfold coord. rewrite app_nth1 by lia. reflexivity.
  - unfold coord. destruct (Nat.eq_dec (S i) (length ring)) as [E|E].
    + replace (i + 1)%nat with (length ring) by lia.
      rewrite Nat.Div0.mod_same.
      rewrite E, nth_middle.
      destruct ring; [congruence|reflexivity].
    + rewrite Nat.mod_small by lia.
      replace (i + 1)%nat with (S i) by lia.
      rewrite app_nth1 by lia. reflexivity.
Qed.

Lemma area_closed_form (ring : list Point) :
  (3 <= length ring)%nat ->
  calculatePolygonArea ring =
  Rabs (chain_sum (closed ring) * R_earth * R_earth / 2).
Proof.
  intros H. unfold calculatePolygonArea, Math_abs.
  destruct (length ring <? 3)%nat eqn:E; [apply Nat.ltb_lt in E; lia|].
  rewrite ring_loop; [reflexivity|].
  intro N. rewrite N in H. cbn in H. lia.
Qed.

Lemma chain_sum_cons2 (p1 p2 : Point) (rest : list Point) :
  chain_sum (p1 :: p2 :: rest) = area_term p1 p2 + chain_sum (p2 :: rest).
Proof. reflexivity. Qed.

Lemma chain_sum_snoc (chain : list Point) (x y : Point) :
  chain_sum (chain ++ [x; y]) = chain_sum (chain ++ [x]) + area_term x y.
Proof.
  induction chain as [|p1 rest IH]; [cbn; ring|].
  destruct rest as [|p2 rest]; [cbn; ring|].
  cbn [app] in *. rewrite !chain_sum_cons2, IH. ring.
Qed.

Lemma area_term_swap (p q : Point) : area_term q p = - area_term p q.
Proof. unfold area_term, toRadians. ring. Qed.

Lemma chain_sum_rev (chain : list Point) :
  chain_sum (rev chain) = - chain_sum chain.
Proof.
  induction chain as [|p1 rest IH]; [cbn; ring|].
  destruct rest as [|p2 rest]; [cbn; ring|].
  rewrite chain_sum_cons2.
  cbn [rev] in *. rewrite <- app_assoc. cbn [app].
  rewrite chain_sum_snoc, IH, area_term_swap. ring.
Qed.

(** The closed ring read from the next vertex. *)
Lemma chain_sum_rotate1 (p : Point) (rest : list Point) :
  chain_sum (closed (rest ++ [p])) = chain_sum (closed (p :: rest)).
Proof.
  unfold closed. destruct rest as [|q rest]; [reflexivity|].
  cbn [app hd]. rewrite <- app_assoc. cbn [app].
  rewrite chain_sum_cons2.
  change (q :: rest ++ [p; q]) with ((q :: rest) ++ [p; q]).
  change (q :: rest ++ [p]) with ((q :: rest) ++ [p]).
  rewrite chain_sum_snoc. ring.
Qed.

(** The closed ring read backwards. *)
Lemma chain_sum_closed_rev (ring : list Point) :
  chain_sum (closed (rev ring)) = - chain_sum (closed ring).
Proof.
  destruct ring as [|p rest]; [cbn; ring|].
  destruct (exists_last (l := p :: rest)) as (body & z & E); [congruence|].
  (* backwards, the closed ring is the reverse of [z :: ring] *)
  assert (B : closed (rev (p :: rest)) = rev (z :: p :: rest)).
  { unfold closed. rewrite E, rev_app_distr. cbn [rev app hd].
    rewrite rev_app_distr. reflexivity. }
  rewrite B, chain_sum_rev, chain_sum_cons2. f_equal.
  (* forwards, it ends with the step from [z] to [p] *)
  unfold closed. cbn [hd]. rewrite E at 2. rewrite <- app_assoc. cbn [app].
  rewrite chain_sum_snoc, <- E. ring.
Qed.

Lemma rotate_length (k : nat) (ring : list Point) :
  length (rotate k ring) = length ring.
Proof.
  unfold rotate. rewrite length_app, length_skipn, length_firstn. lia.
Qed.

Lemma rotate_beyond (k : nat) (ring : list Point) :
  (length ring <= k)%nat -> rotate k ring = ring.
Proof.
  intros H. unfold rotate.
  rewrite skipn_all2, firstn_all2 by exact H. reflexivity.
Qed.

Lemma rotate_S (k : nat) (p : Point) (rest : list Point) :
  (k <= length rest)%nat ->
  rotate (S k) (p :: rest) = rotate k (rest ++ [p]).
Proof.
  intros H. unfold rotate. cbn [skipn firstn].
  rewrite skipn_app, firstn_app.
  replace (k - length rest)%nat with 0%nat by lia.
  cbn [skipn firstn]. rewrite app_nil_r, <- app_assoc. reflexivity.
Qed.

Lemma chain_sum_rotate (k : nat) (ring : list Point) :
  chain_sum (closed (rotate k ring)) = chain_sum (closed ring).
Proof.
  revert ring. induction k as [|k IH]; intros ring.
  - unfold rotate. cbn [skipn firstn]. rewrite app_nil_r. reflexivity.
  - destruct ring as [|p rest]; [reflexivity|].
    destruct (Nat.le_gt_cases k (length rest)) as [H|H].
    + rewrite rotate_S by exact H. rewrite IH. apply chain_sum_rotate1.
    + rewrite rotate_beyond by (cbn; lia). reflexivity.
Qed.

(** In exact arithmetic, that is with real numbers in the place of the
    floating-point numbers, [calculatePolygonArea] is [0] for fewer than
    3 points, and the area of a ring of 3 or more points is the same from
    every start index (rotation) and in the other direction (reversal):
    the differences that [DoublesFacts] shows are those of rounding. *)
Lemma exact_area_rotation_reversal :
  (forall pts : list Point,
      (length pts < 3)%nat -> calculatePolygonArea pts = 0) /\
  calculatePolygonArea [] = 0 /\
  (forall (ring : list Point) (k : nat),
      (3 <= length ring)%nat ->
      calculatePolygonArea (rotate k ring) = calculatePolygonArea ring) /\
  (forall ring : list Point,
      (3 <= length ring)%nat ->
      calculatePolygonArea (rev ring) = calculatePolygonArea ring).
Proof.
  split; [|split; [|split]].
  - intros pts H. unfold calculatePolygonArea.
    apply Nat.ltb_lt in H. rewrite H. reflexivity.
  - reflexivity.
  - intros ring k H.
    rewrite !area_closed_form by (rewrite ?rotate_length; exact H).
    rewrite chain_sum_rotate. reflexivity.
  - intros ring H.
    rewrite !area_closed_form by (rewrite ?length_rev; exact H).
    rewrite chain_sum_closed_rev.
    replace (- chain_sum (closed ring) * R_earth * R_earth / 2)
      with (- (chain_sum (closed ring) * R_earth * R_earth / 2))
      by (unfold Rdiv; ring).
    apply Rabs_Ropp.
Qed.

End GeometryFacts.

(* ================================================================== *)
(** * Properties of the polygon area in double precision *)
(* ================================================================== *)

Module DoublesFacts.

Import PrimFloat Doubles.
Local Open Scope float_scope.
#[local] Set Warnings "-inexact-float".














End DoublesFacts.

(* ================================================================== *)
(** * Properties of the snap engine *)
(* ================================================================== *)

Module SnapFacts.

Import Geometry GoogleMaps Snap.
Local Open Scope R_scope.

Lemma Rltb_true (a b : R) : Rltb a b = true <-> a < b.
Proof.
  unfold Rltb. destruct (Rlt_dec a b) as [L|L]; split; intros H.
  - exact L.
  - reflexivity.
  - discriminate.
  - contradiction.
Qed.

Lemma Rltb_false (a b : R) : Rltb a b = false <-> b <= a.
Proof.
  unfold Rltb. destruct (Rlt_dec a b) as [L|L]; split; intros H.
  - discriminate.
  - lra.
  - lra.
  - reflexivity.
Qed.

(** ** The loop over the edges *)

Section Loop.

Variable projection : Projection.
Variable scale : R.
Variable pointPixel : Pixel.
Variable thr : R.

Abbreviation dist := (scanDistance projection scale pointPixel).
Abbreviation scanned := (Snap.scanned projection scale pointPixel thr).

Lemma scanned_start (cs : list Call) : scanned [] (mkScan None thr cs).
Proof. split; [reflexivity|]. intros e []. Qed.

Lemma nth_error_snoc_cases (done : list Edge) (e x : Edge) (j : nat) :
  nth_error (done ++ [e]) j = Some x ->
  ((j < length done)%nat /\ nth_error done j = Some x) \/
  (j = length done /\ x = e).
Proof.
  intros H. destruct (Nat.lt_ge_cases j (length done)) as [L|L].
  - left. split; [exact L|]. rewrite nth_error_app1 in H; assumption.
  - right. rewrite nth_error_app2 in H by exact L.
    destruct (j - length done)%nat as [|n] eqn:E.
    + cbn in H. inversion H. split; [lia|reflexivity].
    + cbn in H. destruct n; discriminate.
Qed.

Lemma scanned_step (done : list Edge) (s : Scan) (e : Edge) :
  scanned done s ->
  scanned (done ++ [e]) (scanEdge projection scale pointPixel s e).
Proof.
  unfold Snap.scanned, scanEdge. fold (dist e).
  destruct (Rltb (dist e) (minDistance s)) eqn:C; cbn.
  - apply Rltb_true in C.
    destruct (bestSnap s) as [r|].
    + intros (Hm & Ht & Hd & i & Hi & Hall & Hbefore).
      repeat split; try lra.
      exists (length done). repeat split.
      * rewrite nth_error_app2, Nat.sub_diag by lia. reflexivity.
      * intros j x Hj.
        destruct (nth_error_snoc_cases _ _ _ Hj) as [[_ Hx]|[_ ->]];
          [|lra].
        specialize (Hall _ _ Hx). lra.
      * intros j x Hlt Hj. rewrite nth_error_app1 in Hj by exact Hlt.
        specialize (Hall _ _ Hj). lra.
    + intros (Hm & Hall).
      repeat split; try lra.
      exists (length done). repeat split.
      * rewrite nth_error_app2, Nat.sub_diag by lia. reflexivity.
      * intros j x Hj.
        destruct (nth_error_snoc_cases _ _ _ Hj) as [[_ Hx]|[_ ->]];
          [|lra].
        apply nth_error_In in Hx. specialize (Hall _ Hx). lra.
      * intros j x Hlt Hj. rewrite nth_error_app1 in Hj by exact Hlt.
        apply nth_error_In in Hj. specialize (Hall _ Hj). lra.
  - apply Rltb_false in C.
    destruct (bestSnap s) as [r|].
    + intros (Hm & Ht & Hd & i & Hi & Hall & Hbefore).
      repeat split; try assumption.
      exists i. repeat split.
      * rewrite nth_error_app1; [exact Hi|].
        apply nth_error_Some. congruence.
      * intros j x Hj.
        destruct (nth_error_snoc_cases _ _ _ Hj) as [[_ Hx]|[_ ->]];
          [|lra].
        exact (Hall _ _ Hx).
      * intros j x Hlt Hj.
        assert (i < length done)%nat
          by (apply nth_error_Some; congruence).
        rewrite nth_error_app1 in Hj by lia.
        exact (Hbefore _ _ Hlt Hj).
    + intros (Hm & Hall). split; [exact Hm|].
      intros x Hx. apply in_app_or in Hx.
      destruct Hx as [Hx|[<-|[]]]; [exact (Hall _ Hx)|lra].
Qed.

Lemma scanned_loop (edges done : list Edge) (s : Scan) :
  scanned done s ->
  scanned (done ++ edges)
          (fold_left (scanEdge projection scale pointPixel) edges s).
Proof.
  revert done s. induction edges as [|e edges IH]; intros done s H.
  - rewrite app_nil_r. exact H.
  - cbn [fold_left].
    replace (done ++ e :: edges) with ((done ++ [e]) ++ edges)
      by (rewrite <- app_assoc; reflexivity).
    apply IH, scanned_step, H.
Qed.

End Loop.

(** ** The edges that are considered *)

Lemma shapeEdges_owner (id type : string) (o : Overlay) (es : list Edge) :
  shapeEdges id type o = Ok es ->
  forall e, In e es -> e_shapeId e = id.
Proof.
  unfold shapeEdges, ringEdges, openEdges.
  intros H e He.
  repeat match type of H with
         | (if ?b then _ else _) = _ => destruct b
         | match geom o with _ => _ end = _ => destruct (geom o)
         end;
    try discriminate; inversion H; subst; clear H;
    first [ apply in_map_iff in He; destruct He as (i & <- & _); reflexivity
          | cbn in He; intuition (subst; reflexivity) ].
Qed.

Lemma edgesOf_excludes (st : Store) (entries : list (string * Entry))
    (x : string) (es : list Edge) :
  edgesOf st entries (Some x) = Ok es ->
  forall e, In e es -> e_shapeId e <> x.
Proof.
  revert es. induction entries as [|[id shape] rest IH]; intros es H e He.
  - inversion H; subst. destruct He.
  - cbn [edgesOf is_excluded] in H.
    destruct (String.eqb id x) eqn:X; [exact (IH _ H _ He)|].
    destruct (deref st (en_obj shape)) as [o|]; [|discriminate].
    destruct (shapeEdges id (en_type shape) o) as [es1|] eqn:S1;
      [|discriminate].
    destruct (edgesOf st rest (Some x)) as [es2|]; [|discriminate].
    inversion H; subst. apply in_app_or in He. destruct He as [He|He].
    + rewrite (shapeEdges_owner _ _ _ S1 _ He).
      apply String.eqb_neq. exact X.
    + exact (IH _ eq_refl _ He).
Qed.

Lemma edgesOf_empty_registry (st : Store) (se : t) (x : option string) :
  JSMap.size (shapes se) = 0%nat -> _getAllEdges st se x = Ok [].
Proof.
  unfold _getAllEdges, JSMap.size. destruct (shapes se); [reflexivity|].
  discriminate.
Qed.

(** ** The result of [findSnapPoint] *)

(** When the query reaches the loop, its result is the candidate the loop
    ends with. *)
Lemma findSnapPoint_loop (st : Store) (se : t) (point : Point)
    (x : option string) (gmap : Map) (projection : Projection)
    (edges : list Edge) :
  map se = Some gmap -> enabled se = true ->
  getProjection gmap = Some projection ->
  _getAllEdges st se x = Ok edges ->
  exists s,
    snapOf st se point x = Ok (bestSnap s) /\
    scanned projection (scaleOf (getZoom gmap))
            (toPixel projection (scaleOf (getZoom gmap)) point)
            (threshold se) edges s.
Proof.
  intros Hm He Hp Hg. unfold snapOf, findSnapPoint.
  rewrite Hm, He. cbn [negb orb].
  destruct (JSMap.size (shapes se) =? 0)%nat eqn:Z.
  { apply Nat.eqb_eq in Z. rewrite edgesOf_empty_registry in Hg by exact Z.
    inversion Hg; subst.
    exists (mkScan None (threshold se) []). split; [reflexivity|].
    apply SnapFacts.scanned_start. }
  rewrite Hg.
  destruct (length edges =? 0)%nat eqn:L.
  { apply Nat.eqb_eq in L. destruct edges; [|discriminate].
    exists (mkScan None (threshold se) []). split; [reflexivity|].
    apply SnapFacts.scanned_start. }
  rewrite Hp.
  match goal with |- context [fold_left ?f edges ?s0] =>
    exists (fold_left f edges s0);
    pose proof (scanned_loop projection (scaleOf (getZoom gmap))
                  (toPixel projection (scaleOf (getZoom gmap)) point)
                  (threshold se) edges [] s0
                  (scanned_start _ _ _ _ _)) as S
  end.
  cbn [app] in S. split; [|exact S].
  destruct (bestSnap _); reflexivity.
Qed.





(** C4. With [excludeShapeId = X] no edge of the shape [X] is considered,
    so that a result never has an edge of [X]; the snap query of a drag
    of a handle of [X] passes the id of [X] and cannot snap to an edge of
    [X]. *)
Theorem findSnapPoint_excludes_shape
    (st : Store) (se : t) (point : Point) (X : string) :
  (forall edges, _getAllEdges st se (Some X) = Ok edges ->
                 forall e, In e edges -> e_shapeId e <> X) /\
  (forall r, snapOf st se point (Some X) = Ok (Some r) ->
             e_shapeId (sr_edge r) <> X) /\
  (forall (dm dm' : Drawing.t) (shape : Drawing.Shape) (r : SnapResult),
      Drawing.id shape = X ->
      Drawing.drag_snap shape point dm = (Ok (Some r), dm') ->
      e_shapeId (sr_edge r) <> X).
Proof.
  assert (A : forall st se r,
             snapOf st se point (Some X) = Ok (Some r) ->
             e_shapeId (sr_edge r) <> X).
  { clear st se. intros st se r H.
    pose proof H as H'. unfold snapOf, findSnapPoint in H'.
    destruct (map se) as [gmap|] eqn:Hm; [|discriminate].
    destruct (enabled se) eqn:He; [|discriminate]. cbn [negb orb] in H'.
    destruct (JSMap.size (shapes se) =? 0)%nat; [discriminate|].
    destruct (_getAllEdges st se (Some X)) as [edges|] eqn:Hg;
      [|discriminate].
    destruct (length edges =? 0)%nat; [discriminate|].
    destruct (getProjection gmap) as [projection|] eqn:Hp; [|discriminate].
    clear H'.
    destruct (findSnapPoint_loop st se point (Some X) Hm He Hp Hg)
      as (s & Hs & Hinv).
    assert (B : bestSnap s = Some r) by congruence.
    unfold scanned in Hinv. rewrite B in Hinv.
    destruct Hinv as (_ & _ & _ & i & Hi & _).
    apply nth_error_In in Hi.
    eapply edgesOf_excludes; eassumption. }
  split; [|split].
  - intros edges Hg e He. eapply edgesOf_excludes; eassumption.
  - apply A.
  - intros dm dm' shape r Hid H. unfold Drawing.drag_snap in H.
    destruct (Drawing.snapping_enabled (Drawing.options dm));
      [|discriminate].
    unfold Drawing.findSnapPoint in H. rewrite Hid in H.
    apply (A (Drawing.store dm) (Drawing.snapEngine dm)).
    unfold snapOf.
    destruct (findSnapPoint (Drawing.store dm) (Drawing.snapEngine dm)
                point (Some X)) as [[res se'] cs].
    inversion H. reflexivity.
Qed.

(** ** The sample engine *)

(** The distance to a horizontal segment from a point above or below
    it. *)
Lemma project_horizontal (x y a b c : R) :
  a < b -> a <= x <= b ->
  pr_distance (_projectPointToSegment (mkPixel x y) (mkPixel a c)
                                      (mkPixel b c)) = Rabs (y - c).
Proof.
  intros Hab Hx. unfold _projectPointToSegment. cbn [px py].
  replace (c - c) with 0 by ring.
  rewrite !Rmult_0_r, !Rplus_0_r.
  assert (P : 0 < (b - a) * (b - a)) by (apply Rmult_lt_0_compat; lra).
  unfold Reqb.
  destruct (Req_dec_T ((b - a) * (b - a)) 0) as [E|_]; [exfalso; lra|].
  cbn [pr_distance].
  replace ((x - a) * (b - a) / ((b - a) * (b - a)))
    with ((x - a) / (b - a)) by (field; lra).
  assert (T0 : 0 <= (x - a) / (b - a)).
  { apply Rmult_le_pos; [lra|]. left. apply Rinv_0_lt_compat. lra. }
  assert (T1 : (x - a) / (b - a) <= 1).
  { apply Rmult_le_reg_r with (b - a); [lra|].
    unfold Rdiv. rewrite Rmult_assoc, Rinv_l by lra. lra. }
  unfold Math_min, Math_max, Math_sqrt.
  rewrite Rmin_right by exact T1. rewrite Rmax_right by exact T0.
  replace ((x - (a + (x - a) / (b - a) * (b - a))) ^ 2 + (y - c) ^ 2)
    with (Rsqr (y - c)) by (unfold Rsqr; field; lra).
  apply sqrt_Rsqr_abs.
Qed.

Lemma sample_scale : scaleOf (getZoom Sample.map) = 1.
Proof. unfold scaleOf. cbn [getZoom Sample.map]. apply Rpower_O. lra. Qed.

Lemma sample_distance :
  edgeDistance Sample.map Sample.projection Sample.cursor Sample.segment = 5.
Proof.
  unfold edgeDistance. rewrite sample_scale.
  unfold projectEdge, toPixel.
  cbn [Sample.projection Sample.cursor Sample.segment Sample.v1 Sample.v2
       fromLatLngToPoint e_start e_end px py lat lng].
  rewrite project_horizontal by lra. rewrite Rabs_right by lra. lra.
Qed.

Lemma sample_distance2 :
  edgeDistance Sample.map Sample.projection Sample.near_polyline
               Sample.segment2 = 5.
Proof.
  unfold edgeDistance. rewrite sample_scale.
  unfold projectEdge, toPixel.
  cbn [Sample.projection Sample.near_polyline Sample.segment2 Sample.w1
       Sample.w2 fromLatLngToPoint e_start e_end px py lat lng].
  rewrite project_horizontal by lra. rewrite Rabs_right by lra. lra.
Qed.

Lemma drag_snap_snapOf (shape : Drawing.Shape) (pt : Point) (dm : Drawing.t) :
  Drawing.snapping_enabled (Drawing.options dm) = true ->
  exists dm',
    Drawing.drag_snap shape pt dm =
    (snapOf (Drawing.store dm) (Drawing.snapEngine dm) pt
            (Some (Drawing.id shape)), dm').
Proof.
  intros H. unfold Drawing.drag_snap, Drawing.findSnapPoint, snapOf.
  rewrite H.
  destruct (findSnapPoint _ _ _ _) as [[r se] cs].
  eexists. reflexivity.
Qed.

Lemma sample_threshold :
  threshold (Drawing.snapEngine Sample.two_shapes) = 15.
Proof.
  change (threshold (Drawing.snapEngine Sample.two_shapes))
    with (threshold (Snap.new (Some Sample.map) (Some 15) None)).
  unfold Snap.new, Reqb. cbn [threshold].
  destruct (Req_dec_T 15 0); reflexivity.
Qed.

(** On the two sample shapes, a query near the polyline that excludes the
    triangle finds a point. *)
Lemma sample_snaps :
  exists r,
    snapOf (Drawing.store Sample.two_shapes)
           (Drawing.snapEngine Sample.two_shapes) Sample.near_polyline
           (Some "shape_1"%string) = Ok (Some r).
Proof.
  destruct (@findSnapPoint_loop (Drawing.store Sample.two_shapes)
              (Drawing.snapEngine Sample.two_shapes) Sample.near_polyline
              (Some "shape_1"%string) Sample.map Sample.projection
              [Sample.segment2] eq_refl eq_refl eq_refl eq_refl)
    as (s & Hs & Hinv).
  unfold scanned in Hinv.
  destruct (bestSnap s) as [r|]; [exists r; exact Hs|].
  exfalso. destruct Hinv as (_ & Hfar).
  specialize (Hfar Sample.segment2 (or_introl eq_refl)).
  change (scanDistance Sample.projection (scaleOf (getZoom Sample.map))
            (toPixel Sample.projection (scaleOf (getZoom Sample.map))
                     Sample.near_polyline) Sample.segment2)
    with (edgeDistance Sample.map Sample.projection
            Sample.near_polyline Sample.segment2) in Hfar.
  rewrite sample_distance2, sample_threshold in Hfar. lra.
Qed.

Lemma has_get_some (V : Type) (k : string) (m : JSMap.t V) :
  JSMap.has k m = true -> exists v, JSMap.get k m = Some v.
Proof.
  unfold JSMap.has. destruct (JSMap.get k m) as [v|]; [|discriminate].
  intros _. exists v. reflexivity.
Qed.

Lemma sample_shape1 :
  exists shape,
    JSMap.get "shape_1"%string (Drawing.shapes Sample.two_shapes) =
      Some shape /\
    Drawing.id shape = "shape_1"%string.
Proof.
  destruct (@has_get_some _ "shape_1"%string
              (Drawing.shapes Sample.two_shapes) eq_refl) as (shape & Hget).
  exists shape. split; [exact Hget|].
  assert (I : option_map Drawing.id
                (JSMap.get "shape_1"%string
                   (Drawing.shapes Sample.two_shapes)) =
              Some "shape_1"%string) by reflexivity.
  rewrite Hget in I. inversion I. reflexivity.
Qed.

Lemma findSnapPoint_excludes_shape_witness :
  _getAllEdges (Drawing.store Sample.two_shapes)
               (Drawing.snapEngine Sample.two_shapes)
               (Some "shape_1"%string) = Ok [Sample.segment2] /\
  e_shapeId Sample.segment2 <> "shape_1"%string /\
  exists shape r dm',
    JSMap.get "shape_1"%string (Drawing.shapes Sample.two_shapes) =
      Some shape /\
    Drawing.drag_snap shape Sample.near_polyline Sample.two_shapes =
      (Ok (Some r), dm') /\
    snapOf (Drawing.store Sample.two_shapes)
           (Drawing.snapEngine Sample.two_shapes) Sample.near_polyline
           (Some "shape_1"%string) = Ok (Some r) /\
    e_shapeId (sr_edge r) <> "shape_1"%string.
Proof.
  pose proof (findSnapPoint_excludes_shape
                (Drawing.store Sample.two_shapes)
                (Drawing.snapEngine Sample.two_shapes) Sample.near_polyline
                "shape_1"%string) as (Hedges & Hsnap & Hdrag).
  split; [reflexivity|].
  split; [apply (Hedges [Sample.segment2] eq_refl); left; reflexivity|].
  destruct sample_shape1 as (shape & Hget & Hid).
  destruct sample_snaps as (r & Hs).
  destruct (drag_snap_snapOf shape Sample.near_polyline Sample.two_shapes
              eq_refl) as (dm' & D).
  rewrite Hid, Hs in D.
  exists shape, r, dm'.
  split; [exact Hget|]. split; [exact D|]. split; [exact Hs|].
  exact (Hdrag _ _ _ _ Hid D).
Defined.





End SnapFacts.

(* ================================================================== *)
(** * Properties of the drawing manager *)
(* ================================================================== *)

Module DrawingFacts.

Import Geometry GoogleMaps Drawing.
Local Open Scope string_scope.

(** ** What the editing listeners leave alone *)

(** Unfolds the assignments under [history]. *)
Ltac fields :=
  cbn [history set_map set_draggableCursor set_options set_shapes
       set_selectedShapeId set_isDrawing set_drawingType set_drawingPath
       set_lastSnapPoint set__idCounter set__previewLine set__previewMarkers
       set__drawingListeners set__vertexMarkers set__midpointMarkers
       set__labels set__shapeNameCounter set_events set_snapEngine
       set_store].

(** Proves that a function which only assigns other fields keeps
    [history]: every branch is a chain of assignments. *)
Ltac keeps_history :=
  intros;
  repeat (fields;
          match goal with
          | |- context [match ?x with _ => _ end] => destruct x
          | |- context [if ?b then _ else _] => destruct b
          end);
  fields; try reflexivity.

Lemma history_emit (e : Event) (dm : t) : history (emit e dm) = history dm.
Proof. reflexivity. Qed.

Lemma history__showMarkers (k : string) (dm : t) :
  history (_showMarkers k dm) = history dm.
Proof. unfold _showMarkers. keeps_history. Qed.

Lemma history__hideMarkers (k : string) (dm : t) :
  history (_hideMarkers k dm) = history dm.
Proof. unfold _hideMarkers. keeps_history. Qed.

Lemma history__removeMarkers (k : string) (dm : t) :
  history (_removeMarkers k dm) = history dm.
Proof. reflexivity. Qed.

Lemma history__createVertexMarkers (shape : Shape) (dm : t) :
  history (_createVertexMarkers shape dm) = history dm.
Proof. reflexivity. Qed.

Lemma history__updateLabel (shape : Shape) (dm : t) :
  history (_updateLabel shape dm) = history dm.
Proof. unfold _updateLabel. keeps_history. Qed.

Lemma history_mutate_shape (shape : Shape) (dm : t) :
  history (mutate_shape shape dm) = history dm.
Proof. unfold mutate_shape. keeps_history. Qed.

Lemma history_update_path (f : list Point -> list Point) (shape : Shape)
    (dm : t) :
  history (update_path f shape dm) = history dm.
Proof. reflexivity. Qed.

Lemma history__updateShapeData (shape : Shape) (dm : t) :
  history (_updateShapeData shape dm) = history dm.
Proof.
  unfold _updateShapeData.
  rewrite history_emit, history__updateLabel. fields.
  apply history_mutate_shape.
Qed.

Lemma history__rebuildMarkers (shape : Shape) (dm : t) :
  history (_rebuildMarkers shape dm) = history dm.
Proof.
  unfold _rebuildMarkers. rewrite history__updateShapeData.
  destruct (match selectedShapeId dm with
            | Some s => String.eqb s (id shape)
            | None => false
            end);
    rewrite ?history__showMarkers, history__createVertexMarkers;
    apply history__removeMarkers.
Qed.

Lemma history__updateMidpointPositions (shape : Shape) (dm : t) :
  history (_updateMidpointPositions shape dm) = history dm.
Proof. unfold _updateMidpointPositions. keeps_history. Qed.

Lemma history_findSnapPoint (pt : Point) (x : option string) (dm : t) :
  history (snd (findSnapPoint pt x dm)) = history dm.
Proof.
  unfold findSnapPoint.
  destruct (Snap.findSnapPoint _ _ _ _) as [[r se] cs]. reflexivity.
Qed.

Lemma history_drag_snap (shape : Shape) (pt : Point) (dm : t) :
  history (snd (drag_snap shape pt dm)) = history dm.
Proof.
  unfold drag_snap. destruct (snapping_enabled _); [|reflexivity].
  apply history_findSnapPoint.
Qed.

Lemma history_apply_drag (shape : Shape) (index : nat) (latLng : Point)
    (snap : option Snap.SnapResult) (setMarker : Point -> t -> t) (dm : t) :
  (forall p d, history (setMarker p d) = history d) ->
  history (apply_drag shape index latLng snap setMarker dm) = history dm.
Proof.
  intros H. unfold apply_drag. destruct snap as [s|].
  - rewrite history_emit, history_update_path. apply H.
  - reflexivity.
Qed.

Lemma history_move_vertexMarker (k : string) (i : nat) (p : Point) (dm : t) :
  history (move_vertexMarker k i p dm) = history dm.
Proof. unfold move_vertexMarker. keeps_history. Qed.

Lemma history_set_midpointMarker (k : string) (i : nat)
    (f : MidpointMarker -> MidpointMarker) (dm : t) :
  history (set_midpointMarker k i f dm) = history dm.
Proof. unfold set_midpointMarker. keeps_history. Qed.

Lemma history_vertex_drag (k : string) (i : nat) (p : Point) (dm : t) :
  history (vertex_drag k i p dm) = history dm.
Proof.
  unfold vertex_drag. destruct (JSMap.get k (shapes dm)) as [shape|];
    [|reflexivity].
  pose proof (history_drag_snap shape p dm) as S.
  destruct (drag_snap shape p dm) as [[snap|] dm1]; [|reflexivity].
  cbn [snd] in S.
  rewrite history__updateMidpointPositions, history_apply_drag; [exact S|].
  intros. apply history_move_vertexMarker.
Qed.

Lemma history_vertex_dragend (k : string) (i : nat) (dm : t) :
  history (vertex_dragend k i dm) = history dm.
Proof.
  unfold vertex_dragend. destruct (JSMap.get k (shapes dm)) as [shape|];
    [|reflexivity].
  rewrite history_emit. fields. apply history__updateShapeData.
Qed.

Lemma history_midpoint_dragstart (k : string) (i : nat) (dm : t) :
  history (midpoint_dragstart k i dm) = history dm.
Proof.
  unfold midpoint_dragstart.
  destruct (JSMap.get k (shapes dm)) as [shape|]; [|reflexivity].
  destruct (midpointMarker k i dm) as [m|]; [|reflexivity].
  rewrite history_update_path. apply history_set_midpointMarker.
Qed.

Lemma history_midpoint_drag (k : string) (i : nat) (p : Point) (dm : t) :
  history (midpoint_drag k i p dm) = history dm.
Proof.
  unfold midpoint_drag.
  destruct (JSMap.get k (shapes dm)) as [shape|]; [|reflexivity].
  destruct (midpointMarker k i dm) as [m|]; [|reflexivity].
  destruct (insertedIndex m) as [inserted|]; [|reflexivity].
  pose proof (history_drag_snap shape p dm) as S.
  destruct (drag_snap shape p dm) as [[snap|] dm1]; [|reflexivity].
  cbn [snd] in S. rewrite history_apply_drag; [exact S|].
  intros. apply history_set_midpointMarker.
Qed.

Lemma history_midpoint_dragend (k : string) (i : nat) (dm : t) :
  history (midpoint_dragend k i dm) = history dm.
Proof.
  unfold midpoint_dragend.
  destruct (JSMap.get k (shapes dm)) as [shape|]; [|reflexivity].
  destruct (midpointMarker k i dm) as [m|]; [|reflexivity].
  rewrite history_emit. fields. apply history__rebuildMarkers.
Qed.

Lemma history_fold_drag (step : Point -> t -> t) (moves : list Point)
    (dm : t) :
  (forall p d, history (step p d) = history d) ->
  history (fold_left (fun d p => step p d) moves dm) = history dm.
Proof.
  intros H. revert dm. induction moves as [|p moves IH]; intros dm;
    [reflexivity|].
  cbn [fold_left]. rewrite IH. apply H.
Qed.

(** No listener of a midpoint marker touches the history: a whole gesture
    leaves it as it was. *)
Lemma midpoint_gesture_keeps_history (k : string) (edgeIndex : nat)
    (moves : list Point) (dm : t) :
  history (midpoint_gesture k edgeIndex moves dm) = history dm.
Proof.
  unfold midpoint_gesture.
  rewrite history_midpoint_dragend.
  rewrite (history_fold_drag (midpoint_drag k edgeIndex)).
  - apply history_midpoint_dragstart.
  - intros. apply history_midpoint_drag.
Qed.

(** Nor does a listener of a vertex marker. *)
Lemma vertex_gesture_keeps_history (k : string) (index : nat)
    (moves : list Point) (dm : t) :
  history (vertex_gesture k index moves dm) = history dm.
Proof.
  unfold vertex_gesture.
  rewrite history_vertex_dragend.
  rewrite (history_fold_drag (vertex_drag k index)).
  - reflexivity.
  - intros. apply history_vertex_drag.
Qed.

(** ** The path during a gesture on a midpoint marker *)

Lemma get_set_same (V : Type) (k : string) (v : V) (m : JSMap.t V) :
  JSMap.get k (JSMap.set k v m) = Some v.
Proof.
  induction m as [|[k' v'] m IH]; cbn.
  - rewrite String.eqb_refl. reflexivity.
  - destruct (String.eqb k k') eqn:E; cbn; rewrite E; [reflexivity|exact IH].
Qed.

Lemma deref_update (r : nat) (f : Overlay -> Overlay) (st : Store) :
  deref (update r f st) r = option_map f (deref st r).
Proof.
  unfold deref. revert r. induction st as [|o st IH]; intros [|r]; cbn;
    try reflexivity.
  apply IH.
Qed.

Lemma length_insertAt (A : Type) (i : nat) (x : A) (l : list A) :
  length (insertAt i x l) = S (length l).
Proof.
  unfold insertAt. rewrite length_app. cbn [length].
  rewrite length_firstn, length_skipn. lia.
Qed.

Lemma setAt_insertAt (A : Type) (i : nat) (x y : A) (l : list A) :
  (i <= length l)%nat ->
  setAt i y (insertAt i x l) = insertAt i y l.
Proof.
  unfold insertAt. revert l. induction i as [|i IH]; intros l H.
  - reflexivity.
  - destruct l as [|a l]; [cbn in H; lia|].
    cbn [firstn skipn app setAt]. f_equal. apply IH. cbn in H. lia.
Qed.

Lemma nth_error_indexed_map (A : Type) (f : A -> A) (e : nat) (ms : list A)
    (s j : nat) :
  nth_error
    (List.map (fun im : nat * A =>
                 let (i, m) := im in if (i =? e)%nat then f m else m)
              (combine (seq s (length ms)) ms)) j =
  option_map (fun m => if (s + j =? e)%nat then f m else m) (nth_error ms j).
Proof.
  revert s j. induction ms as [|m ms IH]; intros s j.
  - destruct j; reflexivity.
  - destruct j as [|j]; cbn [length seq combine List.map nth_error option_map].
    + rewrite Nat.add_0_r. reflexivity.
    + rewrite IH. replace (S s + j)%nat with (s + S j)%nat by lia.
      reflexivity.
Qed.

Lemma midpointMarker_set (k : string) (e : nat)
    (f : MidpointMarker -> MidpointMarker) (dm : t) (m : MidpointMarker) :
  midpointMarker k e dm = Some m ->
  midpointMarker k e (set_midpointMarker k e f dm) = Some (f m).
Proof.
  unfold midpointMarker, set_midpointMarker.
  destruct (JSMap.get k (_midpointMarkers dm)) as [ms|] eqn:G;
    [|discriminate].
  intros H. cbn [_midpointMarkers set__midpointMarkers].
  rewrite get_set_same, nth_error_indexed_map, H. cbn.
  rewrite Nat.eqb_refl. reflexivity.
Qed.

Lemma drag_snap_frame (shape : Shape) (pt : Point) (dm : t) :
  let dm1 := snd (drag_snap shape pt dm) in
  shapes dm1 = shapes dm /\ store dm1 = store dm /\
  _midpointMarkers dm1 = _midpointMarkers dm.
Proof.
  unfold drag_snap, findSnapPoint.
  destruct (snapping_enabled (options dm)); [|repeat split].
  destruct (Snap.findSnapPoint _ _ _ _) as [[r se] cs]. repeat split.
Qed.

Lemma getPath_frame (dm dm1 : t) (shape : Shape) :
  store dm1 = store dm -> getPath dm1 shape = getPath dm shape.
Proof. unfold getPath. intros ->. reflexivity. Qed.

Lemma getPath_update_path (f : list Point -> list Point) (shape : Shape)
    (dm : t) (p : list Point) :
  getPath dm shape = p -> p <> [] ->
  getPath (update_path f shape dm) shape = f p.
Proof.
  unfold getPath, update_path. cbn [store set_store].
  rewrite deref_update.
  destruct (deref (store dm) (obj shape)) as [o|]; [|congruence].
  cbn [option_map]. destruct (geom o); try congruence.
  intros -> _. reflexivity.
Qed.

Lemma insertAt_nonempty (A : Type) (i : nat) (x : A) (l : list A) :
  insertAt i x l <> [].
Proof.
  intro H. apply (f_equal (@length A)) in H.
  rewrite length_insertAt in H. discriminate.
Qed.

Lemma midpoint_dragstart_dragging (k : string) (e : nat) (shape : Shape)
    (base : list Point) (m : MidpointMarker) (dm : t) :
  JSMap.get k (shapes dm) = Some shape ->
  getPath dm shape = base -> base <> [] ->
  midpointMarker k e dm = Some m ->
  midpoint_dragging k e shape base (midpoint_dragstart k e dm).
Proof.
  intros Hs Hp Hne Hm. unfold midpoint_dragstart. rewrite Hs, Hm.
  split; [|split].
  - unfold update_path, set_midpointMarker.
    destruct (JSMap.get k (_midpointMarkers dm)); exact Hs.
  - exists (position (marker m)).
    apply getPath_update_path; [|exact Hne].
    rewrite <- Hp. apply getPath_frame.
    unfold set_midpointMarker.
    destruct (JSMap.get k (_midpointMarkers dm)); reflexivity.
  - eexists. split.
    + unfold update_path.
      change (midpointMarker k e (set_store ?s ?d))
        with (midpointMarker k e d).
      apply midpointMarker_set. exact Hm.
    + reflexivity.
Qed.

Lemma midpoint_drag_dragging (k : string) (e : nat) (shape : Shape)
    (base : list Point) (pt : Point) (dm : t) :
  (e + 1 <= length base)%nat ->
  midpoint_dragging k e shape base dm ->
  midpoint_dragging k e shape base (midpoint_drag k e pt dm).
Proof.
  intros He (Hs & (x & Hp) & (m & Hm & Hi)).
  unfold midpoint_drag. rewrite Hs, Hm, Hi.
  pose proof (drag_snap_frame shape pt dm) as F.
  destruct (drag_snap shape pt dm) as [[snap|] dm1];
    [|split; [exact Hs|split; [exists x; exact Hp|exists m; auto]]].
  cbn [snd] in F. destruct F as (Fs & Fst & Fm).
  assert (Hm1 : midpointMarker k e dm1 = Some m).
  { unfold midpointMarker in *. rewrite Fm. exact Hm. }
  assert (Hp1 : getPath dm1 shape = insertAt (e + 1) x base).
  { rewrite <- Hp. apply getPath_frame. exact Fst. }
  unfold apply_drag. destruct snap as [s|].
  - split; [|split].
    + cbn [emit shapes set_events]. unfold update_path, set_midpointMarker.
      destruct (JSMap.get k (_midpointMarkers dm1)); cbn; congruence.
    + exists (Snap.sr_point s).
      change (getPath (emit ?ev ?d) shape) with (getPath d shape).
      rewrite <- (@setAt_insertAt _ (e + 1) x (Snap.sr_point s) base He).
      apply getPath_update_path; [|apply insertAt_nonempty].
      rewrite <- Hp1. apply getPath_frame.
      unfold set_midpointMarker.
      destruct (JSMap.get k (_midpointMarkers dm1)); reflexivity.
    + eexists. split.
      * change (midpointMarker k e (emit ?ev (update_path ?f ?sh ?d)))
          with (midpointMarker k e d).
        apply midpointMarker_set. exact Hm1.
      * exact Hi.
  - split; [|split].
    + cbn. congruence.
    + exists pt.
      change (getPath (emit ?ev (set_snapEngine ?se ?d)) shape)
        with (getPath d shape).
      rewrite <- (@setAt_insertAt _ (e + 1) x pt base He).
      apply getPath_update_path; [exact Hp1|apply insertAt_nonempty].
    + exists m. split; [exact Hm1|exact Hi].
Qed.

Lemma midpoint_drags_dragging (k : string) (e : nat) (shape : Shape)
    (base : list Point) (moves : list Point) (dm : t) :
  (e + 1 <= length base)%nat ->
  midpoint_dragging k e shape base dm ->
  midpoint_dragging k e shape base
    (fold_left (fun d p => midpoint_drag k e p d) moves dm).
Proof.
  intros He. revert dm. induction moves as [|p moves IH]; intros dm H;
    [exact H|].
  cbn [fold_left]. apply IH, midpoint_drag_dragging; assumption.
Qed.

Lemma has_get (V : Type) (k : string) (m : JSMap.t V) (v : V) :
  JSMap.get k m = Some v -> JSMap.has k m = true.
Proof. unfold JSMap.has. intros ->. reflexivity. Qed.

Lemma midpoint_dragend_stores (k : string) (e : nat) (shape : Shape)
    (base : list Point) (dm : t) :
  id shape = k ->
  midpoint_dragging k e shape base dm ->
  let dm' := midpoint_dragend k e dm in
  getPath dm' shape = getPath dm shape /\
  JSMap.get k (shapes dm') = Some (refreshed (getPath dm shape) shape).
Proof.
  intros Hid (Hs & _ & (m & Hm & _)) dm'. subst dm'.
  unfold midpoint_dragend. rewrite Hs, Hm.
  unfold _rebuildMarkers, _updateShapeData.
  set (dm3 := if match selectedShapeId dm with
                 | Some s => String.eqb s (id shape)
                 | None => false
                 end
              then _showMarkers (id shape)
                     (_createVertexMarkers shape
                        (_removeMarkers (id shape) dm))
              else _createVertexMarkers shape
                     (_removeMarkers (id shape) dm)).
  assert (F : store dm3 = store dm /\ shapes dm3 = shapes dm).
  { unfold dm3, _showMarkers.
    destruct (match selectedShapeId dm with
              | Some s => String.eqb s (id shape)
              | None => false
              end); [|split; reflexivity].
    repeat match goal with
           | |- context [match JSMap.get ?a ?b with _ => _ end] =>
               destruct (JSMap.get a b)
           end; split; reflexivity. }
  destruct F as [Fst Fsh].
  assert (P : getPath dm3 shape = getPath dm shape)
    by (apply getPath_frame; exact Fst).
  rewrite P.
  set (shape' := refreshed (getPath dm shape) shape).
  assert (Hid' : id shape' = k).
  { unfold shape', refreshed. destruct (geometry shape); exact Hid. }
  split.
  - apply getPath_frame. unfold _updateLabel, mutate_shape.
    repeat match goal with
           | |- context [match JSMap.get ?a ?b with _ => _ end] =>
               destruct (JSMap.get a b)
           | |- context [if ?b then _ else _] => destruct b
           end; exact Fst.
  - unfold _updateLabel, mutate_shape. rewrite Hid', Fsh.
    rewrite (@has_get _ _ _ _ Hs).
    repeat match goal with
           | |- context [match JSMap.get ?a (_labels ?b) with _ => _ end] =>
               destruct (JSMap.get a (_labels b))
           end; cbn; apply get_set_same.
Qed.

(** A gesture on a midpoint marker inserts one vertex at the edge index
    + 1 of the path, stores the longer path in the shape and pushes
    nothing on the history. *)
Lemma midpoint_gesture_inserts (k : string) (e : nat) (shape : Shape)
    (base : list Point) (m : MidpointMarker) (moves : list Point) (dm : t) :
  JSMap.get k (shapes dm) = Some shape -> id shape = k ->
  getPath dm shape = base -> (e + 1 <= length base)%nat ->
  midpointMarker k e dm = Some m ->
  let dm' := midpoint_gesture k e moves dm in
  exists x,
    getPath dm' shape = insertAt (e + 1) x base /\
    length (getPath dm' shape) = S (length base) /\
    JSMap.get k (shapes dm') =
      Some (refreshed (insertAt (e + 1) x base) shape) /\
    history dm' = history dm.
Proof.
  intros Hs Hid Hp He Hm dm'.
  assert (Hne : base <> []).
  { intro N. rewrite N in He. cbn in He. lia. }
  pose proof (@midpoint_drags_dragging k e shape base moves _ He
                (@midpoint_dragstart_dragging k e shape base m dm
                   Hs Hp Hne Hm)) as D.
  destruct (@midpoint_dragend_stores k e shape base _ Hid D) as (Gp & Gs).
  destruct D as (_ & (x & Hx) & _).
  exists x. unfold dm', midpoint_gesture.
  rewrite Gp, Hx in *. split; [reflexivity|].
  split; [apply length_insertAt|]. split; [exact Gs|].
  apply midpoint_gesture_keeps_history.
Qed.

(** C1, on the code. For every polygon with 3 vertices, a gesture on the
    midpoint marker of an edge ([dragstart], any [drag] events, [dragend])
    inserts one vertex at the edge index + 1, so that the path of the
    overlay and the path stored in the shape have 4 points; but the
    history after the gesture is the history before it: no entry is
    recorded for the gesture. *)
Theorem midpoint_gesture_records_no_history
    (k : string) (e : nat) (shape : Shape) (p1 p2 p3 : Point)
    (m : MidpointMarker) (moves : list Point) (dm : t) :
  JSMap.get k (shapes dm) = Some shape -> id shape = k ->
  is_polygon (geometry shape) = true ->
  getPath dm shape = [p1; p2; p3] -> (e < 3)%nat ->
  midpointMarker k e dm = Some m ->
  let dm' := midpoint_gesture k e moves dm in
  (exists (x : Point) (shape' : Shape),
      getPath dm' shape = insertAt (e + 1) x [p1; p2; p3] /\
      length (getPath dm' shape) = 4%nat /\
      JSMap.get k (shapes dm') = Some shape' /\
      geometry shape' = Polygon (insertAt (e + 1) x [p1; p2; p3])) /\
  history dm' = history dm /\
  History.len (history dm') = History.len (history dm).
Proof.
  intros Hs Hid Hpoly Hp He Hm dm'.
  assert (He' : (e + 1 <= length [p1; p2; p3])%nat) by (cbn; lia).
  destruct (@midpoint_gesture_inserts k e shape [p1; p2; p3] m moves dm
              Hs Hid Hp He' Hm) as (x & Gp & Gl & Gs & Gh).
  fold dm' in Gp, Gl, Gs, Gh.
  split; [|split; [exact Gh|rewrite Gh; reflexivity]].
  exists x, (refreshed (insertAt (e + 1) x [p1; p2; p3]) shape).
  split; [exact Gp|]. split; [exact Gl|]. split; [exact Gs|].
  unfold refreshed. destruct (geometry shape); try discriminate.
  reflexivity.
Qed.

Lemma Some_eq (A : Type) (a b : A) : Some a = Some b -> a = b.
Proof. intros H. injection H as H. exact H. Qed.

(** The selected triangle of the sample session. *)
Lemma sample_triangle_shape :
  exists shape m,
    JSMap.get "shape_1" (shapes Sample.selected) = Some shape /\
    id shape = "shape_1" /\
    is_polygon (geometry shape) = true /\
    getPath Sample.selected shape = [Sample.v1; Sample.v2; Sample.v3] /\
    midpointMarker "shape_1" 0 Sample.selected = Some m.
Proof.
  destruct (@SnapFacts.has_get_some _ "shape_1" (shapes Sample.selected)
              eq_refl) as (shape & E).
  assert (M : exists m, midpointMarker "shape_1" 0 Sample.selected = Some m).
  { unfold midpointMarker.
    destruct (@SnapFacts.has_get_some _ "shape_1"
                (_midpointMarkers Sample.selected) eq_refl) as (ms & G).
    rewrite G.
    assert (L : option_map (@length _)
                  (JSMap.get "shape_1" (_midpointMarkers Sample.selected)) =
                Some 3%nat) by reflexivity.
    rewrite G in L. apply Some_eq in L.
    destruct ms as [|m ms]; [discriminate|]. exists m. reflexivity. }
  destruct M as (m & M).
  exists shape, m. split; [exact E|].
  assert (I : option_map
                (fun sh => (id sh, is_polygon (geometry sh),
                            getPath Sample.selected sh))
                (JSMap.get "shape_1" (shapes Sample.selected)) =
              Some ("shape_1", true, [Sample.v1; Sample.v2; Sample.v3]))
    by reflexivity.
  rewrite E in I. cbn [option_map] in I. apply Some_eq in I.
  assert (I1 := f_equal (fun x => fst (fst x)) I).
  assert (I2 := f_equal (fun x => snd (fst x)) I).
  assert (I3 := f_equal snd I).
  cbn [fst snd] in I1, I2, I3.
  split; [exact I1|]. split; [exact I2|]. split; [exact I3|exact M].
Qed.

Lemma midpoint_gesture_records_no_history_witness :
  let dm' := midpoint_gesture "shape_1" 0 [Sample.m1; Sample.m2]
                              Sample.selected in
  (exists shape,
      JSMap.get "shape_1" (shapes Sample.selected) = Some shape /\
      getPath Sample.selected shape = [Sample.v1; Sample.v2; Sample.v3] /\
      length (getPath dm' shape) = 4%nat) /\
  history dm' = history Sample.selected /\
  History.len (history dm') = 1%Z.
Proof.
  intros dm'.
  destruct sample_triangle_shape as (shape & m & Hs & Hid & Hpoly & Hp & Hm).
  assert (He : (0 < 3)%nat) by lia.
  destruct (@midpoint_gesture_records_no_history "shape_1" 0 shape
              Sample.v1 Sample.v2 Sample.v3 m [Sample.m1; Sample.m2]
              Sample.selected Hs Hid Hpoly Hp He Hm)
    as ((x & shape' & Gp & Gl & _) & Gh & Gn).
  fold dm' in Gp, Gl, Gh, Gn.
  split; [|split; [exact Gh|]].
  - exists shape. split; [exact Hs|]. split; [exact Hp|exact Gl].
  - rewrite Gn. reflexivity.
Defined.

(** On the sample triangle, a gesture on the midpoint marker of each of
    the three edges ([dragstart], two [drag] events, [dragend]) inserts
    one vertex at the edge index + 1 and the path gets 4 points; the only
    entry of the history is still the creation of the shape. *)
Lemma midpoint_gesture_on_triangle :
  let path_after e :=
    option_map (fun s => path_of (geometry s))
      (JSMap.get "shape_1"
         (shapes (midpoint_gesture "shape_1" e [Sample.m1; Sample.m2]
                                   Sample.selected))) in
  let history_after e :=
    history (midpoint_gesture "shape_1" e [Sample.m1; Sample.m2]
                              Sample.selected) in
  option_map (fun s => path_of (geometry s))
    (JSMap.get "shape_1" (shapes Sample.selected)) =
    Some (Some [Sample.v1; Sample.v2; Sample.v3]) /\
  path_after 0%nat =
    Some (Some [Sample.v1; Sample.m2; Sample.v2; Sample.v3]) /\
  path_after 1%nat =
    Some (Some [Sample.v1; Sample.v2; Sample.m2; Sample.v3]) /\
  path_after 2%nat =
    Some (Some [Sample.v1; Sample.v2; Sample.v3; Sample.m2]) /\
  List.map action_type (History.history (history Sample.selected)) =
    ["create"] /\
  (forall e, history_after e = history Sample.selected) /\
  (forall e, History.len (history_after e) = 1%Z).
Proof.
  cbv zeta.
  split; [reflexivity|]. split; [reflexivity|]. split; [reflexivity|].
  split; [reflexivity|]. split; [reflexivity|]. split.
  - intros e. apply midpoint_gesture_keeps_history.
  - intros e. rewrite midpoint_gesture_keeps_history. reflexivity.
Qed.

(** On the sample triangle, two [drag] events on the marker of vertex 0
    and its release store the dragged path in the shape and the area of
    that path; the only entry of the history is still the creation of the
    shape. *)
Lemma vertex_gesture_on_triangle :
  let after := vertex_gesture "shape_1" 0 [Sample.m1; Sample.m2]
                              Sample.selected in
  option_map (fun s => path_of (geometry s))
    (JSMap.get "shape_1" (shapes after)) =
    Some (Some [Sample.m2; Sample.v2; Sample.v3]) /\
  option_map area (JSMap.get "shape_1" (shapes after)) =
    Some (calculatePolygonArea [Sample.m2; Sample.v2; Sample.v3]) /\
  List.map action_type (History.history (history Sample.selected)) =
    ["create"] /\
  history after = history Sample.selected /\
  History.len (history after) = 1%Z.
Proof.
  cbv zeta.
  split; [reflexivity|]. split; [reflexivity|]. split; [reflexivity|].
  split.
  - apply vertex_gesture_keeps_history.
  - rewrite vertex_gesture_keeps_history. reflexivity.
Qed.

(** What the release of a vertex marker stores: the path of the overlay,
    and for a polygon the area of that path. *)
Lemma vertex_dragend_refreshes (k : string) (index : nat) (dm : t)
    (shape : Shape) :
  JSMap.get k (shapes dm) = Some shape ->
  shapes (vertex_dragend k index dm) =
  shapes (mutate_shape (refreshed (getPath dm shape) shape) dm).
Proof.
  intros H. unfold vertex_dragend. rewrite H.
  unfold _updateShapeData, _updateLabel.
  match goal with |- context [JSMap.get ?i (_labels ?d)] =>
    destruct (JSMap.get i (_labels d)) end; reflexivity.
Qed.

(** The [drag] listener of a vertex marker leaves the registry alone. *)
Lemma shapes_vertex_drag (k : string) (i : nat) (p : Point) (dm : t) :
  shapes (vertex_drag k i p dm) = shapes dm.
Proof.
  unfold vertex_drag. destruct (JSMap.get k (shapes dm)) as [shape|];
    [|reflexivity].
  pose proof (drag_snap_frame shape p dm) as F.
  destruct (drag_snap shape p dm) as [[snap|] dm1]; [|reflexivity].
  cbn [snd] in F. destruct F as (Fs & _ & _). rewrite <- Fs.
  unfold _updateMidpointPositions, apply_drag, move_vertexMarker.
  repeat match goal with
         | |- context [match ?x with _ => _ end] => destruct x
         end; reflexivity.
Qed.

Lemma shapes_vertex_drags (k : string) (i : nat) (moves : list Point)
    (dm : t) :
  shapes (fold_left (fun d p => vertex_drag k i p d) moves dm) = shapes dm.
Proof.
  revert dm. induction moves as [|p moves IH]; intros dm; [reflexivity|].
  cbn [fold_left]. rewrite IH. apply shapes_vertex_drag.
Qed.

(** C2, on the code. For every polygon or polyline of the registry, the
    release of a vertex marker after any [drag] events stores in the
    shape the path the overlay has then, and for a polygon the area of
    that path; no [drag] event and no release pushes on the history, so
    that the history after the gesture is the history before it and holds
    no action for the gesture. *)
Theorem vertex_gesture_records_no_history
    (k : string) (index : nat) (shape : Shape) (moves : list Point)
    (dm : t) :
  JSMap.get k (shapes dm) = Some shape -> id shape = k ->
  is_path_type (geometry shape) = true ->
  let dragged := fold_left (fun d p => vertex_drag k index p d) moves dm in
  let dm' := vertex_gesture k index moves dm in
  (exists shape',
      JSMap.get k (shapes dm') = Some shape' /\
      path_of (geometry shape') = Some (getPath dragged shape) /\
      (is_polygon (geometry shape) = true ->
       area shape' = calculatePolygonArea (getPath dragged shape))) /\
  history dragged = history dm /\
  history dm' = history dm /\
  History.len (history dm') = History.len (history dm).
Proof.
  intros Hs Hid Hpath dragged dm'.
  assert (Hd : JSMap.get k (shapes dragged) = Some shape).
  { unfold dragged. rewrite shapes_vertex_drags. exact Hs. }
  assert (Hh : history dm' = history dm)
    by apply vertex_gesture_keeps_history.
  split; [|split; [|split; [exact Hh|rewrite Hh; reflexivity]]].
  - exists (refreshed (getPath dragged shape) shape).
    split; [|split].
    + unfold dm', vertex_gesture. fold dragged.
      rewrite (@vertex_dragend_refreshes k index dragged shape Hd).
      unfold mutate_shape.
      assert (I : id (refreshed (getPath dragged shape) shape) = k).
      { unfold refreshed. destruct (geometry shape); exact Hid. }
      rewrite I, (@has_get _ _ _ _ Hd). cbn. apply get_set_same.
    + unfold refreshed. destruct (geometry shape); try discriminate;
        reflexivity.
    + intros P. unfold refreshed.
      destruct (geometry shape); try discriminate; reflexivity.
  - unfold dragged. apply (history_fold_drag (vertex_drag k index)).
    intros. apply history_vertex_drag.
Qed.

Lemma vertex_gesture_records_no_history_witness :
  let dm' := vertex_gesture "shape_1" 0 [Sample.m1; Sample.m2]
                            Sample.selected in
  (exists shape',
      JSMap.get "shape_1" (shapes dm') = Some shape' /\
      path_of (geometry shape') =
        Some [Sample.m2; Sample.v2; Sample.v3] /\
      area shape' =
        calculatePolygonArea [Sample.m2; Sample.v2; Sample.v3]) /\
  history dm' = history Sample.selected /\
  History.len (history dm') = 1%Z.
Proof.
  intros dm'.
  destruct sample_triangle_shape as (shape & m & Hs & Hid & Hpoly & Hp & Hm).
  assert (Hpath : is_path_type (geometry shape) = true).
  { destruct (geometry shape); try discriminate; reflexivity. }
  destruct (@vertex_gesture_records_no_history "shape_1" 0 shape
              [Sample.m1; Sample.m2] Sample.selected Hs Hid Hpath)
    as ((shape' & Gs & Gp & Ga) & _ & Gh & Gn).
  fold dm' in Gs, Gh, Gn.
  assert (D : option_map
                (fun sh => getPath
                   (fold_left (fun d p => vertex_drag "shape_1" 0 p d)
                              [Sample.m1; Sample.m2] Sample.selected) sh)
                (JSMap.get "shape_1" (shapes Sample.selected)) =
              Some [Sample.m2; Sample.v2; Sample.v3]) by reflexivity.
  rewrite Hs in D. cbn [option_map] in D. apply Some_eq in D.
  rename D into D'.
  rewrite D' in Gp, Ga.
  split; [|split; [exact Gh|rewrite Gn; reflexivity]].
  exists shape'. split; [exact Gs|]. split; [exact Gp|exact (Ga Hpoly)].
Defined.

(** The literal of [completeDrawing] has the four drawing types as its
    own keys; under another name it reads [undefined] and the minimum is
    [2], unless [Object.prototype] defines the name. *)
Lemma minPoints_cases (drawingType : option string) :
  (exists n, minPoints drawingType = Points n /\ (2 <= n <= 3)%nat) \/
  (exists name,
      drawingType = Some name /\ minPoints drawingType = Inherited name /\
      is_prototype_name name = true /\
      forall path, shape_of_drawing drawingType path = None).
Proof.
  destruct drawingType as [type|]; [|left; exists 2%nat; split; [reflexivity|lia]].
  unfold minPoints, shape_of_drawing.
  destruct (String.eqb type "polygon");
    [left; exists 3%nat; split; [reflexivity|lia]|].
  destruct (String.eqb type "polyline");
    [left; exists 2%nat; split; [reflexivity|lia]|].
  destruct (String.eqb type "circle");
    [left; exists 2%nat; split; [reflexivity|lia]|].
  destruct (String.eqb type "rectangle");
    [left; exists 2%nat; split; [reflexivity|lia]|].
  destruct (is_prototype_name type) eqn:P;
    [|left; exists 2%nat; split; [reflexivity|lia]].
  right. exists type. split; [reflexivity|]. split; [reflexivity|].
  split; [exact P|]. intros path. reflexivity.
Qed.

(** Under a name that [Object.prototype] defines the test of the minimum
    fails whatever the length of the path: [completeDrawing] goes on,
    [_createShape] takes the next id and the next name and creates
    nothing, and the drawing is stopped. *)
Lemma completeDrawing_inherited_name (name : string) (dm : t) :
  isDrawing dm = true ->
  minPoints (drawingType dm) = Inherited name ->
  completeDrawing dm = stopDrawing (fst (_createShape dm)) /\
  isDrawing (completeDrawing dm) = false /\
  _idCounter (completeDrawing dm) = S (_idCounter dm) /\
  shapes (completeDrawing dm) = shapes dm /\
  history (completeDrawing dm) = history dm.
Proof.
  intros D M.
  assert (N : shape_of_drawing (drawingType dm) (drawingPath dm) = None).
  { destruct (minPoints_cases (drawingType dm))
      as [(n & E & _)|(x & _ & _ & _ & S)]; [congruence|apply S]. }
  assert (E : completeDrawing dm = stopDrawing (fst (_createShape dm))).
  { unfold completeDrawing. rewrite D, M. cbn [negb length_lt].
    unfold _createShape.
    cbn [drawingType drawingPath set__idCounter set__shapeNameCounter].
    rewrite N. reflexivity. }
  split; [exact E|]. rewrite E. unfold _createShape.
  cbn [drawingType drawingPath set__idCounter set__shapeNameCounter].
  rewrite N. cbn [fst]. repeat split; reflexivity.
Qed.

(** The sample: a drawing started as ["constructor"], without a point, is
    stopped by [completeDrawing]. *)
Lemma constructor_drawing_completes :
  isDrawing Sample.constructor_drawing = true /\
  drawingPath Sample.constructor_drawing = [] /\
  minPoints (drawingType Sample.constructor_drawing) =
    Inherited "constructor" /\
  isDrawing (completeDrawing Sample.constructor_drawing) = false.
Proof.
  assert (D : isDrawing Sample.constructor_drawing = true) by reflexivity.
  assert (M : minPoints (drawingType Sample.constructor_drawing) =
              Inherited "constructor") by reflexivity.
  split; [exact D|]. split; [reflexivity|]. split; [exact M|].
  exact (proj1 (proj2 (completeDrawing_inherited_name
                         Sample.constructor_drawing D M))).
Qed.

(** C8. The minimum is 3 points for a polygon and 2 for a polyline, a
    circle and a rectangle, and none of these names is one that
    [Object.prototype] defines.  While a drawing whose minimum is the
    number [n] (a drawing of one of the four types, or under any other
    name that is not inherited, where [n] is [2]) has fewer than [n]
    points, [completeDrawing()] changes nothing: no shape, no history
    entry, no event, and the session is still drawing with the same
    path. *)
Theorem completeDrawing_below_minimum :
  minPoints (Some "polygon") = Points 3 /\
  minPoints (Some "polyline") = Points 2 /\
  minPoints (Some "circle") = Points 2 /\
  minPoints (Some "rectangle") = Points 2 /\
  forall (dm : t) (n : nat),
    isDrawing dm = true ->
    minPoints (drawingType dm) = Points n ->
    (length (drawingPath dm) < n)%nat ->
    completeDrawing dm = dm /\
    shapes (completeDrawing dm) = shapes dm /\
    history (completeDrawing dm) = history dm /\
    events (completeDrawing dm) = events dm /\
    isDrawing (completeDrawing dm) = true /\
    drawingPath (completeDrawing dm) = drawingPath dm.
Proof.
  do 4 (split; [reflexivity|]).
  intros dm n D M L.
  assert (E : completeDrawing dm = dm).
  { unfold completeDrawing. rewrite D, M. cbn [negb length_lt].
    apply Nat.ltb_lt in L. rewrite L. reflexivity. }
  rewrite E. repeat split; try reflexivity. exact D.
Qed.

Lemma completeDrawing_below_minimum_witness :
  isDrawing Sample.two_clicks = true /\
  drawingType Sample.two_clicks = Some "polygon" /\
  length (drawingPath Sample.two_clicks) = 2%nat /\
  minPoints (drawingType Sample.two_clicks) = Points 3 /\
  completeDrawing Sample.two_clicks = Sample.two_clicks.
Proof.
  assert (D : isDrawing Sample.two_clicks = true) by reflexivity.
  assert (M : minPoints (drawingType Sample.two_clicks) = Points 3)
    by reflexivity.
  assert (L : length (drawingPath Sample.two_clicks) = 2%nat)
    by reflexivity.
  split; [exact D|]. split; [reflexivity|]. split; [exact L|].
  split; [exact M|].
  refine (proj1 (proj2 (proj2 (proj2 (proj2 completeDrawing_below_minimum)))
                   Sample.two_clicks 3%nat D M _)).
  rewrite L. lia.
Defined.

(** ** Selection *)

Lemma shapes__hideMarkers (k : string) (dm : t) :
  shapes (_hideMarkers k dm) = shapes dm /\
  events (_hideMarkers k dm) = events dm /\
  store (_hideMarkers k dm) = store dm /\
  options (_hideMarkers k dm) = options dm.
Proof.
  unfold _hideMarkers.
  destruct (JSMap.get k (_vertexMarkers dm));
    match goal with |- context [JSMap.get k (_midpointMarkers ?d)] =>
      destruct (JSMap.get k (_midpointMarkers d)) end;
    repeat split; reflexivity.
Qed.



Lemma selected__hideMarkers (k : string) (dm : t) :
  selectedShapeId (_hideMarkers k dm) = selectedShapeId dm.
Proof.
  unfold _hideMarkers.
  destruct (JSMap.get k (_vertexMarkers dm));
    match goal with |- context [JSMap.get k (_midpointMarkers ?d)] =>
      destruct (JSMap.get k (_midpointMarkers d)) end;
    reflexivity.
Qed.






End DrawingFacts.


(* ================================================================== *)
(** * More properties of the geometry functions *)
(* ================================================================== *)

Module GeometryMoreFacts.

Import Geometry GoogleMaps GeometryMore.
Local Open Scope R_scope.

Lemma Reqb_true (a b : R) : Reqb a b = true <-> a = b.
Proof.
  unfold Reqb. destruct (Req_dec_T a b) as [E|E]; split; intros H.
  - exact E.
  - reflexivity.
  - discriminate.
  - contradiction.
Qed.

Lemma Reqb_false (a b : R) : Reqb a b = false <-> a <> b.
Proof.
  unfold Reqb. destruct (Req_dec_T a b) as [E|E]; split; intros H.
  - discriminate.
  - contradiction.
  - exact E.
  - reflexivity.
Qed.



Lemma segment_projection_eq (point lineStart lineEnd : Pixel) :
  Snap._projectPointToSegment point lineStart lineEnd =
  projectPointToLine point lineStart lineEnd.
Proof.
  unfold Snap._projectPointToSegment, projectPointToLine, distancePixels,
    Math_sqrt.
  destruct (Reqb _ 0).
  - destruct lineStart as [ax ay]. cbn [px py]. f_equal. f_equal. ring.
  - f_equal. cbn [px py]. f_equal. ring.
Qed.

(** X1. The two implementations of the projection, [projectPointToLine] of
    utils/geometry.js and [_projectPointToSegment] of the snap engine,
    return the same point, distance and parameter for every input. *)
Theorem projection_implementations_agree (point lineStart lineEnd : Pixel) :
  Snap._projectPointToSegment point lineStart lineEnd =
  projectPointToLine point lineStart lineEnd.
Proof. apply segment_projection_eq. Qed.


(** ** Edges *)

Lemma nth_error_map_seq (A : Type) (g : nat -> A) (n i : nat) (a : A) :
  nth_error (List.map g (seq 0 n)) i = Some a -> (i < n)%nat /\ a = g i.
Proof.
  intros H.
  assert (L : (i < n)%nat).
  { assert (N : nth_error (List.map g (seq 0 n)) i <> None) by congruence.
    apply nth_error_Some in N. rewrite length_map, length_seq in N.
    exact N. }
  split; [exact L|].
  rewrite nth_error_map, nth_error_seq in H.
  apply Nat.ltb_lt in L. rewrite L in H. cbn in H. congruence.
Qed.

(** X6. [getEdgesFromCoordinates] gives one edge per point of a closed ring
    and one less for an open path; edge [i] has index [i] and starts at
    point [i]; each edge ends where the next one starts, and the last
    edge of a closed ring ends at the first point. *)
Theorem getEdgesFromCoordinates_chain
    (coordinates : list Point) (closed : bool) :
  let edges := getEdgesFromCoordinates coordinates closed in
  length edges = (if closed then length coordinates
                  else length coordinates - 1)%nat /\
  (forall i e, nth_error edges i = Some e ->
     ie_index e = i /\ nth_error coordinates i = Some (ie_start e)) /\
  (forall i e e', nth_error edges i = Some e ->
     nth_error edges (S i) = Some e' -> ie_end e = ie_start e') /\
  (forall e, closed = true ->
     nth_error edges (length coordinates - 1) = Some e ->
     nth_error coordinates 0 = Some (ie_end e)).
Proof.
  cbn zeta. unfold getEdgesFromCoordinates.
  set (len := if closed then length coordinates
              else (length coordinates - 1)%nat).
  assert (B : (len <= length coordinates)%nat)
    by (unfold len; destruct closed; lia).
  split; [rewrite length_map, length_seq; reflexivity|].
  split; [|split].
  - intros i e H. apply nth_error_map_seq in H. destruct H as [L ->].
    cbn [ie_index ie_start]. split; [reflexivity|].
    unfold coord. apply nth_error_nth'. lia.
  - intros i e e' H H'.
    apply nth_error_map_seq in H. destruct H as [L ->].
    apply nth_error_map_seq in H'. destruct H' as [L' ->].
    cbn [ie_end ie_start].
    rewrite Nat.mod_small by lia. f_equal. lia.
  - intros e C H. apply nth_error_map_seq in H. destruct H as [L ->].
    cbn [ie_end].
    replace (length coordinates - 1 + 1)%nat with (length coordinates)
      by lia.
    rewrite Nat.Div0.mod_same. unfold coord.
    apply nth_error_nth'. lia.
Qed.

(** ** Point in polygon *)

Lemma isPointInPolygon_no_crossing (point : Point) (polygon : list Point) :
  (forall i j, (i < length polygon)%nat -> (j < length polygon)%nat ->
     intersect (lng point) (lat point) (coord polygon i) (coord polygon j)
     = false) ->
  isPointInPolygon point polygon = false.
Proof.
  intros H. unfold isPointInPolygon.
  destruct polygon as [|p0 rest]; [reflexivity|].
  set (polygon := p0 :: rest) in *.
  assert (G : forall l s,
             (forall i, In i l -> (i < length polygon)%nat) ->
             fst s = false -> (snd s < length polygon)%nat ->
             fst (fold_left
                    (fun (s : bool * nat) i =>
                       let (inside, j) := s in
                       (if intersect (lng point) (lat point)
                             (coord polygon i) (coord polygon j)
                        then negb inside else inside, i)) l s) = false).
  { induction l as [|i l IH]; intros [inside j] Hl Hs Hj; [exact Hs|].
    cbn [fold_left]. cbn [fst snd] in Hs, Hj. apply IH.
    - intros k Hk. apply Hl. right. exact Hk.
    - cbn [fst]. rewrite H; [exact Hs| |exact Hj].
      apply Hl. left. reflexivity.
    - cbn [snd]. apply Hl. left. reflexivity. }
  apply G.
  - intros i Hi. apply in_seq in Hi. lia.
  - reflexivity.
  - cbn [snd]. unfold polygon. cbn [length]. lia.
Qed.

(** X7. [isPointInPolygon] is [false] when no vertex lies north of the point,
    and when every vertex lies north of the point: in both cases no edge
    crosses the latitude of the point.  In particular the empty polygon
    contains nothing. *)
Theorem isPointInPolygon_outside_latitudes
    (point : Point) (polygon : list Point) :
  (forall v, In v polygon -> lat v <= lat point) \/
  (forall v, In v polygon -> lat point < lat v) ->
  isPointInPolygon point polygon = false.
Proof.
  intros H. apply isPointInPolygon_no_crossing. intros i j Hi Hj.
  assert (Ii : In (coord polygon i) polygon) by (apply nth_In; exact Hi).
  assert (Ij : In (coord polygon j) polygon) by (apply nth_In; exact Hj).
  unfold intersect.
  destruct H as [H|H].
  - rewrite (proj2 (SnapFacts.Rltb_false _ _) (H _ Ii)),
      (proj2 (SnapFacts.Rltb_false _ _) (H _ Ij)).
    reflexivity.
  - rewrite (proj2 (SnapFacts.Rltb_true _ _) (H _ Ii)),
      (proj2 (SnapFacts.Rltb_true _ _) (H _ Ij)).
    reflexivity.
Qed.

(** X8. For a rectangle, [isPointInPolygon] on its four corners is the
    half-open test: south and west sides belong to the inside, north and
    east sides do not. *)
Theorem isPointInPolygon_rectangle (point : Point) (b : Bounds) :
  south b < north b -> west b < east b ->
  (isPointInPolygon point (rectangleRing b) = true <->
   south b <= lat point < north b /\ west b <= lng point < east b).
Proof.
  intros Hy Hx. unfold isPointInPolygon, rectangleRing.
  cbn [length seq fold_left Nat.sub coord nth fst].
  unfold intersect. cbn [lat lng].
  replace ((west b - west b) * (lat point - north b) / (south b - north b) +
           west b) with (west b) by (field; lra).
  replace ((east b - east b) * (lat point - south b) / (north b - south b) +
           east b) with (east b) by (field; lra).
  unfold Rltb.
  destruct (Rlt_dec (lat point) (north b)) as [N|N];
  destruct (Rlt_dec (lat point) (south b)) as [S|S];
  destruct (Rlt_dec (lng point) (west b)) as [W|W];
  destruct (Rlt_dec (lng point) (east b)) as [E|E];
  cbn [xorb andb negb fst];
  split; intros H; try discriminate H; try reflexivity; try lra.
Qed.

(** ** Samples *)

Lemma sample_far_north :
  forall v, In v [Sample.v1; Sample.v2; Sample.v3] ->
            lat v <= lat sample_north.
Proof.
  intros v [<-|[<-|[<-|[]]]];
    cbn [lat Sample.v1 Sample.v2 Sample.v3 sample_north]; lra.
Qed.

Lemma sample_bounds_ordered :
  south sample_bounds < north sample_bounds /\
  west sample_bounds < east sample_bounds.
Proof. cbn [south north west east sample_bounds]. split; lra. Qed.

Lemma sample_inside :
  south sample_bounds <= lat Sample.m1 < north sample_bounds /\
  west sample_bounds <= lng Sample.m1 < east sample_bounds.
Proof.
  cbn [south north west east sample_bounds lat lng Sample.m1]. lra.
Qed.

Lemma getEdgesFromCoordinates_chain_witness :
  nth_error
    (getEdgesFromCoordinates [Sample.v1; Sample.v2; Sample.v3] true) 0 =
    Some (mkIndexedEdge Sample.v1 Sample.v2 0) /\
  nth_error [Sample.v1; Sample.v2; Sample.v3] 0 =
    Some (ie_start (mkIndexedEdge Sample.v1 Sample.v2 0)).
Proof.
  assert (E : nth_error
                (getEdgesFromCoordinates [Sample.v1; Sample.v2; Sample.v3]
                                         true) 0 =
              Some (mkIndexedEdge Sample.v1 Sample.v2 0)) by reflexivity.
  split; [exact E|].
  exact (proj2 (proj1 (proj2
           (getEdgesFromCoordinates_chain
              [Sample.v1; Sample.v2; Sample.v3] true)) 0%nat _ E)).
Defined.

Lemma isPointInPolygon_outside_latitudes_witness :
  (forall v, In v [Sample.v1; Sample.v2; Sample.v3] ->
             lat v <= lat sample_north) /\
  isPointInPolygon sample_north [Sample.v1; Sample.v2; Sample.v3] = false.
Proof.
  split; [exact sample_far_north|].
  exact (@isPointInPolygon_outside_latitudes sample_north
           [Sample.v1; Sample.v2; Sample.v3] (or_introl sample_far_north)).
Defined.

Lemma isPointInPolygon_rectangle_witness :
  south sample_bounds < north sample_bounds /\
  west sample_bounds < east sample_bounds /\
  isPointInPolygon Sample.m1 (rectangleRing sample_bounds) = true.
Proof.
  destruct sample_bounds_ordered as [Hy Hx].
  split; [exact Hy|]. split; [exact Hx|].
  exact (proj2 (@isPointInPolygon_rectangle Sample.m1 sample_bounds Hy Hx)
           sample_inside).
Defined.

End GeometryMoreFacts.

(* ================================================================== *)
(** * More properties of the history manager *)
(* ================================================================== *)

Module HistoryMoreFacts.

Import History HistoryMore.

Section Facts.

Variable action : Type.
Variable world : Type.
Variable call_undo : action -> world -> world * outcome.
Variable call_redo : action -> world -> world * outcome.
Variable onChange : option (State -> world -> world * outcome).

Abbreviation hist := (t action).
Abbreviation undo := (@undo action world call_undo onChange).
Abbreviation redo := (@redo action world call_redo onChange).
Abbreviation run := (@run action world call_undo call_redo onChange).

Lemma at_index_some (l : list action) (i : Z) :
  (exists a, at_index l i = Some a) <-> (0 <= i < Z.of_nat (length l))%Z.
Proof.
  unfold at_index. destruct (i <? 0)%Z eqn:E.
  - apply Z.ltb_lt in E. split; [intros [a H]; discriminate H|lia].
  - apply Z.ltb_ge in E. split.
    + intros [a H].
      assert (N : nth_error l (Z.to_nat i) <> None) by congruence.
      apply nth_error_Some in N. lia.
    + intros H. destruct (nth_error l (Z.to_nat i)) as [a|] eqn:N.
      * exists a. reflexivity.
      * apply nth_error_None in N. lia.
Qed.

(** X10. After every sequence of [push], [undo] and [redo] on a new manager
    the index is between [-1] and [length - 1]; and [canUndo] holds
    exactly when there is an entry at the index, [canRedo] exactly when
    there is one after it. *)
Theorem index_stays_inside_history
    (o : option Z) (ops : list (op action)) (w : world) :
  let h := fst (run ops (new action o, w)) in
  (-1 <= currentIndex h <= len h - 1)%Z /\
  (canUndo h = true <->
   exists a, at_index (history h) (currentIndex h) = Some a) /\
  (canRedo h = true <->
   exists a, at_index (history h) (currentIndex h + 1) = Some a).
Proof.
  cbn zeta.
  destruct (@HistoryFacts.run_invariant action world call_undo call_redo
              onChange ops (new action o) w
              (HistoryFacts.new_invariant action o)) as [I _].
  set (h := fst (run ops (new action o, w))) in *.
  unfold index_ok, len in I. split; [exact I|].
  rewrite !at_index_some. unfold canUndo, canRedo, len.
  rewrite Z.leb_le, Z.ltb_lt. lia.
Qed.

(** X11. An [undo] that returned [true] is taken back by the next [redo] that
    returns [true], and a [redo] by the next [undo]: the manager is the
    one before the pair of calls.  A [redo] that fails leaves the manager
    as the [undo] left it. *)
Theorem undo_redo_round_trip (h h1 : hist) (w w1 w' : world) :
  index_ok h ->
  (undo h w = (h1, w1, true) ->
   canRedo h1 = true /\
   let '(h2, _, ok) := redo h1 w' in
   if ok then h2 = h else h2 = h1) /\
  (redo h w = (h1, w1, true) ->
   canUndo h1 = true /\
   let '(h2, _, ok) := undo h1 w' in
   ok = true -> h2 = h).
Proof.
  intros I. unfold index_ok, len in I. split.
  - unfold History.undo, canUndo.
    destruct (0 <=? currentIndex h)%Z eqn:E; cbn [negb];
      [|intros H; inversion H].
    apply Z.leb_le in E.
    destruct (at_index (history h) (currentIndex h)) as [a|] eqn:A;
      [|intros H; inversion H].
    destruct (call_undo a w) as [w2 [|]]; [|intros H; inversion H].
    destruct (_notifyChange onChange _ w2) as [w3 [|]];
      intros H; inversion H; subst h1.
    assert (C : canRedo (set_index (currentIndex h - 1) h) = true).
    { unfold canRedo, len. cbn. apply Z.ltb_lt. lia. }
    split; [exact C|].
    unfold History.redo. rewrite C. cbn [negb].
    assert (B : set_index (currentIndex (set_index (currentIndex h - 1) h) + 1)
                  (set_index (currentIndex h - 1) h) = h).
    { unfold set_index. cbn.
      replace (currentIndex h - 1 + 1)%Z with (currentIndex h) by lia.
      apply HistoryFacts.eta. }
    rewrite B, A.
    assert (B' : set_index (currentIndex h - 1) h =
                 set_index (currentIndex h - 1) h) by reflexivity.
    destruct (call_redo a w') as [w4 [|]]; [|reflexivity].
    destruct (_notifyChange onChange h w4) as [w5 [|]]; reflexivity.
  - unfold History.redo, canRedo.
    destruct (currentIndex h <? len h - 1)%Z eqn:E; cbn [negb];
      [|intros H; inversion H].
    apply Z.ltb_lt in E. unfold len in E.
    set (hi := set_index (currentIndex h + 1) h).
    destruct (at_index (history hi) (currentIndex hi)) as [a|] eqn:A;
      [|intros H; inversion H].
    destruct (call_redo a w) as [w2 [|]]; [|intros H; inversion H].
    destruct (_notifyChange onChange hi w2) as [w3 [|]];
      intros H; inversion H; subst h1.
    assert (C : canUndo hi = true).
    { unfold canUndo, hi. cbn. apply Z.leb_le. lia. }
    split; [exact C|].
    unfold History.undo. rewrite C. cbn [negb]. rewrite A.
    assert (B : set_index (currentIndex hi - 1) hi = h).
    { unfold hi, set_index. cbn.
      replace (currentIndex h + 1 - 1)%Z with (currentIndex h) by lia.
      apply HistoryFacts.eta. }
    rewrite B.
    destruct (call_undo a w') as [w4 [|]]; [|discriminate].
    destruct (_notifyChange onChange h w4) as [w5 [|]];
      [reflexivity|discriminate].
Qed.

(** X12. After [clear()] the history is empty with index [-1] and the bound
    kept, whatever the subscriber does; [undo()] and [redo()] then return
    [false] without calling any callback. *)
Theorem clear_forgets_everything (h : hist) (w w' : world) :
  let h' := fst (fst (clear onChange h w)) in
  history h' = [] /\ currentIndex h' = (-1)%Z /\
  maxSteps h' = maxSteps h /\
  undo h' w' = (h', w', false) /\ redo h' w' = (h', w', false).
Proof.
  cbn zeta. unfold clear.
  destruct (_notifyChange onChange _ w) as [w2 o]. cbn [fst].
  repeat split.
Qed.

Lemma pushes_history (entries : list action) (h : hist) (w : world) :
  bounded h -> currentIndex h = (len h - 1)%Z ->
  history (fst (run (pushes entries) (h, w))) =
    last_entries (maxSteps h) (history h ++ entries) /\
  maxSteps (fst (run (pushes entries) (h, w))) = maxSteps h.
Proof.
  revert h w. induction entries as [|a rest IH]; intros h w B E.
  - cbn [pushes List.map History.run fold_left fst]. split; [|reflexivity].
    unfold last_entries. rewrite app_nil_r.
    unfold bounded, len in B.
    replace (length (history h) - Z.to_nat (maxSteps h))%nat with 0%nat
      by lia.
    reflexivity.
  - cbn [pushes List.map History.run fold_left step].
    unfold History.push.
    destruct (_notifyChange onChange (pushed a h) w) as [w1 o1].
    fold (pushes rest). fold (run (pushes rest) (pushed a h, w1)).
    assert (T : truncated h = h).
    { unfold truncated. rewrite E.
      destruct (len h - 1 <? len h - 1)%Z eqn:F;
        [apply Z.ltb_lt in F; lia|reflexivity]. }
    unfold bounded, len in B. unfold len in E.
    assert (P : history (pushed a h) =
                last_entries (maxSteps h) (history h ++ [a]) /\
                maxSteps (pushed a h) = maxSteps h /\
                currentIndex (pushed a h) = (len (pushed a h) - 1)%Z /\
                bounded (pushed a h)).
    { unfold pushed. rewrite T. unfold evicted, bounded, len, last_entries.
      cbn [appended set_index set_history maxSteps history currentIndex].
      rewrite length_app. cbn [length].
      destruct (maxSteps h <? Z.of_nat (length (history h) + 1))%Z eqn:F.
      - apply Z.ltb_lt in F.
        cbn [set_index set_history maxSteps history currentIndex].
        replace (length (history h) + 1 - Z.to_nat (maxSteps h))%nat
          with 1%nat by lia.
        assert (L : Z.of_nat (length (tl (history h ++ [a]))) =
                    Z.of_nat (length (history h))).
        { destruct (history h); cbn [app tl length];
            [reflexivity|rewrite length_app; cbn [length]; lia]. }
        rewrite L.
        change (maxSteps (appended a h)) with (maxSteps h).
        split; [destruct (history h); reflexivity|repeat split; lia].
      - apply Z.ltb_ge in F.
        cbn [set_index set_history maxSteps history currentIndex].
        replace (length (history h) + 1 - Z.to_nat (maxSteps h))%nat
          with 0%nat by lia.
        change (maxSteps (appended a h)) with (maxSteps h).
        unfold appended.
        cbn [set_index set_history maxSteps history currentIndex].
        rewrite ?length_app. cbn [length skipn]. repeat split; lia. }
    destruct P as (Ph & Pm & Pi & Pb).
    destruct (IH (pushed a h) w1 Pb Pi) as [Ih Im].
    rewrite Ih, Im, Pm, Ph. split; [|reflexivity].
    unfold last_entries. rewrite !length_app. cbn [length].
    rewrite length_skipn, length_app. cbn [length].
    destruct (Z_lt_le_dec (maxSteps h) (Z.of_nat (length (history h) + 1)))
      as [F|F].
    + replace (length (history h) + 1 - Z.to_nat (maxSteps h))%nat
        with 1%nat by lia.
      replace (length (history h) + 1 - 1 + length rest -
               Z.to_nat (maxSteps h))%nat with (length rest) by lia.
      replace (length (history h) + S (length rest) -
               Z.to_nat (maxSteps h))%nat with (S (length rest)) by lia.
      destruct (history h) as [|x l]; cbn [app skipn];
        rewrite <- ?app_assoc; reflexivity.
    + replace (length (history h) + 1 - Z.to_nat (maxSteps h))%nat
        with 0%nat by lia.
      cbn [skipn]. rewrite <- app_assoc. cbn [app]. f_equal. lia.
Qed.

(** X13. Pushing entries on a manager that is within its bound and stands at
    its last entry leaves the most recent [maxSteps] entries of the old
    history followed by the pushed ones, oldest first. *)
Theorem pushes_keep_most_recent
    (entries : list action) (h : hist) (w : world) :
  bounded h -> currentIndex h = (len h - 1)%Z ->
  history (fst (run (pushes entries) (h, w))) =
    last_entries (maxSteps h) (history h ++ entries).
Proof. intros B E. apply pushes_history; assumption. Qed.

End Facts.

Lemma index_stays_inside_history_witness :
  let h := fst (History.run HistorySample.call_undo HistorySample.call_redo
                  HistorySample.onChange
                  [Push 1%nat; Undo nat; Undo nat; Redo nat]
                  (new nat None, [])) in
  (-1 <= currentIndex h <= len h - 1)%Z.
Proof.
  exact (proj1 (@index_stays_inside_history nat _ HistorySample.call_undo
                  HistorySample.call_redo HistorySample.onChange None
                  [Push 1%nat; Undo nat; Undo nat; Redo nat] [])).
Defined.

Lemma pushes_keep_most_recent_witness :
  bounded (new nat (Some 2%Z)) /\
  history (fst (History.run HistorySample.call_undo HistorySample.call_redo
                  HistorySample.onChange (pushes [1; 2; 3]%nat)
                  (new nat (Some 2%Z), []))) = [2; 3]%nat.
Proof.
  assert (B : bounded (new nat (Some 2%Z))) by (unfold bounded, len; cbn; lia).
  split; [exact B|].
  exact (@pushes_keep_most_recent nat _ HistorySample.call_undo
           HistorySample.call_redo HistorySample.onChange
           [1; 2; 3]%nat (new nat (Some 2%Z)) [] B eq_refl).
Defined.

Lemma undo_redo_round_trip_witness :
  index_ok (mk 50%Z [1%nat] 0%Z) /\
  canRedo (mk 50%Z [1%nat] (-1)%Z) = true /\
  let '(h2, _, ok) :=
    History.redo HistorySample.call_redo HistorySample.onChange
      (mk 50%Z [1%nat] (-1)%Z) [] in
  if ok then h2 = mk 50%Z [1%nat] 0%Z else h2 = mk 50%Z [1%nat] (-1)%Z.
Proof.
  assert (I : index_ok (mk 50%Z [1%nat] 0%Z))
    by (unfold index_ok, len; cbn; lia).
  split; [exact I|].
  exact (proj1 (@undo_redo_round_trip nat _ HistorySample.call_undo
                  HistorySample.call_redo HistorySample.onChange
                  (mk 50%Z [1%nat] 0%Z) (mk 50%Z [1%nat] (-1)%Z) []
                  [("undo"%string, 1%nat); ("change"%string, 1%nat)] [] I)
               eq_refl).
Defined.

End HistoryMoreFacts.

(* ================================================================== *)
(** * Properties of the [Map] model *)
(* ================================================================== *)

Module JSMapFacts.

Lemma get_set_eq (V : Type) (k : string) (v : V) (m : JSMap.t V) :
  JSMap.get k (JSMap.set k v m) = Some v.
Proof.
  induction m as [|[k' v'] m IH]; cbn [JSMap.set JSMap.get].
  - rewrite String.eqb_refl. reflexivity.
  - destruct (String.eqb k k') eqn:E; cbn [JSMap.get]; rewrite E;
      [reflexivity|exact IH].
Qed.

Lemma get_set_neq (V : Type) (k k' : string) (v : V) (m : JSMap.t V) :
  k' <> k -> JSMap.get k' (JSMap.set k v m) = JSMap.get k' m.
Proof.
  intros N. induction m as [|[k0 v0] m IH]; cbn [JSMap.set JSMap.get].
  - apply String.eqb_neq in N. rewrite N. reflexivity.
  - destruct (String.eqb k k0) eqn:E; cbn [JSMap.get].
    + apply String.eqb_eq in E. subst k0.
      apply String.eqb_neq in N. rewrite N. reflexivity.
    + rewrite IH. reflexivity.
Qed.

Lemma get_delete_neq (V : Type) (k k' : string) (m : JSMap.t V) :
  k' <> k -> JSMap.get k' (JSMap.delete k m) = JSMap.get k' m.
Proof.
  intros N. induction m as [|[k0 v0] m IH]; cbn [JSMap.delete JSMap.get].
  - reflexivity.
  - destruct (String.eqb k k0) eqn:E; cbn [JSMap.get].
    + apply String.eqb_eq in E. subst k0.
      apply String.eqb_neq in N. rewrite N. reflexivity.
    + rewrite IH. reflexivity.
Qed.

Lemma get_none_keys (V : Type) (k : string) (m : JSMap.t V) :
  ~ In k (JSMap.keys m) -> JSMap.get k m = None.
Proof.
  induction m as [|[k0 v0] m IH]; cbn [JSMap.keys List.map fst In JSMap.get];
    intros N; [reflexivity|].
  destruct (String.eqb k k0) eqn:E.
  - apply String.eqb_eq in E. subst k0. exfalso. apply N. left. reflexivity.
  - apply IH. intros I. apply N. right. exact I.
Qed.

Lemma get_delete_eq (V : Type) (k : string) (m : JSMap.t V) :
  NoDup (JSMap.keys m) -> JSMap.get k (JSMap.delete k m) = None.
Proof.
  induction m as [|[k0 v0] m IH];
    cbn [JSMap.keys List.map fst JSMap.delete JSMap.get]; intros N;
    [reflexivity|].
  inversion N as [|? ? N1 N2]; subst.
  destruct (String.eqb k k0) eqn:E.
  - apply String.eqb_eq in E. subst k0. apply get_none_keys. exact N1.
  - cbn [JSMap.get]. rewrite E. apply IH. exact N2.
Qed.

Lemma keys_set (V : Type) (k : string) (v : V) (m : JSMap.t V) :
  JSMap.keys (JSMap.set k v m) =
  if JSMap.has k m then JSMap.keys m else JSMap.keys m ++ [k].
Proof.
  unfold JSMap.has.
  induction m as [|[k0 v0] m IH]; cbn [JSMap.set JSMap.keys List.map fst
                                         JSMap.get app]; [reflexivity|].
  destruct (String.eqb k k0) eqn:E; cbn [List.map fst]; [reflexivity|].
  fold (JSMap.keys (JSMap.set k v m)). rewrite IH. fold (JSMap.keys m).
  destruct (JSMap.get k m); reflexivity.
Qed.

Lemma set_set (V : Type) (k : string) (v v' : V) (m : JSMap.t V) :
  JSMap.set k v (JSMap.set k v' m) = JSMap.set k v m.
Proof.
  induction m as [|[k0 v0] m IH]; cbn [JSMap.set].
  - rewrite String.eqb_refl. reflexivity.
  - destruct (String.eqb k k0) eqn:E; cbn [JSMap.set]; rewrite E;
      [reflexivity|rewrite IH; reflexivity].
Qed.

End JSMapFacts.

(* ================================================================== *)
(** * Properties of the event bus *)
(* ================================================================== *)

Module EventBusFacts.

Import EventBus JSMapFacts.

Lemma same_refl (cb : Callback) : same cb cb = true.
Proof. destruct cb; cbn; rewrite ?Nat.eqb_refl; reflexivity. Qed.

Lemma same_eq (a b : Callback) : same a b = true <-> a = b.
Proof.
  split; [|intros ->; apply same_refl].
  destruct a as [f|n f], b as [g|m g]; cbn; try discriminate.
  - intros H. apply Nat.eqb_eq in H. congruence.
  - intros H. apply andb_true_iff in H. destruct H as [H1 H2].
    apply Nat.eqb_eq in H1, H2. congruence.
Qed.

Lemma same_sym (a b : Callback) : same a b = same b a.
Proof.
  destruct (same a b) eqn:E.
  - apply same_eq in E. subst b. symmetry. apply same_refl.
  - destruct (same b a) eqn:F; [|reflexivity].
    apply same_eq in F. subst b. rewrite same_refl in E. discriminate E.
Qed.

Lemma existsb_same (cb : Callback) (s : list Callback) :
  existsb (same cb) s = true <-> In cb s.
Proof.
  rewrite existsb_exists. split.
  - intros (x & I & E). apply same_eq in E. subst x. exact I.
  - intros I. exists cb. split; [exact I|apply same_refl].
Qed.

Lemma in_add (cb : Callback) (s : list Callback) : In cb (add cb s).
Proof.
  unfold add. destruct (existsb (same cb) s) eqn:E.
  - apply existsb_same. exact E.
  - apply in_or_app. right. left. reflexivity.
Qed.

Lemma in_remove (cb c : Callback) (s : list Callback) :
  In c (remove cb s) <-> In c s /\ c <> cb.
Proof.
  unfold remove. rewrite filter_In. split; intros [I N]; split; try exact I.
  - intros ->. rewrite same_refl in N. discriminate N.
  - destruct (same cb c) eqn:E; [|reflexivity].
    apply same_eq in E. congruence.
Qed.

Lemma remove_absent (cb : Callback) (s : list Callback) :
  ~ In cb s -> remove cb s = s.
Proof.
  intros N. unfold remove. induction s as [|c s IH]; [reflexivity|].
  cbn [filter]. destruct (same cb c) eqn:E.
  - apply same_eq in E. subst c. exfalso. apply N. left. reflexivity.
  - cbn [negb]. rewrite IH; [reflexivity|].
    intros I. apply N. right. exact I.
Qed.

Lemma remove_add (cb : Callback) (s : list Callback) :
  remove cb (add cb s) = remove cb s.
Proof.
  unfold add. destruct (existsb (same cb) s); [reflexivity|].
  unfold remove. rewrite filter_app. cbn [filter].
  rewrite same_refl. cbn [negb]. apply app_nil_r.
Qed.

Lemma add_add (cb : Callback) (s : list Callback) :
  add cb (add cb s) = add cb s.
Proof.
  unfold add at 1. rewrite (proj2 (existsb_same cb (add cb s)) (in_add cb s)).
  reflexivity.
Qed.

Lemma listenersOf_on (event : string) (cb : Callback) (bus : t) :
  listenersOf event (on event cb bus) = add cb (listenersOf event bus) /\
  (forall e, e <> event ->
     listenersOf e (on event cb bus) = listenersOf e bus) /\
  closures (on event cb bus) = closures bus.
Proof.
  unfold on, listenersOf, JSMap.has.
  destruct (JSMap.get event (listeners bus)) as [s|] eqn:G; cbn [negb].
  - rewrite G. cbn [listeners closures]. rewrite get_set_eq.
    split; [reflexivity|]. split; [|reflexivity].
    intros e N. rewrite get_set_neq by exact N. reflexivity.
  - rewrite get_set_eq. cbn [listeners closures]. rewrite get_set_eq.
    split; [reflexivity|]. split; [|reflexivity].
    intros e N. rewrite !get_set_neq by exact N. reflexivity.
Qed.

Lemma listenersOf_off (event : string) (cb : Callback) (bus : t) :
  listenersOf event (off event cb bus) = remove cb (listenersOf event bus) /\
  (forall e, e <> event ->
     listenersOf e (off event cb bus) = listenersOf e bus) /\
  closures (off event cb bus) = closures bus.
Proof.
  unfold off, listenersOf.
  destruct (JSMap.get event (listeners bus)) as [s|] eqn:G.
  - cbn [listeners closures]. rewrite get_set_eq.
    split; [reflexivity|]. split; [|reflexivity].
    intros e N. rewrite get_set_neq by exact N. reflexivity.
  - rewrite G. repeat split.
Qed.

Lemma filter_remove_wrapper (n f : nat) (s l : list Callback) :
  filter (fun c => is_plain c || negb (existsb (same c) s))
         (remove (Wrapper n f) l) =
  filter (fun c => is_plain c ||
                   negb (same c (Wrapper n f) || existsb (same c) s)) l.
Proof.
  unfold remove. induction l as [|c l IH]; [reflexivity|].
  cbn [filter]. rewrite (same_sym (Wrapper n f) c).
  destruct (same c (Wrapper n f)) eqn:E; cbn [negb orb].
  - destruct c as [g|m g]; [discriminate E|].
    cbn [is_plain orb]. exact IH.
  - cbn [filter]. rewrite IH. reflexivity.
Qed.

Section Emit.

Variable data : Type.
Variable world : Type.
Variable call : nat -> data -> world -> world * outcome.

Abbreviation loop event d :=
  (fold_left
     (fun (acc : t * world * list (Callback * outcome)) cb =>
        let '(b, w0, log) := acc in
        let '(b', w', o) := invoke call event cb d b w0 in
        (b', w', log ++ [(cb, o)]))).

(** What the listeners of [s] that are left after the closures of [once]
    among [visited] have unsubscribed themselves. *)
Abbreviation survivors visited :=
  (filter (fun c => is_plain c || negb (existsb (same c) visited))).

Lemma loop_spec (event : string) (d : data) (s : list Callback)
    (bus : t) (w : world) (log : list (Callback * outcome)) :
  let '(bus', w', log') := loop event d s (bus, w, log) in
  List.map fst log' = List.map fst log ++ s /\
  w' = fold_left (fun w0 cb => fst (call (target cb) d w0)) s w /\
  listenersOf event bus' = survivors s (listenersOf event bus) /\
  (forall e, e <> event -> listenersOf e bus' = listenersOf e bus) /\
  closures bus' = closures bus.
Proof.
  revert bus w log. induction s as [|cb s IH]; intros bus w log.
  - cbn [fold_left]. rewrite app_nil_r. repeat split.
    cbn [existsb negb]. symmetry.
    rewrite forallb_filter_id; [reflexivity|].
    apply forallb_forall. intros c _. apply orb_true_r.
  - cbn [fold_left].
    destruct (invoke call event cb d bus w) as [[b1 w1] o1] eqn:I.
    specialize (IH b1 w1 (log ++ [(cb, o1)])).
    destruct (loop event d s (b1, w1, log ++ [(cb, o1)]))
      as [[bus' w'] log'].
    destruct IH as (Il & Iw & Is & Ie & Ic).
    assert (B : w1 = fst (call (target cb) d w) /\
                listenersOf event b1 =
                  (if is_plain cb then listenersOf event bus
                   else remove cb (listenersOf event bus)) /\
                (forall e, e <> event ->
                   listenersOf e b1 = listenersOf e bus) /\
                closures b1 = closures bus).
    { unfold invoke in I. destruct cb as [f|n f]; cbn [target is_plain].
      - destruct (call f d w) as [w2 o2]. inversion I; subst.
        repeat split.
      - destruct (call f d w) as [w2 o2]. inversion I; subst.
        destruct (listenersOf_off event (Wrapper n f) bus) as (O1 & O2 & O3).
        repeat split; assumption. }
    destruct B as (Bw & Bs & Be & Bc).
    split; [rewrite Il, map_app, <- app_assoc; reflexivity|].
    split; [rewrite Iw, Bw; reflexivity|].
    split; [|split; [intros e N; rewrite Ie, Be by exact N; reflexivity|
                     congruence]].
    rewrite Is, Bs. cbn [existsb].
    destruct cb as [f|n f]; cbn [is_plain].
    + apply filter_ext. intros c. destruct c as [g|m g]; reflexivity.
    + apply filter_remove_wrapper.
Qed.

Lemma survivors_self (s : list Callback) : survivors s s = filter is_plain s.
Proof.
  apply filter_ext_in. intros c I.
  rewrite (proj2 (existsb_same c s) I). cbn [negb]. apply orb_false_r.
Qed.

Lemma emit_log (event : string) (d : data) (bus : t) (w : world) :
  let '(_, w', log) := emit call event d bus w in
  List.map fst log = listenersOf event bus /\
  w' = fold_left (fun w0 cb => fst (call (target cb) d w0))
                 (listenersOf event bus) w.
Proof.
  unfold emit, listenersOf.
  destruct (JSMap.get event (listeners bus)) as [s|] eqn:G.
  - pose proof (loop_spec event d s bus w []) as L.
    destruct (loop event d s (bus, w, [])) as [[bus' w'] log'].
    destruct L as (L1 & L2 & _). split; assumption.
  - split; reflexivity.
Qed.

(** X14. [emit] calls every listener of the event once, in the order of
    subscription, whatever the earlier ones throw, and passes the state
    each one leaves to the next; the listeners of other events are not
    called, and an event without listeners calls nothing. *)
Theorem emit_calls_every_listener
    (event : string) (d : data) (bus : t) (w : world) :
  let '(_, w', log) := emit call event d bus w in
  List.map fst log = listenersOf event bus /\
  w' = fold_left (fun w0 cb => fst (call (target cb) d w0))
                 (listenersOf event bus) w.
Proof. apply emit_log. Qed.

(** X15. After [emit] the listeners of the event are the ones subscribed with
    [on]: every closure of [once] has unsubscribed itself, so that the
    next [emit] of the event calls the functions subscribed with [on]
    only.  The listeners of the other events are untouched. *)
Theorem emit_drops_once_listeners
    (event : string) (d d' : data) (bus : t) (w w1 : world) :
  let '(bus', _, _) := emit call event d bus w in
  listenersOf event bus' = filter is_plain (listenersOf event bus) /\
  (forall e, e <> event -> listenersOf e bus' = listenersOf e bus) /\
  let '(_, _, log) := emit call event d' bus' w1 in
  List.map fst log = filter is_plain (listenersOf event bus).
Proof.
  pose proof (emit_log event d') as A.
  unfold emit at 1.
  destruct (JSMap.get event (listeners bus)) as [s|] eqn:G.
  - pose proof (loop_spec event d s bus w []) as L.
    destruct (loop event d s (bus, w, [])) as [[bus' w'] log'].
    destruct L as (_ & _ & L3 & L4 & _).
    assert (S : listenersOf event bus = s)
      by (unfold listenersOf; rewrite G; reflexivity).
    rewrite S in *. rewrite survivors_self in L3.
    split; [exact L3|]. split; [exact L4|].
    specialize (A bus' w1).
    destruct (emit call event d' bus' w1) as [[b2 w2] log2].
    destruct A as [A _]. rewrite A. exact L3.
  - assert (S : listenersOf event bus = [])
      by (unfold listenersOf; rewrite G; reflexivity).
    split; [rewrite S; reflexivity|]. split; [reflexivity|].
    specialize (A bus w1).
    destruct (emit call event d' bus w1) as [[b2 w2] log2].
    destruct A as [A _]. rewrite A, S. reflexivity.
Qed.

End Emit.

(** X16. The function [on] returns unsubscribes its listener, also from an
    earlier subscription of the same function; subscribing twice is
    subscribing once.  A subscription made with [once] is not reached by
    [off] with the client's function: the [Set] holds the closure. *)
Theorem off_unsubscribes (event : string) (cb : Callback) (f : nat)
    (bus : t) :
  ~ In cb (listenersOf event (off event cb bus)) /\
  listenersOf event (off event cb (on event cb bus)) =
    remove cb (listenersOf event bus) /\
  listenersOf event (on event cb (on event cb bus)) =
    listenersOf event (on event cb bus) /\
  In (Wrapper (closures bus) f)
     (listenersOf event (off event (Plain f) (once event f bus))).
Proof.
  destruct (listenersOf_off event cb bus) as (O1 & _).
  destruct (listenersOf_off event cb (on event cb bus)) as (O2 & _).
  destruct (listenersOf_on event cb bus) as (N1 & _).
  destruct (listenersOf_on event cb (on event cb bus)) as (N2 & _).
  split; [|split; [|split]].
  - rewrite O1. intros I. apply in_remove in I. destruct I as [_ I].
    apply I. reflexivity.
  - rewrite O2, N1. apply remove_add.
  - rewrite N2, N1. apply add_add.
  - destruct (listenersOf_off event (Plain f) (once event f bus)) as (O3 & _).
    rewrite O3. apply in_remove. split; [|discriminate].
    unfold once.
    destruct (listenersOf_on event (Wrapper (closures bus) f)
                (mk (listeners bus) (S (closures bus)))) as (N3 & _).
    rewrite N3. apply in_add.
Qed.

(** X17. [clear] with the empty string as event name removes the listeners of
    every event, as [clear()] does; with another name it removes the
    listeners of that event only. *)
Theorem clear_event (event e : string) (bus : t) :
  NoDup (JSMap.keys (listeners bus)) ->
  clear (Some ""%string) bus = clear None bus /\
  listenersOf e (clear None bus) = [] /\
  (event <> ""%string ->
   listenersOf event (clear (Some event) bus) = [] /\
   (e <> event ->
    listenersOf e (clear (Some event) bus) = listenersOf e bus)).
Proof.
  intros N. split; [reflexivity|]. split; [reflexivity|].
  intros NE. unfold clear. apply String.eqb_neq in NE. rewrite NE.
  unfold listenersOf. cbn [listeners]. split.
  - rewrite get_delete_eq by exact N. reflexivity.
  - intros D. rewrite get_delete_neq by exact D. reflexivity.
Qed.

Lemma emit_drops_once_listeners_witness :
  "b"%string <> "a"%string /\
  let '(bus', _, _) := emit sample_call "a" tt sample_bus [] in
  listenersOf "a" bus' = [Plain 1] /\
  listenersOf "b" bus' = listenersOf "b" sample_bus.
Proof.
  assert (N : "b"%string <> "a"%string) by discriminate.
  split; [exact N|].
  pose proof (@emit_drops_once_listeners unit (list nat) sample_call
                "a" tt tt sample_bus [] []) as T.
  destruct (emit sample_call "a" tt sample_bus []) as [[bus' w'] log].
  destruct T as (A & B & _). split; [exact A|exact (B _ N)].
Defined.

Lemma clear_event_witness :
  NoDup (JSMap.keys (listeners (on "a" (Plain 1) (on "b" (Plain 2) new)))) /\
  listenersOf "a"
    (clear (Some "a"%string) (on "a" (Plain 1) (on "b" (Plain 2) new))) = [] /\
  listenersOf "b"
    (clear (Some "a"%string) (on "a" (Plain 1) (on "b" (Plain 2) new)))
  = [Plain 2].
Proof.
  assert (N : NoDup (JSMap.keys
                       (listeners (on "a" (Plain 1) (on "b" (Plain 2) new))))).
  { cbn. constructor; [|constructor; [|constructor]].
    - intros [H|[]]; discriminate H.
    - intros []. }
  split; [exact N|].
  destruct (@clear_event "a" "b" (on "a" (Plain 1) (on "b" (Plain 2) new)) N)
    as (_ & _ & C).
  assert (A : "a"%string <> ""%string) by discriminate.
  assert (B : "b"%string <> "a"%string) by discriminate.
  split; [exact (proj1 (C A))|exact (proj2 (C A) B)].
Defined.

End EventBusFacts.

(* ================================================================== *)
(** * More properties of the snap engine *)
(* ================================================================== *)

Module SnapMoreFacts.

Import Geometry GoogleMaps Snap SnapMore GeometryMore.
Local Open Scope R_scope.

(** ** The candidate the loop keeps *)

Section Loop.

Variable projection : Projection.
Variable scale : R.
Variable pointPixel : Pixel.

Lemma scanEdge_bestSnap (s : Scan) (e : Edge) :
  bestSnap (scanEdge projection scale pointPixel s e) = bestSnap s \/
  bestSnap (scanEdge projection scale pointPixel s e) =
    Some (candidate projection scale pointPixel e).
Proof.
  unfold scanEdge.
  destruct (Rltb _ _); [right|left]; reflexivity.
Qed.

Lemma loop_bestSnap (edges : list Edge) (s : Scan) (r : SnapResult) :
  bestSnap (fold_left (scanEdge projection scale pointPixel) edges s)
  = Some r ->
  bestSnap s = Some r \/
  exists e, In e edges /\ r = candidate projection scale pointPixel e.
Proof.
  revert s. induction edges as [|e edges IH]; intros s H.
  - left. exact H.
  - cbn [fold_left] in H. destruct (IH _ H) as [B|(e' & I & E)].
    + destruct (scanEdge_bestSnap s e) as [S|S]; rewrite S in B.
      * left. exact B.
      * right. exists e. split; [left; reflexivity|congruence].
    + right. exists e'. split; [right; exact I|exact E].
Qed.

Lemma scanEdge_calls (s : Scan) (e : Edge) :
  forallb (fun c => negb (is_onSnap c)) (calls s) = true ->
  forallb (fun c => negb (is_onSnap c))
          (calls (scanEdge projection scale pointPixel s e)) = true.
Proof.
  intros H. unfold scanEdge.
  destruct (Rltb _ _); cbn [calls]; rewrite !forallb_app, H; reflexivity.
Qed.

Lemma loop_calls (edges : list Edge) (s : Scan) :
  forallb (fun c => negb (is_onSnap c)) (calls s) = true ->
  forallb (fun c => negb (is_onSnap c))
          (calls (fold_left (scanEdge projection scale pointPixel) edges s))
  = true.
Proof.
  revert s. induction edges as [|e edges IH]; intros s H; [exact H|].
  cbn [fold_left]. apply IH, scanEdge_calls, H.
Qed.

End Loop.

(** What a query that returns a result went through. *)
Lemma findSnapPoint_some (st : Store) (se se' : t) (point : Point)
    (x : option string) (r : SnapResult) (cs : list Call) :
  findSnapPoint st se point x = (Ok (Some r), se', cs) ->
  exists gmap projection edges cs0,
    map se = Some gmap /\ enabled se = true /\
    getProjection gmap = Some projection /\
    _getAllEdges st se x = Ok edges /\
    In (sr_edge r) edges /\
    r = candidate projection (scaleOf (getZoom gmap))
          (toPixel projection (scaleOf (getZoom gmap)) point) (sr_edge r) /\
    se' = (if showIndicator se then _showIndicator (sr_point r) se else se) /\
    cs = (if _onSnapCallback se then cs0 ++ [CallOnSnap r] else cs0) /\
    forallb (fun c => negb (is_onSnap c)) cs0 = true.
Proof.
  unfold findSnapPoint. intros H.
  destruct (map se) as [gmap|]; [|inversion H].
  destruct (enabled se); [|inversion H]. cbn [negb orb] in H.
  destruct (JSMap.size (shapes se) =? 0)%nat; [inversion H|].
  destruct (_getAllEdges st se x) as [edges|]; [|inversion H].
  destruct (length edges =? 0)%nat; [inversion H|].
  destruct (getProjection gmap) as [projection|] eqn:Hp; [|inversion H].
  match type of H with context [fold_left ?f edges ?s0] =>
    pose proof (@loop_bestSnap projection (scaleOf (getZoom gmap))
                  (toPixel projection (scaleOf (getZoom gmap)) point)
                  edges s0) as B;
    pose proof (@loop_calls projection (scaleOf (getZoom gmap))
                  (toPixel projection (scaleOf (getZoom gmap)) point)
                  edges s0 eq_refl) as C;
    destruct (fold_left f edges s0) as [best md cs1]
  end.
  cbn [bestSnap calls] in *.
  destruct best as [b|]; [|inversion H].
  assert (E : b = r) by (inversion H; reflexivity). subst b.
  destruct (B r eq_refl) as [B0|(e & I & E)]; [discriminate B0|].
  assert (Ee : sr_edge r = e) by (rewrite E; reflexivity).
  exists gmap, projection, edges, cs1.
  do 2 (split; [reflexivity|]). split; [exact Hp|]. split; [reflexivity|].
  split; [rewrite Ee; exact I|].
  split; [rewrite Ee; exact E|].
  split; [inversion H; reflexivity|].
  split; [inversion H; reflexivity|exact C].
Qed.



(** X19. A query that returns a result shows the indicator at the returned
    point when indicators are on, calls the [onSnap] callback once, with
    the result and after every call on the map, and leaves the registry,
    the threshold and the switch of the engine as they are. *)
Theorem findSnapPoint_indicator_and_callback
    (st : Store) (se se' : t) (point : Point) (x : option string)
    (r : SnapResult) (cs : list Call) :
  findSnapPoint st se point x = (Ok (Some r), se', cs) ->
  (showIndicator se = true ->
   exists m, snapMarker se' = Some m /\ position m = sr_point r /\
             visible m = true) /\
  (showIndicator se = false -> se' = se) /\
  shapes se' = shapes se /\ threshold se' = threshold se /\
  enabled se' = enabled se /\
  List.filter is_onSnap cs =
    (if _onSnapCallback se then [CallOnSnap r] else []) /\
  (_onSnapCallback se = true -> last cs CallGetZoom = CallOnSnap r).
Proof.
  intros F.
  destruct (findSnapPoint_some _ _ _ _ F)
    as (gmap & projection & edges & cs0 & Hm & _ & _ & _ & _ & _ & Hse & Hcs
        & Hc).
  assert (N : List.filter is_onSnap cs0 = []).
  { clear - Hc. induction cs0 as [|c cs0 IH]; [reflexivity|].
    cbn [forallb] in Hc. apply andb_true_iff in Hc. destruct Hc as [H1 H2].
    cbn [List.filter]. destruct (is_onSnap c); [discriminate H1|].
    apply IH, H2. }
  split; [|split; [|split; [|split; [|split; [|split]]]]].
  - intros Hi. rewrite Hi in Hse. subst se'.
    unfold _showIndicator. rewrite Hm.
    eexists. split; [reflexivity|]. split; reflexivity.
  - intros Hi. rewrite Hi in Hse. exact Hse.
  - subst se'. destruct (showIndicator se); [|reflexivity].
    unfold _showIndicator. destruct (map se); reflexivity.
  - subst se'. destruct (showIndicator se); [|reflexivity].
    unfold _showIndicator. destruct (map se); reflexivity.
  - subst se'. destruct (showIndicator se); [|reflexivity].
    unfold _showIndicator. destruct (map se); reflexivity.
  - subst cs. destruct (_onSnapCallback se); [|exact N].
    rewrite filter_app, N. reflexivity.
  - intros Hcb. rewrite Hcb in Hcs. subst cs. apply last_last.
Qed.

Lemma snapOf_some (st : Store) (se : t) (point : Point)
    (x : option string) (r : SnapResult) :
  snapOf st se point x = Ok (Some r) ->
  exists gmap projection edges,
    map se = Some gmap /\ enabled se = true /\
    getProjection gmap = Some projection /\
    _getAllEdges st se x = Ok edges /\
    r = candidate projection (scaleOf (getZoom gmap))
          (toPixel projection (scaleOf (getZoom gmap)) point) (sr_edge r).
Proof.
  unfold snapOf. intros H.
  destruct (findSnapPoint st se point x) as [[res se'] cs] eqn:F.
  cbn [fst] in H. subst res.
  destruct (findSnapPoint_some _ _ _ _ F)
    as (gmap & projection & edges & cs0 & Hm & He & Hp & Hg & _ & E & _).
  exists gmap, projection, edges. repeat split; assumption.
Qed.

(** X20. Raising the threshold never loses a snap: a query that returns a
    result returns the same result for every larger threshold. *)
Theorem raising_threshold_keeps_snap
    (st : Store) (se : t) (point : Point) (x : option string)
    (r : SnapResult) (larger : R) :
  threshold se <= larger ->
  snapOf st se point x = Ok (Some r) ->
  snapOf st (setThreshold larger se) point x = Ok (Some r).
Proof.
  intros Hle Hs.
  destruct (snapOf_some _ _ _ _ Hs)
    as (gmap & projection & edges & Hm & He & Hp & Hg & E).
  destruct (SnapFacts.findSnapPoint_loop st se point x Hm He Hp Hg)
    as (s1 & Hs1 & Hinv1).
  assert (B1 : bestSnap s1 = Some r) by congruence.
  unfold scanned in Hinv1. rewrite B1 in Hinv1.
  destruct Hinv1 as (_ & Ht1 & Hd1 & i1 & Hi1 & Hall1 & Hbefore1).
  assert (Hm2 : map (setThreshold larger se) = Some gmap) by exact Hm.
  assert (He2 : enabled (setThreshold larger se) = true) by exact He.
  assert (Hg2 : _getAllEdges st (setThreshold larger se) x = Ok edges)
    by exact Hg.
  destruct (SnapFacts.findSnapPoint_loop st (setThreshold larger se) point x
              Hm2 He2 Hp Hg2) as (s2 & Hs2 & Hinv2).
  rewrite Hs2. unfold scanned in Hinv2.
  cbn [threshold setThreshold] in Hinv2.
  destruct (bestSnap s2) as [r2|] eqn:B2.
  - destruct Hinv2 as (_ & Ht2 & Hd2 & i2 & Hi2 & Hall2 & Hbefore2).
    pose proof (Hall1 _ _ Hi2) as L1. pose proof (Hall2 _ _ Hi1) as L2.
    rewrite <- Hd2 in L1. rewrite <- Hd1 in L2.
    assert (I : i1 = i2).
    { destruct (Nat.lt_trichotomy i1 i2) as [L|[L|L]]; [|exact L|].
      - pose proof (Hbefore2 _ _ L Hi1) as C. rewrite <- Hd1 in C. lra.
      - pose proof (Hbefore1 _ _ L Hi2) as C. rewrite <- Hd2 in C. lra. }
    subst i2.
    assert (Ee : sr_edge r2 = sr_edge r) by congruence.
    assert (S2 : snapOf st (setThreshold larger se) point x = Ok (Some r2))
      by exact Hs2.
    destruct (snapOf_some _ _ _ _ S2)
      as (gmap' & projection' & edges' & Hm' & _ & Hp' & _ & E2).
    rewrite Hm2 in Hm'. inversion Hm'; subst gmap'.
    rewrite Hp in Hp'. inversion Hp'; subst projection'.
    rewrite Ee in E2. rewrite <- E in E2. rewrite E2. reflexivity.
  - exfalso. destruct Hinv2 as (_ & Hfar).
    apply nth_error_In in Hi1. specialize (Hfar _ Hi1).
    rewrite <- Hd1 in Hfar. lra.
Qed.

(** ** The registry *)

Lemma edgesOf_absent (st : Store) (entries : list (string * Entry))
    (X : string) :
  ~ In X (JSMap.keys entries) ->
  edgesOf st entries (Some X) = edgesOf st entries None.
Proof.
  induction entries as [|[id shape] rest IH]; intros N; [reflexivity|].
  cbn [edgesOf is_excluded].
  cbn [JSMap.keys List.map fst In] in N.
  destruct (String.eqb id X) eqn:E.
  - apply String.eqb_eq in E. exfalso. apply N. left. exact E.
  - rewrite IH; [reflexivity|]. intros I. apply N. right. exact I.
Qed.

(** X21. Removing a shape from the engine has the effect on the edges that
    excluding it from a query has: after [removeShape(X)] the edges of
    an unrestricted query are those of a query with [excludeShapeId = X]
    before it. *)
Theorem removeShape_is_exclusion (st : Store) (se : t) (X : string) :
  NoDup (JSMap.keys (shapes se)) ->
  _getAllEdges st (removeShape X se) None = _getAllEdges st se (Some X).
Proof.
  unfold _getAllEdges, removeShape. cbn [shapes set_shapes].
  induction (shapes se) as [|[id shape] rest IH]; intros N; [reflexivity|].
  cbn [JSMap.keys List.map fst] in N. inversion N as [|? ? N1 N2]; subst.
  cbn [JSMap.delete edgesOf is_excluded].
  rewrite (String.eqb_sym id X).
  destruct (String.eqb X id) eqn:E.
  - apply String.eqb_eq in E. subst id. symmetry.
    apply edgesOf_absent. exact N1.
  - cbn [edgesOf is_excluded]. rewrite (IH N2). reflexivity.
Qed.

(** ** The approximation of a circle *)

Lemma nth_error_map_seq_lt (A : Type) (g : nat -> A) (n i : nat) :
  (i < n)%nat -> nth_error (List.map g (seq 0 n)) i = Some (g i).
Proof.
  intros H. apply map_nth_error.
  rewrite (nth_error_nth' (seq 0 n) 0%nat) by (rewrite length_seq; exact H).
  rewrite seq_nth by exact H. reflexivity.
Qed.

(** X22. [Circle._getCirclePoints(segments)] gives [segments] points, and
    the 36 points of the circle branch of [SnapEngine._getAllEdges] are
    those of [_getCirclePoints(36)]: both compute them by the same
    operations in the same order.  [Circle.getEdges] joins the points as
    [getEdgesFromCoordinates] joins a closed ring, one edge per point, the
    edge [i] from the point [i] to the point [(i + 1) mod segments]; it
    returns [[]] without a centre and for the radius [0]. *)
Theorem circle_edges_join_points
    (center : Point) (radius : R) (segments : nat) :
  length (CircleShape._getCirclePoints center radius segments) = segments /\
  circlePoints center radius = CircleShape._getCirclePoints center radius 36 /\
  (radius <> 0 ->
   let points := CircleShape._getCirclePoints center radius segments in
   CircleShape.getEdges (Some center) radius segments =
     getEdgesFromCoordinates points true /\
   length (CircleShape.getEdges (Some center) radius segments) = segments /\
   forall i, (i < segments)%nat ->
     nth_error (CircleShape.getEdges (Some center) radius segments) i =
     Some (mkIndexedEdge (coord points i)
                         (coord points ((i + 1) mod segments)) i)) /\
  CircleShape.getEdges (Some center) 0 segments = [] /\
  CircleShape.getEdges None radius segments = [].
Proof.
  assert (L : length (CircleShape._getCirclePoints center radius segments)
              = segments).
  { unfold CircleShape._getCirclePoints.
    rewrite length_map, length_seq. reflexivity. }
  split; [exact L|]. split; [reflexivity|]. split; [|split].
  - intros N. cbv zeta.
    assert (E : CircleShape.getEdges (Some center) radius segments =
                List.map
                  (fun i =>
                     mkIndexedEdge
                       (coord (CircleShape._getCirclePoints center radius
                                 segments) i)
                       (coord (CircleShape._getCirclePoints center radius
                                 segments) ((i + 1) mod segments)) i)
                  (seq 0 segments)).
    { unfold CircleShape.getEdges.
      rewrite (proj2 (GeometryMoreFacts.Reqb_false radius 0) N).
      cbv zeta. rewrite L. reflexivity. }
    split; [|split].
    + unfold getEdgesFromCoordinates. rewrite E, L. reflexivity.
    + rewrite E, length_map, length_seq. reflexivity.
    + intros i I. rewrite E.
      apply (nth_error_map_seq_lt
               (fun i =>
                  mkIndexedEdge
                    (coord (CircleShape._getCirclePoints center radius
                              segments) i)
                    (coord (CircleShape._getCirclePoints center radius
                              segments) ((i + 1) mod segments)) i)).
      exact I.
  - unfold CircleShape.getEdges.
    rewrite (proj2 (GeometryMoreFacts.Reqb_true 0 0) eq_refl). reflexivity.
  - reflexivity.
Qed.

(** ** The samples *)

Lemma sample_engine_snaps :
  exists r se' cs,
    findSnapPoint Sample.store with_callback Sample.cursor None =
      (Ok (Some r), se', cs).
Proof.
  destruct (@SnapFacts.findSnapPoint_loop Sample.store with_callback
              Sample.cursor None Sample.map Sample.projection
              [Sample.segment] eq_refl eq_refl eq_refl eq_refl)
    as (s & Hs & Hinv).
  unfold scanned in Hinv. unfold snapOf in Hs.
  destruct (findSnapPoint Sample.store with_callback Sample.cursor None)
    as [[res se'] cs].
  cbn [fst] in Hs.
  destruct (bestSnap s) as [r|].
  - exists r, se', cs. rewrite Hs. reflexivity.
  - exfalso. destruct Hinv as (_ & Hfar).
    specialize (Hfar Sample.segment (or_introl eq_refl)).
    change (scanDistance Sample.projection (scaleOf (getZoom Sample.map))
              (toPixel Sample.projection (scaleOf (getZoom Sample.map))
                       Sample.cursor) Sample.segment)
      with (edgeDistance Sample.map Sample.projection
              Sample.cursor Sample.segment) in Hfar.
    rewrite SnapFacts.sample_distance in Hfar.
    assert (T : threshold with_callback = 15) by reflexivity.
    rewrite T in Hfar. lra.
Qed.

Lemma sample_threshold_le : threshold with_callback <= 20.
Proof.
  assert (T : threshold with_callback = 15) by reflexivity.
  rewrite T. lra.
Qed.


Lemma sample_keys : NoDup (JSMap.keys (shapes Sample.engine)).
Proof.
  cbn. constructor; [intros []|constructor].
Qed.


Lemma findSnapPoint_indicator_and_callback_witness :
  exists r se' cs,
    findSnapPoint Sample.store with_callback Sample.cursor None =
      (Ok (Some r), se', cs) /\
    List.filter is_onSnap cs = [CallOnSnap r].
Proof.
  destruct sample_engine_snaps as (r & se' & cs & F).
  exists r, se', cs. split; [exact F|].
  exact (proj1 (proj2 (proj2 (proj2 (proj2 (proj2
           (@findSnapPoint_indicator_and_callback Sample.store with_callback
              se' Sample.cursor None r cs F))))))).
Defined.

Lemma raising_threshold_keeps_snap_witness :
  exists r,
    threshold with_callback <= 20 /\
    snapOf Sample.store with_callback Sample.cursor None = Ok (Some r) /\
    snapOf Sample.store (setThreshold 20 with_callback) Sample.cursor None
    = Ok (Some r).
Proof.
  destruct sample_engine_snaps as (r & se' & cs & F).
  assert (S : snapOf Sample.store with_callback Sample.cursor None =
              Ok (Some r)) by (unfold snapOf; rewrite F; reflexivity).
  pose proof sample_threshold_le as T.
  exists r. split; [exact T|]. split; [exact S|].
  exact (@raising_threshold_keeps_snap Sample.store with_callback
           Sample.cursor None r 20 T S).
Defined.

Lemma removeShape_is_exclusion_witness :
  NoDup (JSMap.keys (shapes Sample.engine)) /\
  _getAllEdges Sample.store (removeShape "shape_1" Sample.engine) None =
  _getAllEdges Sample.store Sample.engine (Some "shape_1"%string).
Proof.
  split; [exact sample_keys|].
  exact (@removeShape_is_exclusion Sample.store Sample.engine
           "shape_1"%string sample_keys).
Defined.

Lemma circle_edges_join_points_witness :
  (100 <> 0)%R /\
  length (CircleShape.getEdges (Some origin) 100 36) = 36%nat /\
  nth_error (CircleShape.getEdges (Some origin) 100 36) 35 =
    Some (mkIndexedEdge
            (coord (CircleShape._getCirclePoints origin 100 36) 35)
            (coord (CircleShape._getCirclePoints origin 100 36) 0) 35).
Proof.
  assert (N : (100 <> 0)%R) by lra.
  split; [exact N|].
  destruct (proj1 (proj2 (proj2 (@circle_edges_join_points origin 100 36)))
              N) as (_ & L & E).
  split; [exact L|]. apply (E 35%nat). lia.
Defined.

End SnapMoreFacts.

(* ================================================================== *)
(** * Properties of sessions of the drawing manager *)
(* ================================================================== *)

Module SessionFacts.

Import Geometry GoogleMaps Drawing Session JSMapFacts.
Local Open Scope string_scope.

(** ** What leaves the registry, the engine's entries and the store
       alone *)

Ltac core_fields :=
  cbn [core shapes snapEngine store
       set_map set_draggableCursor set_options set_shapes
       set_selectedShapeId set_isDrawing set_drawingType set_drawingPath
       set_lastSnapPoint set__idCounter set__previewLine set__previewMarkers
       set__drawingListeners set__vertexMarkers set__midpointMarkers
       set__labels set__shapeNameCounter set_events set_history
       set_snapEngine set_store emit
       Snap.shapes Snap.set_snapMarker Snap.set_enabled Snap.setThreshold].

Ltac keeps_core :=
  intros;
  repeat (core_fields;
          match goal with
          | |- context [match ?x with _ => _ end] => destruct x
          | |- context [if ?b then _ else _] => destruct b
          end);
  core_fields; try reflexivity.

Lemma consistent_core (dm dm' : t) :
  core dm' = core dm -> consistent dm -> consistent dm'.
Proof.
  unfold core. intros E [C1 C2 C3 C4 C5].
  inversion E as [[E1 E2 E3]].
  constructor; rewrite ?E1, ?E2, ?E3; assumption.
Qed.

(** An assignment to another field keeps the three. *)
Lemma core_set_map (v : Map) (dm : t) :
  core (set_map v dm) = core dm.
Proof. reflexivity. Qed.

Lemma core_set_draggableCursor (v : option string) (dm : t) :
  core (set_draggableCursor v dm) = core dm.
Proof. reflexivity. Qed.

Lemma core_set_options (v : Options) (dm : t) :
  core (set_options v dm) = core dm.
Proof. reflexivity. Qed.

Lemma core_set_selectedShapeId (v : option string) (dm : t) :
  core (set_selectedShapeId v dm) = core dm.
Proof. reflexivity. Qed.

Lemma core_set_isDrawing (v : bool) (dm : t) :
  core (set_isDrawing v dm) = core dm.
Proof. reflexivity. Qed.

Lemma core_set_drawingType (v : option string) (dm : t) :
  core (set_drawingType v dm) = core dm.
Proof. reflexivity. Qed.

Lemma core_set_drawingPath (v : list Point) (dm : t) :
  core (set_drawingPath v dm) = core dm.
Proof. reflexivity. Qed.

Lemma core_set_lastSnapPoint (v : option Point) (dm : t) :
  core (set_lastSnapPoint v dm) = core dm.
Proof. reflexivity. Qed.

Lemma core_set__idCounter (v : nat) (dm : t) :
  core (set__idCounter v dm) = core dm.
Proof. reflexivity. Qed.

Lemma core_set__previewLine (v : option (list Point)) (dm : t) :
  core (set__previewLine v dm) = core dm.
Proof. reflexivity. Qed.

Lemma core_set__previewMarkers (v : list Marker) (dm : t) :
  core (set__previewMarkers v dm) = core dm.
Proof. reflexivity. Qed.

Lemma core_set__drawingListeners (v : bool) (dm : t) :
  core (set__drawingListeners v dm) = core dm.
Proof. reflexivity. Qed.

Lemma core_set__vertexMarkers (v : JSMap.t (list Marker)) (dm : t) :
  core (set__vertexMarkers v dm) = core dm.
Proof. reflexivity. Qed.

Lemma core_set__midpointMarkers (v : JSMap.t (list MidpointMarker)) (dm : t) :
  core (set__midpointMarkers v dm) = core dm.
Proof. reflexivity. Qed.

Lemma core_set__labels (v : JSMap.t Label) (dm : t) :
  core (set__labels v dm) = core dm.
Proof. reflexivity. Qed.

Lemma core_set__shapeNameCounter (v : nat) (dm : t) :
  core (set__shapeNameCounter v dm) = core dm.
Proof. reflexivity. Qed.

Lemma core_set_events (v : list Event) (dm : t) :
  core (set_events v dm) = core dm.
Proof. reflexivity. Qed.

Lemma core_set_history (v : History.t Action) (dm : t) :
  core (set_history v dm) = core dm.
Proof. reflexivity. Qed.

Ltac core_refl := reflexivity.

Ltac by_core H := (eapply consistent_core; [|exact H]; core_refl).

Lemma shapes_of_core (dm dm' : t) :
  core dm' = core dm -> shapes dm' = shapes dm.
Proof. unfold core. intros E. inversion E. reflexivity. Qed.

Lemma core_emit (e : Event) (dm : t) : core (emit e dm) = core dm.
Proof. reflexivity. Qed.

Lemma core__showMarkers (k : string) (dm : t) :
  core (_showMarkers k dm) = core dm.
Proof. unfold _showMarkers. keeps_core. Qed.

Lemma core__hideMarkers (k : string) (dm : t) :
  core (_hideMarkers k dm) = core dm.
Proof. unfold _hideMarkers. keeps_core. Qed.

Lemma core__removeMarkers (k : string) (dm : t) :
  core (_removeMarkers k dm) = core dm.
Proof. reflexivity. Qed.

Lemma core__createVertexMarkers (shape : Shape) (dm : t) :
  core (_createVertexMarkers shape dm) = core dm.
Proof. reflexivity. Qed.

Lemma core__createLabel (shape : Shape) (dm : t) :
  core (_createLabel shape dm) = core dm.
Proof. reflexivity. Qed.

Lemma core__updateLabel (shape : Shape) (dm : t) :
  core (_updateLabel shape dm) = core dm.
Proof. unfold _updateLabel. keeps_core. Qed.

Lemma core__removeLabel (k : string) (dm : t) :
  core (_removeLabel k dm) = core dm.
Proof. unfold _removeLabel. keeps_core. Qed.

Lemma core__updateMidpointPositions (shape : Shape) (dm : t) :
  core (_updateMidpointPositions shape dm) = core dm.
Proof. unfold _updateMidpointPositions. keeps_core. Qed.

Lemma core_move_vertexMarker (k : string) (i : nat) (p : Point) (dm : t) :
  core (move_vertexMarker k i p dm) = core dm.
Proof. unfold move_vertexMarker. keeps_core. Qed.

Lemma core_set_midpointMarker (k : string) (i : nat)
    (f : MidpointMarker -> MidpointMarker) (dm : t) :
  core (set_midpointMarker k i f dm) = core dm.
Proof. unfold set_midpointMarker. keeps_core. Qed.

Lemma shapes_hideIndicator (se : Snap.t) :
  Snap.shapes (Snap.hideIndicator se) = Snap.shapes se.
Proof. unfold Snap.hideIndicator. destruct (Snap.snapMarker se); reflexivity. Qed.

Lemma shapes__showIndicator (p : Point) (se : Snap.t) :
  Snap.shapes (Snap._showIndicator p se) = Snap.shapes se.
Proof. unfold Snap._showIndicator. destruct (Snap.map se); reflexivity. Qed.

Lemma shapes_findSnapPoint (st : Store) (se : Snap.t) (pt : Point)
    (x : option string) :
  Snap.shapes (snd (fst (Snap.findSnapPoint st se pt x))) = Snap.shapes se.
Proof.
  unfold Snap.findSnapPoint.
  repeat match goal with
         | |- context [match ?x with _ => _ end] => destruct x
         | |- context [if ?b then _ else _] => destruct b
         end; cbn [fst snd];
    rewrite ?shapes__showIndicator, ?shapes_hideIndicator; reflexivity.
Qed.

Lemma core_hideIndicator (dm : t) :
  core (set_snapEngine (Snap.hideIndicator (snapEngine dm)) dm) = core dm.
Proof. unfold core. core_fields. rewrite shapes_hideIndicator. reflexivity. Qed.

Lemma core_findSnapPoint (pt : Point) (x : option string) (dm : t) :
  core (snd (findSnapPoint pt x dm)) = core dm.
Proof.
  unfold findSnapPoint.
  pose proof (shapes_findSnapPoint (store dm) (snapEngine dm) pt x) as S.
  destruct (Snap.findSnapPoint _ _ _ _) as [[r se] cs]. cbn [fst snd] in *.
  unfold core. core_fields. rewrite S. reflexivity.
Qed.

Lemma core_drag_snap (shape : Shape) (pt : Point) (dm : t) :
  core (snd (drag_snap shape pt dm)) = core dm.
Proof.
  unfold drag_snap. destruct (snapping_enabled _); [|reflexivity].
  apply core_findSnapPoint.
Qed.

Lemma core__cleanupDrawing (dm : t) : core (_cleanupDrawing dm) = core dm.
Proof.
  unfold _cleanupDrawing, core. core_fields.
  rewrite shapes_hideIndicator. reflexivity.
Qed.

Lemma core_stopDrawing (dm : t) : core (stopDrawing dm) = core dm.
Proof.
  unfold stopDrawing. rewrite core_emit.
  unfold core at 1. core_fields. apply core__cleanupDrawing.
Qed.

Lemma core_setSnapping (e : option bool) (n : option R) (dm : t) :
  core (setSnapping e n dm) = core dm.
Proof.
  unfold setSnapping, Snap.enable, Snap.disable, core.
  destruct e as [[|]|], n as [n|]; core_fields;
    rewrite ?shapes_hideIndicator; reflexivity.
Qed.

Lemma core_history_push (a : Action) (dm : t) :
  core (history_push a dm) = core dm.
Proof. reflexivity. Qed.

(** ** The [Map]s and the store *)

Lemma has_keys (V : Type) (k : string) (m : JSMap.t V) :
  JSMap.has k m = true <-> In k (JSMap.keys m).
Proof.
  unfold JSMap.has.
  induction m as [|[k0 v0] m IH]; cbn [JSMap.get JSMap.keys List.map fst In].
  - split; [discriminate|intros []].
  - destruct (String.eqb k k0) eqn:E.
    + apply String.eqb_eq in E. subst k0. split; [left|]; reflexivity.
    + apply String.eqb_neq in E. rewrite IH. unfold JSMap.keys.
      split; [intros I; right; exact I|intros [I|I]; [congruence|exact I]].
Qed.

Lemma nodup_set (V : Type) (k : string) (v : V) (m : JSMap.t V) :
  NoDup (JSMap.keys m) -> NoDup (JSMap.keys (JSMap.set k v m)).
Proof.
  intros N. rewrite keys_set. destruct (JSMap.has k m) eqn:H; [exact N|].
  apply NoDup_app; [exact N|constructor; [intros []|constructor]|].
  intros x I [<-|[]]. apply has_keys in I. congruence.
Qed.

Lemma in_keys_delete (V : Type) (k k' : string) (m : JSMap.t V) :
  In k' (JSMap.keys (JSMap.delete k m)) -> In k' (JSMap.keys m).
Proof.
  induction m as [|[k0 v0] m IH];
    cbn [JSMap.delete JSMap.keys List.map fst In]; [intros []|].
  destruct (String.eqb k k0).
  - intros I. right. exact I.
  - cbn [List.map fst In]. intros [I|I]; [left; exact I|right; exact (IH I)].
Qed.

Lemma nodup_delete (V : Type) (k : string) (m : JSMap.t V) :
  NoDup (JSMap.keys m) -> NoDup (JSMap.keys (JSMap.delete k m)).
Proof.
  induction m as [|[k0 v0] m IH];
    cbn [JSMap.delete JSMap.keys List.map fst]; intros N; [constructor|].
  inversion N as [|? ? N1 N2]; subst.
  destruct (String.eqb k k0); [exact N2|].
  cbn [List.map fst]. constructor; [|exact (IH N2)].
  intros I. apply N1. exact (in_keys_delete _ _ _ I).
Qed.

Lemma get_delete (V : Type) (k k' : string) (m : JSMap.t V) :
  NoDup (JSMap.keys m) ->
  JSMap.get k' (JSMap.delete k m) =
  if String.eqb k' k then None else JSMap.get k' m.
Proof.
  intros N. destruct (String.eqb k' k) eqn:E.
  - apply String.eqb_eq in E. subst k'. apply get_delete_eq. exact N.
  - apply String.eqb_neq in E. apply get_delete_neq. exact E.
Qed.

Lemma get_set (V : Type) (k k' : string) (v : V) (m : JSMap.t V) :
  JSMap.get k' (JSMap.set k v m) =
  if String.eqb k' k then Some v else JSMap.get k' m.
Proof.
  destruct (String.eqb k' k) eqn:E.
  - apply String.eqb_eq in E. subst k'. apply get_set_eq.
  - apply String.eqb_neq in E. apply get_set_neq. exact E.
Qed.

Lemma deref_update_kind (r r' : nat) (f : Overlay -> Overlay) (st : Store)
    (o : Overlay) :
  (forall o g, fits g (geom (f o)) = fits g (geom o)) ->
  deref st r' = Some o ->
  exists o', deref (update r f st) r' = Some o' /\
             forall g, fits g (geom o') = fits g (geom o).
Proof.
  intros K. unfold deref. revert r r'.
  induction st as [|x st IH]; intros r r' H.
  - destruct r'; discriminate H.
  - destruct r as [|r], r' as [|r']; cbn [update nth_error] in *.
    + inversion H; subst. exists (f o). split; [reflexivity|apply K].
    + exists o. split; [exact H|reflexivity].
    + exists o. split; [exact H|reflexivity].
    + apply IH. exact H.
Qed.

Lemma deref_alloc_old (st : Store) (r : nat) (o o' : Overlay) :
  deref st r = Some o -> deref (st ++ [o'])%list r = Some o.
Proof.
  unfold deref. intros H. rewrite nth_error_app1; [exact H|].
  apply nth_error_Some. congruence.
Qed.

Lemma deref_alloc_new (st : Store) (o : Overlay) :
  deref (st ++ [o])%list (length st) = Some o.
Proof.
  unfold deref. rewrite nth_error_app2, Nat.sub_diag by lia. reflexivity.
Qed.

Lemma has_of_get (V : Type) (k : string) (m : JSMap.t V) (v : V) :
  JSMap.get k m = Some v -> JSMap.has k m = true.
Proof. unfold JSMap.has. intros ->. reflexivity. Qed.

(** ** The steps that keep the registry consistent *)

Lemma consistent_store (dm dm' : t) (r : nat) (f : Overlay -> Overlay) :
  (forall o g, fits g (geom (f o)) = fits g (geom o)) ->
  consistent dm ->
  core dm' = (shapes dm, Snap.shapes (snapEngine dm),
              update r f (store dm)) ->
  consistent dm'.
Proof.
  intros K [C1 C2 C3 C4 C5] E. unfold core in E.
  inversion E as [[E1 E2 E3]].
  constructor; rewrite ?E1, ?E2, ?E3; try assumption.
  intros k shape G. destruct (C5 k shape G) as (o & D & F).
  destruct (@deref_update_kind r (obj shape) f (store dm) o K D)
    as (o' & D' & F').
  exists o'. split; [exact D'|]. rewrite F'. exact F.
Qed.

Lemma consistent_delete (dm dm' : t) (k : string) :
  consistent dm ->
  core dm' = (JSMap.delete k (shapes dm),
              JSMap.delete k (Snap.shapes (snapEngine dm)), store dm) ->
  consistent dm'.
Proof.
  intros [C1 C2 C3 C4 C5] E. unfold core in E.
  inversion E as [[E1 E2 E3]].
  assert (G : forall k' shape,
             JSMap.get k' (JSMap.delete k (shapes dm)) = Some shape ->
             JSMap.get k' (shapes dm) = Some shape).
  { intros k' shape H. rewrite get_delete in H by exact C1.
    destruct (String.eqb k' k); [discriminate H|exact H]. }
  constructor; rewrite ?E1, ?E2, ?E3.
  - apply nodup_delete, C1.
  - apply nodup_delete, C2.
  - intros k'. rewrite !get_delete by assumption.
    destruct (String.eqb k' k); [reflexivity|apply C3].
  - intros k' shape H. apply C4, G, H.
  - intros k' shape H. apply (C5 k'), G, H.
Qed.

Lemma consistent_add (dm dm' : t) (shape : Shape) (o : Overlay) :
  consistent dm ->
  obj shape = length (store dm) ->
  fits (geometry shape) (geom o) = true ->
  core dm' = (JSMap.set (id shape) shape (shapes dm),
              JSMap.set (id shape) (entry_of shape)
                        (Snap.shapes (snapEngine dm)),
              (store dm ++ [o])%list) ->
  consistent dm'.
Proof.
  intros [C1 C2 C3 C4 C5] Ho Hf E. unfold core in E.
  inversion E as [[E1 E2 E3]].
  constructor; rewrite ?E1, ?E2, ?E3.
  - apply nodup_set, C1.
  - apply nodup_set, C2.
  - intros k. rewrite !get_set.
    destruct (String.eqb k (id shape)); [reflexivity|apply C3].
  - intros k s H. rewrite get_set in H.
    destruct (String.eqb k (id shape)) eqn:K.
    + apply String.eqb_eq in K. inversion H; subst. reflexivity.
    + apply C4, H.
  - intros k s H. rewrite get_set in H.
    destruct (String.eqb k (id shape)) eqn:K.
    + inversion H; subst s. exists o. split; [|exact Hf].
      rewrite Ho. apply deref_alloc_new.
    + destruct (C5 k s H) as (o0 & D & F). exists o0.
      split; [apply deref_alloc_old, D|exact F].
Qed.

Lemma consistent_replace (dm dm' : t) (k : string) (shape shape' : Shape)
    (entries : JSMap.t Snap.Entry) :
  consistent dm ->
  JSMap.get k (shapes dm) = Some shape ->
  id shape' = id shape -> obj shape' = obj shape ->
  type_of (geometry shape') = type_of (geometry shape) ->
  (entries = Snap.shapes (snapEngine dm) \/
   entries = JSMap.set k (entry_of shape')
               (JSMap.delete k (Snap.shapes (snapEngine dm)))) ->
  core dm' = (JSMap.set k shape' (shapes dm), entries, store dm) ->
  consistent dm'.
Proof.
  intros [C1 C2 C3 C4 C5] G Hi Ho Ht He E. unfold core in E.
  inversion E as [[E1 E2 E3]].
  assert (Ee : entry_of shape' = entry_of shape).
  { unfold entry_of. rewrite Hi, Ho, Ht. reflexivity. }
  assert (Ff : forall o, fits (geometry shape') o = fits (geometry shape) o).
  { intros o. destruct (geometry shape'), (geometry shape), o;
      try reflexivity; discriminate Ht. }
  constructor; rewrite ?E1, ?E3.
  - apply nodup_set, C1.
  - destruct He as [->| ->]; rewrite E2; [exact C2|].
    apply nodup_set, nodup_delete, C2.
  - intros k'. rewrite get_set.
    destruct He as [->| ->]; rewrite E2.
    + rewrite C3. destruct (String.eqb k' k) eqn:K; [|reflexivity].
      apply String.eqb_eq in K. subst k'. rewrite G. cbn [option_map].
      rewrite Ee. reflexivity.
    + rewrite get_set, get_delete by exact C2.
      destruct (String.eqb k' k); [reflexivity|apply C3].
  - intros k' s H. rewrite get_set in H.
    destruct (String.eqb k' k) eqn:K.
    + apply String.eqb_eq in K. inversion H; subst.
      rewrite Hi. apply C4, G.
    + apply C4, H.
  - intros k' s H. rewrite get_set in H.
    destruct (String.eqb k' k) eqn:K.
    + inversion H; subst s. destruct (C5 k shape G) as (o & D & F).
      exists o. rewrite Ho, Ff. split; assumption.
    + apply (C5 k'), H.
Qed.

Lemma fits_setOptions (s : Style) (o : Overlay) (g : ShapeGeometry) :
  fits g (geom (setOptions s o)) = fits g (geom o).
Proof. reflexivity. Qed.

Lemma fits_setMap_null (o : Overlay) (g : ShapeGeometry) :
  fits g (geom (setMap_null o)) = fits g (geom o).
Proof. reflexivity. Qed.

Lemma fits_path_write (f : list Point -> list Point) (o : Overlay)
    (g : ShapeGeometry) :
  fits g (geom (match geom o with
                | Path p => set_geom (Path (f p)) o
                | _ => o
                end)) = fits g (geom o).
Proof. destruct o as [[p|c r|b] ? ? ? ?]; destruct g; reflexivity. Qed.

Lemma consistent_restyle (s : Style) (shape : Shape) (dm : t) :
  consistent dm -> consistent (restyle s shape dm).
Proof.
  intros C.
  apply (@consistent_store dm _ (obj shape) (setOptions s));
    [apply fits_setOptions|exact C|reflexivity].
Qed.

Lemma consistent_update_path (f : list Point -> list Point) (shape : Shape)
    (dm : t) :
  consistent dm -> consistent (update_path f shape dm).
Proof.
  intros C. unfold update_path.
  eapply consistent_store; [|exact C|reflexivity].
  intros o g. apply fits_path_write.
Qed.

Lemma consistent__removeShape (k : string) (dm : t) :
  consistent dm -> consistent (_removeShape k dm).
Proof.
  intros C. unfold _removeShape.
  destruct (JSMap.get k (shapes dm)) as [shape|]; [|exact C].
  assert (C1 : consistent
                 (set_store (update (obj shape) setMap_null (store dm)) dm)).
  { eapply consistent_store; [apply fits_setMap_null|exact C|reflexivity]. }
  apply (consistent_delete k C1).
  rewrite core_emit.
  unfold _removeLabel, _removeMarkers, Snap.removeShape.
  keeps_core.
Qed.

Lemma fits_overlay_for (g : ShapeGeometry) (s : Style) :
  fits g (geom (overlay_for g s)) = true.
Proof. destruct g; reflexivity. Qed.

Lemma consistent__restoreShape (data : ShapeData) (dm : t) :
  consistent dm -> consistent (_restoreShape data dm).
Proof.
  intros C. unfold _restoreShape, alloc.
  set (shape := mkShape (d_id data) (d_name data) (d_geometry data)
                        (d_area data) (length (store dm))).
  apply (@consistent_add dm _ shape
           (overlay_for (d_geometry data) (styles_completed (options dm))));
    [exact C|reflexivity|apply fits_overlay_for|].
  rewrite core_emit, core__createLabel.
  destruct (is_path_type (geometry shape));
    rewrite ?core__createVertexMarkers; reflexivity.
Qed.

(** ** Every operation keeps the registry consistent *)

Lemma consistent_emit (e : Event) (dm : t) :
  consistent dm -> consistent (emit e dm).
Proof. apply consistent_core, core_emit. Qed.

Lemma consistent_deselectShape (dm : t) :
  consistent dm -> consistent (deselectShape dm).
Proof.
  intros C. unfold deselectShape.
  destruct (selectedShapeId dm) as [sel|]; [|exact C].
  destruct (truthy sel); [|exact C].
  assert (H : consistent (_hideMarkers sel dm))
    by (apply (consistent_core (core__hideMarkers sel dm)), C).
  apply consistent_emit.
  match goal with |- consistent (set_selectedShapeId None ?d) =>
    apply (@consistent_core d); [core_refl|]
  end.
  destruct (JSMap.get sel (shapes (_hideMarkers sel dm)));
    [apply consistent_restyle, H|exact H].
Qed.

Lemma consistent_selectShape (k : string) (dm : t) :
  consistent dm -> consistent (selectShape k dm).
Proof.
  intros C. unfold selectShape.
  destruct (match selectedShapeId dm with
            | Some s => String.eqb s k
            | None => false
            end); [exact C|].
  match goal with
  | |- consistent (match JSMap.get k (shapes (set_selectedShapeId _ ?d))
                   with _ => _ end) =>
      assert (H : consistent d)
  end.
  { destruct (selectedShapeId dm) as [sel|]; [|exact C].
    destruct (truthy sel); [|exact C].
    assert (H : consistent (_hideMarkers sel dm))
      by (apply (consistent_core (core__hideMarkers sel dm)), C).
    destruct (JSMap.get sel (shapes (_hideMarkers sel dm)));
      [apply consistent_restyle, H|exact H]. }
  match goal with
  | |- consistent (match JSMap.get k (shapes ?d2) with _ => _ end) =>
      assert (H2 : consistent d2)
        by (by_core H);
      destruct (JSMap.get k (shapes d2)) as [shape|]; [|exact H2]
  end.
  apply consistent_emit.
  eapply consistent_core; [apply core__showMarkers|].
  apply consistent_restyle, H2.
Qed.

Lemma consistent_stopDrawing (dm : t) :
  consistent dm -> consistent (stopDrawing dm).
Proof. apply consistent_core, core_stopDrawing. Qed.

Lemma consistent_startDrawing (type : string) (dm : t) :
  consistent dm -> consistent (startDrawing type dm).
Proof.
  intros C. unfold startDrawing.
  apply consistent_emit.
  eapply consistent_core; [apply core_set__drawingListeners|].
  eapply consistent_core; [apply core_set_draggableCursor|].
  apply consistent_deselectShape.
  eapply consistent_core; [apply core_set_lastSnapPoint|].
  eapply consistent_core; [apply core_set_drawingPath|].
  eapply consistent_core; [apply core_set_drawingType|].
  eapply consistent_core; [apply core_set_isDrawing|].
  destruct (isDrawing dm); [apply consistent_stopDrawing, C|exact C].
Qed.

Lemma consistent_history_push (a : Action) (dm : t) :
  consistent dm -> consistent (history_push a dm).
Proof. apply consistent_core, core_history_push. Qed.

Lemma consistent__registerShape (shape : Shape) (o : Overlay) (dm : t) :
  consistent dm ->
  obj shape = length (store dm) ->
  fits (geometry shape) (geom o) = true ->
  consistent (_registerShape shape (set_store (store dm ++ [o])%list dm)).
Proof.
  intros C Ho Hf. unfold _registerShape.
  apply (@consistent_add dm _ shape o C Ho Hf).
  rewrite core_emit, core_history_push, core__createLabel.
  destruct (is_path_type (geometry shape));
    rewrite ?core__createVertexMarkers; reflexivity.
Qed.

Lemma consistent_completeDrawing (dm : t) :
  consistent dm -> consistent (completeDrawing dm).
Proof.
  intros C. unfold completeDrawing.
  destruct (negb (isDrawing dm)); [exact C|].
  destruct (length_lt (length (drawingPath dm)) (minPoints (drawingType dm)));
    [exact C|].
  unfold _createShape.
  match goal with
  | |- context [shape_of_drawing ?ty ?p] =>
      destruct (shape_of_drawing ty p) as [[g a]|]
  end.
  - unfold alloc. apply consistent_stopDrawing, consistent_emit.
    match goal with
    | |- consistent (_registerShape ?sh (set_store (store ?d ++ [?o])%list
                                                   ?d)) =>
        apply (@consistent__registerShape sh o d);
          [|reflexivity|apply fits_overlay_for]
    end.
    by_core C.
  - apply consistent_stopDrawing.
    by_core C.
Qed.

Lemma consistent__handleDrawingClick (pt : Point) (dm : t) :
  consistent dm -> consistent (_handleDrawingClick pt dm).
Proof.
  intros C. unfold _handleDrawingClick.
  destruct (is_type (drawingType dm) "polygon" ||
            is_type (drawingType dm) "polyline").
  - by_core C.
  - destruct (is_type (drawingType dm) "circle" ||
              is_type (drawingType dm) "rectangle"); [|exact C].
    match goal with |- context [if ?b then _ else _] => destruct b end.
    + by_core C.
    + apply consistent_completeDrawing.
      by_core C.
Qed.

Lemma consistent_drawing_click (latLng : Point) (dm : t) :
  consistent dm -> consistent (drawing_click latLng dm).
Proof.
  intros C. unfold drawing_click.
  destruct (negb (isDrawing dm)); [exact C|].
  apply consistent__handleDrawingClick, C.
Qed.

Lemma consistent_drawing_mousemove (latLng : Point) (dm : t) :
  consistent dm -> consistent (drawing_mousemove latLng dm).
Proof.
  intros C. unfold drawing_mousemove.
  destruct (snapping_enabled (options dm)).
  - pose proof (core_findSnapPoint latLng None dm) as F.
    destruct (findSnapPoint latLng None dm) as [[snap|] dm1]; [|exact C].
    cbn [snd] in F.
    assert (C1 : consistent dm1) by (apply (consistent_core F), C).
    match goal with |- context [if ?b then _ else _] => destruct b end;
      by_core C1.
  - match goal with |- context [if ?b then _ else _] => destruct b end;
      [|exact C].
    by_core C.
Qed.

Lemma consistent_map_click (stop : bool) (dm : t) :
  consistent dm -> consistent (map_click stop dm).
Proof.
  intros C. unfold map_click.
  destruct (negb (isDrawing dm) && negb stop);
    [apply consistent_deselectShape, C|exact C].
Qed.

Lemma consistent_deleteShape (k : string) (dm : t) :
  consistent dm -> consistent (deleteShape k dm).
Proof.
  intros C. unfold deleteShape.
  destruct (JSMap.get k (shapes dm)); [|exact C].
  apply consistent__removeShape, consistent_history_push, C.
Qed.

Lemma consistent_fold (A : Type) (f : A -> t -> t) (l : list A) (dm : t) :
  (forall a d, consistent d -> consistent (f a d)) ->
  consistent dm -> consistent (fold_left (fun d a => f a d) l dm).
Proof.
  intros H. revert dm. induction l as [|a l IH]; intros dm C; [exact C|].
  cbn [fold_left]. apply IH, H, C.
Qed.

Lemma consistent_clearAll (dm : t) :
  consistent dm -> consistent (clearAll dm).
Proof.
  intros C. unfold clearAll.
  destruct (JSMap.size (shapes dm) =? 0)%nat; [exact C|].
  apply consistent_emit.
  apply (consistent_fold _removeShape).
  - intros. apply consistent__removeShape. assumption.
  - apply consistent_history_push, C.
Qed.

Lemma consistent_call_undo (a : Action) (dm : t) :
  consistent dm -> consistent (fst (call_undo a dm)).
Proof.
  intros C. destruct a as [k data|data k|all]; cbn [call_undo fst].
  - apply consistent__removeShape, C.
  - apply consistent__restoreShape, C.
  - apply (consistent_fold _restoreShape); [|exact C].
    intros. apply consistent__restoreShape. assumption.
Qed.

Lemma consistent_call_redo (a : Action) (dm : t) :
  consistent dm -> consistent (fst (call_redo a dm)).
Proof.
  intros C. destruct a as [k data|data k|all]; cbn [call_redo fst].
  - apply consistent__restoreShape, C.
  - apply consistent__removeShape, C.
  - apply (consistent_fold _removeShape); [|exact C].
    intros. apply consistent__removeShape. assumption.
Qed.

Lemma consistent_undo (dm : t) : consistent dm -> consistent (undo dm).
Proof.
  intros C. unfold undo, History.undo.
  destruct (negb (History.canUndo (history dm))); [by_core C|].
  destruct (History.at_index _ _) as [a|]; [|by_core C].
  pose proof (consistent_call_undo a C) as U.
  destruct (call_undo a dm) as [dm1 [|]]; cbn [fst] in U; by_core U.
Qed.

Lemma consistent_redo (dm : t) : consistent dm -> consistent (redo dm).
Proof.
  intros C. unfold redo, History.redo.
  destruct (negb (History.canRedo (history dm))); [by_core C|].
  destruct (History.at_index _ _) as [a|]; [|by_core C].
  pose proof (consistent_call_redo a C) as U.
  destruct (call_redo a dm) as [dm1 [|]]; cbn [fst] in U; by_core U.
Qed.

Lemma consistent_updateShapeName (k newName : string) (dm : t) :
  consistent dm -> consistent (updateShapeName k newName dm).
Proof.
  intros C. unfold updateShapeName.
  destruct (JSMap.get k (shapes dm)) as [shape|] eqn:G; [|exact C].
  apply consistent_emit.
  eapply consistent_core; [apply core__updateLabel|].
  apply (@consistent_replace dm _ k shape
           (mkShape (id shape) newName (geometry shape) (area shape)
                    (obj shape))
           (Snap.shapes (snapEngine dm)) C G eq_refl eq_refl eq_refl
           (or_introl eq_refl)).
  core_refl.
Qed.

Lemma consistent_setSnapping (e : option bool) (n : option R) (dm : t) :
  consistent dm -> consistent (setSnapping e n dm).
Proof. apply consistent_core, core_setSnapping. Qed.

Lemma refreshed_same (path : list Point) (shape : Shape) :
  id (refreshed path shape) = id shape /\
  obj (refreshed path shape) = obj shape /\
  type_of (geometry (refreshed path shape)) = type_of (geometry shape).
Proof.
  unfold refreshed.
  destruct (geometry shape) eqn:E; cbn [id obj geometry]; rewrite ?E;
    repeat split.
Qed.

Lemma consistent__updateShapeData (k : string) (shape : Shape) (dm : t) :
  consistent dm -> JSMap.get k (shapes dm) = Some shape ->
  consistent (_updateShapeData shape dm).
Proof.
  intros C G. unfold _updateShapeData.
  destruct (refreshed_same (getPath dm shape) shape) as (Ri & Ro & Rt).
  set (shape' := refreshed (getPath dm shape) shape) in *.
  assert (K : id shape = k) by (apply (key_is_id C), G).
  apply consistent_emit.
  eapply consistent_core; [apply core__updateLabel|].
  apply (@consistent_replace dm _ k shape shape'
           (JSMap.set k (entry_of shape')
              (JSMap.delete k (Snap.shapes (snapEngine dm))))
           C G Ri Ro Rt (or_intror eq_refl)).
  unfold mutate_shape, Snap.addShape, Snap.removeShape.
  rewrite Ri, K. rewrite (@has_of_get _ k (shapes dm) shape G).
  unfold entry_of. rewrite Ri, K. reflexivity.
Qed.

Lemma consistent_apply_drag (shape : Shape) (index : nat) (latLng : Point)
    (snap : option Snap.SnapResult) (setMarker : Point -> t -> t) (dm : t) :
  (forall p d, core (setMarker p d) = core d) ->
  consistent dm ->
  consistent (apply_drag shape index latLng snap setMarker dm).
Proof.
  intros H C. unfold apply_drag. destruct snap as [s|].
  - apply consistent_emit, consistent_update_path.
    apply (consistent_core (H _ _)), C.
  - apply consistent_emit.
    eapply consistent_core; [apply core_hideIndicator|].
    apply consistent_update_path, C.
Qed.

Lemma consistent_vertex_drag (k : string) (i : nat) (p : Point) (dm : t) :
  consistent dm -> consistent (vertex_drag k i p dm).
Proof.
  intros C. unfold vertex_drag.
  destruct (JSMap.get k (shapes dm)) as [shape|]; [|exact C].
  pose proof (core_drag_snap shape p dm) as S.
  destruct (drag_snap shape p dm) as [[snap|] dm1]; [|exact C].
  cbn [snd] in S.
  eapply consistent_core; [apply core__updateMidpointPositions|].
  apply consistent_apply_drag.
  - intros. apply core_move_vertexMarker.
  - apply (consistent_core S), C.
Qed.

Lemma consistent_vertex_dragend (k : string) (i : nat) (dm : t) :
  consistent dm -> consistent (vertex_dragend k i dm).
Proof.
  intros C. unfold vertex_dragend.
  destruct (JSMap.get k (shapes dm)) as [shape|] eqn:G; [|exact C].
  apply consistent_emit.
  eapply consistent_core; [apply core_hideIndicator|].
  apply (@consistent__updateShapeData k shape dm C G).
Qed.

Lemma consistent_midpoint_dragstart (k : string) (i : nat) (dm : t) :
  consistent dm -> consistent (midpoint_dragstart k i dm).
Proof.
  intros C. unfold midpoint_dragstart.
  destruct (JSMap.get k (shapes dm)) as [shape|]; [|exact C].
  destruct (midpointMarker k i dm) as [m|]; [|exact C].
  apply consistent_update_path.
  apply (consistent_core (core_set_midpointMarker _ _ _ _)), C.
Qed.

Lemma consistent_midpoint_drag (k : string) (i : nat) (p : Point) (dm : t) :
  consistent dm -> consistent (midpoint_drag k i p dm).
Proof.
  intros C. unfold midpoint_drag.
  destruct (JSMap.get k (shapes dm)) as [shape|]; [|exact C].
  destruct (midpointMarker k i dm) as [m|]; [|exact C].
  destruct (insertedIndex m) as [inserted|]; [|exact C].
  pose proof (core_drag_snap shape p dm) as S.
  destruct (drag_snap shape p dm) as [[snap|] dm1]; [|exact C].
  cbn [snd] in S.
  apply consistent_apply_drag.
  - intros. apply core_set_midpointMarker.
  - apply (consistent_core S), C.
Qed.

Lemma consistent__rebuildMarkers (k : string) (shape : Shape) (dm : t) :
  consistent dm -> JSMap.get k (shapes dm) = Some shape ->
  consistent (_rebuildMarkers shape dm).
Proof.
  intros C G. unfold _rebuildMarkers.
  match goal with
  | |- consistent (_updateShapeData shape ?d) =>
      assert (E : core d = core dm)
  end.
  { destruct (match selectedShapeId dm with
              | Some s => String.eqb s (id shape)
              | None => false
              end);
      rewrite ?core__showMarkers, core__createVertexMarkers;
      apply core__removeMarkers. }
  apply (@consistent__updateShapeData k).
  - apply (consistent_core E), C.
  - unfold core in E. inversion E as [[E1 E2 E3]]. rewrite E1. exact G.
Qed.

Lemma consistent_midpoint_dragend (k : string) (i : nat) (dm : t) :
  consistent dm -> consistent (midpoint_dragend k i dm).
Proof.
  intros C. unfold midpoint_dragend.
  destruct (JSMap.get k (shapes dm)) as [shape|] eqn:G; [|exact C].
  destruct (midpointMarker k i dm) as [m|]; [|exact C].
  apply consistent_emit.
  eapply consistent_core; [apply core_hideIndicator|].
  apply (@consistent__rebuildMarkers k shape dm C G).
Qed.

Lemma consistent_keydown (ctrlKey shiftKey : bool) (key : string) (dm : t) :
  consistent dm -> consistent (keydown ctrlKey shiftKey key dm).
Proof.
  intros C. unfold keydown.
  set (dm1 := if ctrlKey && String.eqb key "z" && negb shiftKey
              then undo dm else dm).
  assert (C1 : consistent dm1).
  { unfold dm1. destruct (_ && _); [apply consistent_undo, C|exact C]. }
  clearbody dm1.
  set (dm2 := if ctrlKey && (String.eqb key "y" ||
                             (shiftKey && String.eqb key "z"))
              then redo dm1 else dm1).
  assert (C2 : consistent dm2).
  { unfold dm2. destruct (_ && _); [apply consistent_redo, C1|exact C1]. }
  clearbody dm2.
  set (dm3 := if String.eqb key "Escape" && isDrawing dm2
              then stopDrawing dm2 else dm2).
  assert (C3 : consistent dm3).
  { unfold dm3. destruct (_ && _);
      [apply consistent_stopDrawing, C2|exact C2]. }
  clearbody dm3.
  set (dm4 := if String.eqb key "Enter" && isDrawing dm3
              then completeDrawing dm3 else dm3).
  assert (C4 : consistent dm4).
  { unfold dm4. destruct (_ && _);
      [apply consistent_completeDrawing, C3|exact C3]. }
  clearbody dm4.
  destruct (_ || _); [|exact C4].
  destruct (selectedShapeId dm4) as [sel|]; [|exact C4].
  destruct (truthy sel); [apply consistent_deleteShape, C4|exact C4].
Qed.

Lemma consistent_new (m : Map) (opts : Options) : consistent (new m opts).
Proof.
  constructor.
  - constructor.
  - unfold new. cbn [snapEngine].
    destruct (snapping_enabled opts); cbn; constructor.
  - intros k. unfold new. cbn [snapEngine shapes].
    destruct (snapping_enabled opts); reflexivity.
  - intros k shape H. discriminate H.
  - intros k shape H. discriminate H.
Qed.

Lemma consistent_apply (o : Op) (dm : t) :
  consistent dm -> consistent (apply o dm).
Proof.
  intros C. destruct o; cbn [apply].
  - apply consistent_startDrawing, C.
  - apply consistent_stopDrawing, C.
  - apply consistent_completeDrawing, C.
  - destruct (_drawingListeners dm);
      [apply consistent_drawing_click, C|exact C].
  - destruct (_drawingListeners dm);
      [apply consistent_drawing_mousemove, C|exact C].
  - apply consistent_map_click, C.
  - apply consistent_selectShape, C.
  - apply consistent_deselectShape, C.
  - apply consistent_deleteShape, C.
  - apply consistent_clearAll, C.
  - apply consistent_undo, C.
  - apply consistent_redo, C.
  - apply consistent_updateShapeName, C.
  - apply consistent_setSnapping, C.
  - destruct (vertexMarker _ _ _); [apply consistent_vertex_drag, C|exact C].
  - destruct (vertexMarker _ _ _);
      [apply consistent_vertex_dragend, C|exact C].
  - destruct (midpointMarker _ _ _);
      [apply consistent_midpoint_dragstart, C|exact C].
  - destruct (midpointMarker _ _ _);
      [apply consistent_midpoint_drag, C|exact C].
  - destruct (midpointMarker _ _ _);
      [apply consistent_midpoint_dragend, C|exact C].
  - apply consistent_keydown, C.
Qed.

Lemma consistent_run (ops : list Op) (dm : t) :
  consistent dm -> consistent (run ops dm).
Proof. apply (consistent_fold apply), consistent_apply. Qed.

(** X23. In every session the snap engine holds an entry for exactly the
    shapes of the registry, each under its id and with the overlay of
    the shape, which exists and has the getters of its type. *)
Theorem registry_and_engine_agree (m : Map) (opts : Options)
    (ops : list Op) :
  consistent (run ops (new m opts)).
Proof. apply consistent_run, consistent_new. Qed.

Lemma shapeEdges_fits (shape : Shape) (o : Overlay) :
  fits (geometry shape) (geom o) = true ->
  exists es, Snap.shapeEdges (id shape) (type_of (geometry shape)) o = Ok es.
Proof.
  unfold Snap.shapeEdges.
  destruct (geometry shape), (geom o); cbn [fits type_of]; try discriminate;
    intros _; cbn; eexists; reflexivity.
Qed.

Lemma edgesOf_total (dm : t) (x : option string)
    (entries : list (string * Snap.Entry)) :
  consistent dm ->
  (forall k e, In (k, e) entries ->
     exists shape, JSMap.get k (shapes dm) = Some shape /\
                   e = entry_of shape) ->
  exists es, Snap.edgesOf (store dm) entries x = Ok es.
Proof.
  intros C. induction entries as [|[k e] rest IH]; intros H.
  - exists []. reflexivity.
  - cbn [Snap.edgesOf].
    destruct IH as (es' & E');
      [intros k' e' I; apply H; right; exact I|].
    destruct (Snap.is_excluded k x); [exists es'; exact E'|].
    destruct (H k e (or_introl eq_refl)) as (shape & G & ->).
    destruct (overlay_fits C _ G) as (o & D & F).
    cbn [entry_of Snap.en_obj Snap.en_type]. rewrite D.
    assert (K : id shape = k) by (apply (key_is_id C), G).
    destruct (shapeEdges_fits shape o F) as (es & S).
    rewrite K in S. rewrite S, E'. eexists. reflexivity.
Qed.

Lemma get_of_in (V : Type) (k : string) (v : V) (m : JSMap.t V) :
  NoDup (JSMap.keys m) -> In (k, v) m -> JSMap.get k m = Some v.
Proof.
  induction m as [|[k0 v0] m IH]; cbn [JSMap.keys List.map fst In JSMap.get];
    intros N I; [destruct I|].
  inversion N as [|? ? N1 N2]; subst.
  destruct I as [I|I].
  - inversion I; subst. rewrite String.eqb_refl. reflexivity.
  - destruct (String.eqb k k0) eqn:E.
    + apply String.eqb_eq in E. subst k0. exfalso. apply N1.
      apply (in_map fst) in I. exact I.
    + apply IH; assumption.
Qed.

Lemma getAllEdges_total (dm : t) (x : option string) :
  consistent dm ->
  exists es, Snap._getAllEdges (store dm) (snapEngine dm) x = Ok es.
Proof.
  intros C. unfold Snap._getAllEdges. apply edgesOf_total; [exact C|].
  intros k e I.
  pose proof (get_of_in _ _ _ (engine_keys_once C) I) as G.
  rewrite (engine_entries C) in G.
  destruct (JSMap.get k (shapes dm)) as [shape|]; [|discriminate G].
  exists shape. split; [reflexivity|]. cbn in G. congruence.
Qed.

(** X24. In no session does a snap query fail: the overlay of every entry of
    the engine has the getters its type asks for, so that
    [_getAllEdges] returns its edges and [findSnapPoint] returns a
    result or [null], for every point and every excluded id. *)
Theorem snap_query_never_throws (m : Map) (opts : Options) (ops : list Op)
    (point : Point) (x : option string) :
  let dm := run ops (new m opts) in
  (exists es, Snap._getAllEdges (store dm) (snapEngine dm) x = Ok es) /\
  exists r, Snap.snapOf (store dm) (snapEngine dm) point x = Ok r.
Proof.
  cbv zeta. set (dm := run ops (new m opts)).
  assert (C : consistent dm) by apply consistent_run, consistent_new.
  destruct (getAllEdges_total x C) as (es & E).
  split; [exists es; exact E|].
  unfold Snap.snapOf, Snap.findSnapPoint. rewrite E.
  repeat match goal with
         | |- context [match ?b with _ => _ end] => destruct b
         end; cbn [fst]; eexists; reflexivity.
Qed.

End SessionFacts.

(* ================================================================== *)
(** * Undo and redo of the operations on shapes *)
(* ================================================================== *)

Module UndoFacts.

Import Geometry GoogleMaps Drawing Session JSMapFacts SessionFacts.
Local Open Scope string_scope.

(** ** The history during a session *)

(** From [h] to [h']: the bound is kept and the index stays inside. *)
Abbreviation advances h h' :=
  ((History.index_ok h -> History.index_ok h') /\
   History.maxSteps h' = History.maxSteps h).

Lemma advances_refl (h h' : History.t Action) : h' = h -> advances h h'.
Proof. intros ->. split; [tauto|reflexivity]. Qed.

Lemma advances_trans (h1 h2 h3 : History.t Action) :
  advances h1 h2 -> advances h2 h3 -> advances h1 h3.
Proof. intros [A1 A2] [B1 B2]. split; [tauto|congruence]. Qed.

Lemma history_set_draggableCursor (v : option string) (dm : t) :
  history (set_draggableCursor v dm) = history dm.
Proof. reflexivity. Qed.

Lemma history_set_selectedShapeId (v : option string) (dm : t) :
  history (set_selectedShapeId v dm) = history dm.
Proof. reflexivity. Qed.

Lemma history_set_isDrawing (v : bool) (dm : t) :
  history (set_isDrawing v dm) = history dm.
Proof. reflexivity. Qed.

Lemma history_set_drawingType (v : option string) (dm : t) :
  history (set_drawingType v dm) = history dm.
Proof. reflexivity. Qed.

Lemma history_set_drawingPath (v : list Point) (dm : t) :
  history (set_drawingPath v dm) = history dm.
Proof. reflexivity. Qed.

Lemma history_set_lastSnapPoint (v : option Point) (dm : t) :
  history (set_lastSnapPoint v dm) = history dm.
Proof. reflexivity. Qed.

Lemma history_set__drawingListeners (v : bool) (dm : t) :
  history (set__drawingListeners v dm) = history dm.
Proof. reflexivity. Qed.

Lemma history_set_store (v : Store) (dm : t) :
  history (set_store v dm) = history dm.
Proof. reflexivity. Qed.

Lemma history_set_shapes (v : JSMap.t Shape) (dm : t) :
  history (set_shapes v dm) = history dm.
Proof. reflexivity. Qed.

Lemma history_set_snapEngine (v : Snap.t) (dm : t) :
  history (set_snapEngine v dm) = history dm.
Proof. reflexivity. Qed.

Lemma history_deselectShape (dm : t) :
  history (deselectShape dm) = history dm.
Proof.
  unfold deselectShape.
  destruct (selectedShapeId dm) as [sel|]; [|reflexivity].
  destruct (truthy sel); [|reflexivity].
  rewrite DrawingFacts.history_emit. DrawingFacts.fields.
  destruct (JSMap.get sel (shapes (_hideMarkers sel dm)));
    unfold restyle; DrawingFacts.fields;
    apply DrawingFacts.history__hideMarkers.
Qed.

Lemma history_selectShape (k : string) (dm : t) :
  history (selectShape k dm) = history dm.
Proof.
  unfold selectShape.
  destruct (match selectedShapeId dm with
            | Some s => String.eqb s k
            | None => false
            end); [reflexivity|].
  match goal with
  | |- history (match JSMap.get k (shapes (set_selectedShapeId _ ?d))
                with _ => _ end) = _ =>
      assert (H : history d = history dm)
  end.
  { destruct (selectedShapeId dm) as [sel|]; [|reflexivity].
    destruct (truthy sel); [|reflexivity].
    destruct (JSMap.get sel (shapes (_hideMarkers sel dm)));
      unfold restyle; DrawingFacts.fields;
      apply DrawingFacts.history__hideMarkers. }
  match goal with
  | |- history (match ?x with _ => _ end) = _ => destruct x
  end.
  - rewrite DrawingFacts.history_emit, DrawingFacts.history__showMarkers.
    unfold restyle. DrawingFacts.fields. exact H.
  - DrawingFacts.fields. exact H.
Qed.

Lemma history_stopDrawing (dm : t) : history (stopDrawing dm) = history dm.
Proof. reflexivity. Qed.

Lemma history_startDrawing (type : string) (dm : t) :
  history (startDrawing type dm) = history dm.
Proof.
  unfold startDrawing.
  rewrite DrawingFacts.history_emit, history_set__drawingListeners,
    history_set_draggableCursor, history_deselectShape,
    history_set_lastSnapPoint, history_set_drawingPath,
    history_set_drawingType, history_set_isDrawing.
  destruct (isDrawing dm); reflexivity.
Qed.

Lemma history__removeLabel (k : string) (dm : t) :
  history (_removeLabel k dm) = history dm.
Proof. unfold _removeLabel. DrawingFacts.keeps_history. Qed.

Lemma history__removeShape (k : string) (dm : t) :
  history (_removeShape k dm) = history dm.
Proof.
  unfold _removeShape. destruct (JSMap.get k (shapes dm)); [|reflexivity].
  rewrite DrawingFacts.history_emit.
  match goal with
  | |- history (match ?x with _ => _ end) = _ => destruct x as [sel|]
  end; [destruct (String.eqb sel k)|]; DrawingFacts.fields;
    rewrite history__removeLabel; reflexivity.
Qed.

Lemma history__restoreShape (data : ShapeData) (dm : t) :
  history (_restoreShape data dm) = history dm.
Proof.
  unfold _restoreShape, alloc. rewrite DrawingFacts.history_emit.
  unfold _createLabel. DrawingFacts.fields.
  match goal with |- context [if ?b then _ else _] => destruct b end;
    reflexivity.
Qed.

Lemma history_history_push (a : Action) (dm : t) :
  history (history_push a dm) = History.pushed a (history dm).
Proof. reflexivity. Qed.

Lemma advances_pushed (a : Action) (h : History.t Action) :
  advances h (History.pushed a h).
Proof.
  split; [apply HistoryFacts.pushed_index_ok|apply HistoryFacts.pushed_maxSteps].
Qed.

Lemma history__registerShape (shape : Shape) (dm : t) :
  history (_registerShape shape dm) =
  History.pushed (ActCreate (id shape) (_serialize shape)) (history dm).
Proof.
  unfold _registerShape. rewrite DrawingFacts.history_emit.
  rewrite history_history_push. f_equal.
  unfold _createLabel. DrawingFacts.fields.
  match goal with |- context [if ?b then _ else _] => destruct b end;
    reflexivity.
Qed.

Lemma advances_completeDrawing (dm : t) :
  advances (history dm) (history (completeDrawing dm)).
Proof.
  unfold completeDrawing.
  destruct (negb (isDrawing dm)); [apply advances_refl; reflexivity|].
  destruct (length_lt (length (drawingPath dm)) (minPoints (drawingType dm)));
    [apply advances_refl; reflexivity|].
  unfold _createShape.
  match goal with
  | |- context [shape_of_drawing ?ty ?p] =>
      destruct (shape_of_drawing ty p) as [[g a]|]
  end; [|apply advances_refl; reflexivity].
  unfold alloc. rewrite history_stopDrawing, DrawingFacts.history_emit.
  rewrite history__registerShape. DrawingFacts.fields.
  apply advances_pushed.
Qed.

Lemma advances__handleDrawingClick (pt : Point) (dm : t) :
  advances (history dm) (history (_handleDrawingClick pt dm)).
Proof.
  unfold _handleDrawingClick.
  destruct (_ || _); [apply advances_refl; reflexivity|].
  destruct (_ || _); [|apply advances_refl; reflexivity].
  match goal with |- context [if ?b then _ else _] => destruct b end;
    [apply advances_refl; reflexivity|].
  match goal with
  | |- advances _ (history (completeDrawing ?d)) =>
      apply (advances_completeDrawing d)
  end.
Qed.

Lemma history_drawing_mousemove (latLng : Point) (dm : t) :
  history (drawing_mousemove latLng dm) = history dm.
Proof.
  unfold drawing_mousemove.
  destruct (snapping_enabled (options dm)).
  - pose proof (DrawingFacts.history_findSnapPoint latLng None dm) as F.
    destruct (findSnapPoint latLng None dm) as [[snap|] dm1]; [|reflexivity].
    cbn [snd] in F.
    match goal with |- context [if ?b then _ else _] => destruct b end;
      exact F.
  - match goal with |- context [if ?b then _ else _] => destruct b end;
      reflexivity.
Qed.

Lemma advances_deleteShape (k : string) (dm : t) :
  advances (history dm) (history (deleteShape k dm)).
Proof.
  unfold deleteShape.
  destruct (JSMap.get k (shapes dm)); [|apply advances_refl; reflexivity].
  rewrite history__removeShape, history_history_push. apply advances_pushed.
Qed.

Lemma history_fold (A : Type) (f : A -> t -> t) (l : list A) (dm : t) :
  (forall a d, history (f a d) = history d) ->
  history (fold_left (fun d a => f a d) l dm) = history dm.
Proof.
  intros H. revert dm. induction l as [|a l IH]; intros dm; [reflexivity|].
  cbn [fold_left]. rewrite IH. apply H.
Qed.

Lemma advances_clearAll (dm : t) :
  advances (history dm) (history (clearAll dm)).
Proof.
  unfold clearAll.
  destruct (JSMap.size (shapes dm) =? 0)%nat;
    [apply advances_refl; reflexivity|].
  rewrite DrawingFacts.history_emit.
  rewrite (history_fold _removeShape) by apply history__removeShape.
  rewrite history_history_push. apply advances_pushed.
Qed.

Lemma advances_undo (dm : t) : advances (history dm) (history (undo dm)).
Proof.
  unfold undo.
  pose proof (HistoryFacts.undo_shape call_undo onChange (history dm) dm) as U.
  destruct (History.undo call_undo onChange (history dm) dm) as [[h dm'] ok].
  destruct U as (U1 & _ & _ & U2). split; assumption.
Qed.

Lemma advances_redo (dm : t) : advances (history dm) (history (redo dm)).
Proof.
  unfold redo.
  pose proof (HistoryFacts.redo_shape call_redo onChange (history dm) dm) as U.
  destruct (History.redo call_redo onChange (history dm) dm) as [[h dm'] ok].
  destruct U as (U1 & _ & U2). split; assumption.
Qed.

Lemma history_updateShapeName (k newName : string) (dm : t) :
  history (updateShapeName k newName dm) = history dm.
Proof.
  unfold updateShapeName. destruct (JSMap.get k (shapes dm)); [|reflexivity].
  rewrite DrawingFacts.history_emit, DrawingFacts.history__updateLabel.
  reflexivity.
Qed.

Lemma history_setSnapping (e : option bool) (n : option R) (dm : t) :
  history (setSnapping e n dm) = history dm.
Proof. destruct e as [[|]|], n; reflexivity. Qed.

Lemma advances_keydown (ctrlKey shiftKey : bool) (key : string) (dm : t) :
  advances (history dm) (history (keydown ctrlKey shiftKey key dm)).
Proof.
  unfold keydown.
  set (dm1 := if ctrlKey && String.eqb key "z" && negb shiftKey
              then undo dm else dm).
  assert (A1 : advances (history dm) (history dm1)).
  { unfold dm1. destruct (_ && _);
      [apply advances_undo|apply advances_refl; reflexivity]. }
  clearbody dm1.
  set (dm2 := if ctrlKey && (String.eqb key "y" ||
                             (shiftKey && String.eqb key "z"))
              then redo dm1 else dm1).
  assert (A2 : advances (history dm1) (history dm2)).
  { unfold dm2. destruct (_ && _);
      [apply advances_redo|apply advances_refl; reflexivity]. }
  clearbody dm2.
  set (dm3 := if String.eqb key "Escape" && isDrawing dm2
              then stopDrawing dm2 else dm2).
  assert (A3 : advances (history dm2) (history dm3)).
  { unfold dm3. destruct (_ && _); apply advances_refl; reflexivity. }
  clearbody dm3.
  set (dm4 := if String.eqb key "Enter" && isDrawing dm3
              then completeDrawing dm3 else dm3).
  assert (A4 : advances (history dm3) (history dm4)).
  { unfold dm4. destruct (_ && _);
      [apply advances_completeDrawing|apply advances_refl; reflexivity]. }
  clearbody dm4.
  assert (A : advances (history dm) (history dm4)).
  { eapply advances_trans; [exact A1|].
    eapply advances_trans; [exact A2|].
    eapply advances_trans; [exact A3|exact A4]. }
  destruct (_ || _); [|exact A].
  destruct (selectedShapeId dm4) as [sel|]; [|exact A].
  destruct (truthy sel); [|exact A].
  eapply advances_trans; [exact A|apply advances_deleteShape].
Qed.

Lemma advances_apply (o : Op) (dm : t) :
  advances (history dm) (history (apply o dm)).
Proof.
  destruct o; cbn [apply].
  - apply advances_refl, history_startDrawing.
  - apply advances_refl, history_stopDrawing.
  - apply advances_completeDrawing.
  - destruct (_drawingListeners dm); [|apply advances_refl; reflexivity].
    unfold drawing_click. destruct (negb (isDrawing dm));
      [apply advances_refl; reflexivity|apply advances__handleDrawingClick].
  - destruct (_drawingListeners dm); [|apply advances_refl; reflexivity].
    apply advances_refl, history_drawing_mousemove.
  - unfold map_click. destruct (_ && _);
      [apply advances_refl, history_deselectShape
      |apply advances_refl; reflexivity].
  - apply advances_refl, history_selectShape.
  - apply advances_refl, history_deselectShape.
  - apply advances_deleteShape.
  - apply advances_clearAll.
  - apply advances_undo.
  - apply advances_redo.
  - apply advances_refl, history_updateShapeName.
  - apply advances_refl, history_setSnapping.
  - destruct (vertexMarker _ _ _); [|apply advances_refl; reflexivity].
    apply advances_refl, DrawingFacts.history_vertex_drag.
  - destruct (vertexMarker _ _ _); [|apply advances_refl; reflexivity].
    apply advances_refl, DrawingFacts.history_vertex_dragend.
  - destruct (midpointMarker _ _ _); [|apply advances_refl; reflexivity].
    apply advances_refl, DrawingFacts.history_midpoint_dragstart.
  - destruct (midpointMarker _ _ _); [|apply advances_refl; reflexivity].
    apply advances_refl, DrawingFacts.history_midpoint_drag.
  - destruct (midpointMarker _ _ _); [|apply advances_refl; reflexivity].
    apply advances_refl, DrawingFacts.history_midpoint_dragend.
  - apply advances_keydown.
Qed.

Lemma advances_run (ops : list Op) (dm : t) :
  advances (history dm) (history (run ops dm)).
Proof.
  revert dm. induction ops as [|o ops IH]; intros dm;
    [apply advances_refl; reflexivity|].
  cbn [run fold_left]. eapply advances_trans; [apply advances_apply|].
  apply IH.
Qed.

Lemma history_new (m : Map) (opts : Options) :
  History.index_ok (history (new m opts)) /\
  ((0 <= history_maxSteps opts)%Z ->
   (1 <= History.maxSteps (history (new m opts)))%Z).
Proof.
  unfold new. cbn [history]. split.
  - unfold History.index_ok, History.len. cbn. lia.
  - intros H. cbn [History.new History.maxSteps].
    destruct (history_maxSteps opts =? 0)%Z eqn:E; [lia|].
    apply Z.eqb_neq in E. lia.
Qed.

(** The state of a session: what the invariants of the registry and of
    the history give for it. *)
Lemma session_state (m : Map) (opts : Options) (ops : list Op) :
  (0 <= history_maxSteps opts)%Z ->
  consistent (run ops (new m opts)) /\
  History.index_ok (history (run ops (new m opts))) /\
  (1 <= History.maxSteps (history (run ops (new m opts))))%Z.
Proof.
  intros H. split; [apply consistent_run, consistent_new|].
  destruct (advances_run ops (new m opts)) as [A1 A2].
  destruct (history_new m opts) as [N1 N2].
  split; [apply A1, N1|]. rewrite A2. apply N2, H.
Qed.

(** ** The registry under the steps of undo and redo *)

Lemma delete_absent (V : Type) (k : string) (m : JSMap.t V) :
  JSMap.get k m = None -> JSMap.delete k m = m.
Proof.
  induction m as [|[k0 v0] m IH]; cbn [JSMap.get JSMap.delete];
    [reflexivity|].
  destruct (String.eqb k k0); [discriminate|].
  intros H. rewrite IH by exact H. reflexivity.
Qed.

Lemma set_absent (V : Type) (k : string) (v : V) (m : JSMap.t V) :
  ~ In k (JSMap.keys m) -> JSMap.set k v m = (m ++ [(k, v)])%list.
Proof.
  induction m as [|[k0 v0] m IH];
    cbn [JSMap.set JSMap.keys List.map fst In app]; intros N; [reflexivity|].
  destruct (String.eqb k k0) eqn:E.
  - apply String.eqb_eq in E. subst k0. exfalso. apply N. left. reflexivity.
  - rewrite IH; [reflexivity|]. intros I. apply N. right. exact I.
Qed.

Lemma shapes__removeLabel (k : string) (dm : t) :
  shapes (_removeLabel k dm) = shapes dm.
Proof. unfold _removeLabel. destruct (JSMap.get k (_labels dm)); reflexivity. Qed.

Lemma shapes__removeShape (k : string) (dm : t) :
  shapes (_removeShape k dm) = JSMap.delete k (shapes dm).
Proof.
  unfold _removeShape.
  destruct (JSMap.get k (shapes dm)) as [shape|] eqn:G.
  - match goal with
    | |- shapes (emit _ (match ?x with _ => _ end)) = _ =>
        destruct x as [sel|]
    end; [destruct (String.eqb sel k)|]; SessionFacts.core_fields;
      rewrite shapes__removeLabel; reflexivity.
  - symmetry. apply delete_absent, G.
Qed.

Lemma shapes__restoreShape (data : ShapeData) (dm : t) :
  shapes (_restoreShape data dm) =
  JSMap.set (d_id data)
    (mkShape (d_id data) (d_name data) (d_geometry data) (d_area data)
             (length (store dm)))
    (shapes dm).
Proof.
  unfold _restoreShape, alloc.
  match goal with |- context [if ?b then _ else _] => destruct b end;
    reflexivity.
Qed.

Lemma getShapeById__removeShape (k k' : string) (dm : t) :
  consistent dm ->
  getShapeById k' (_removeShape k dm) =
  if String.eqb k' k then None else getShapeById k' dm.
Proof.
  intros C. unfold getShapeById.
  rewrite shapes__removeShape, get_delete by apply (keys_once C).
  destruct (String.eqb k' k); reflexivity.
Qed.

Lemma getShapeById__restoreShape (data : ShapeData) (k' : string) (dm : t) :
  getShapeById k' (_restoreShape data dm) =
  if String.eqb k' (d_id data) then Some data else getShapeById k' dm.
Proof.
  unfold getShapeById. rewrite shapes__restoreShape, get_set.
  destruct (String.eqb k' (d_id data)); [|reflexivity].
  destruct data; reflexivity.
Qed.

(** [undo()] and [redo()] of the manager when the history has an entry
    to run: the callbacks of the entries and the subscriber return. *)
Lemma undo_runs (a : Action) (dm : t) :
  History.at_index (History.history (history dm))
                   (History.currentIndex (history dm)) = Some a ->
  exists h' e,
    undo dm = set_history h' (emit e (fst (call_undo a dm))) /\
    History.history h' = History.history (history dm) /\
    History.maxSteps h' = History.maxSteps (history dm) /\
    History.currentIndex h' = (History.currentIndex (history dm) - 1)%Z.
Proof.
  intros A. unfold undo, History.undo, History.canUndo.
  assert (P : (0 <=? History.currentIndex (history dm))%Z = true).
  { unfold History.at_index in A.
    destruct (History.currentIndex (history dm) <? 0)%Z eqn:E;
      [discriminate A|].
    apply Z.ltb_ge in E. apply Z.leb_le. exact E. }
  rewrite P, A. cbn [negb].
  assert (R : call_undo a dm = (fst (call_undo a dm), Returned))
    by (destruct a; reflexivity).
  rewrite R. unfold History._notifyChange, onChange.
  eexists. eexists. split; [reflexivity|]. repeat split.
Qed.

Lemma redo_runs (a : Action) (dm : t) :
  (History.currentIndex (history dm) <
   History.len (history dm) - 1)%Z ->
  History.at_index (History.history (history dm))
                   (History.currentIndex (history dm) + 1) = Some a ->
  exists h' e,
    redo dm = set_history h' (emit e (fst (call_redo a dm))) /\
    History.history h' = History.history (history dm) /\
    History.maxSteps h' = History.maxSteps (history dm) /\
    History.currentIndex h' = (History.currentIndex (history dm) + 1)%Z.
Proof.
  intros L A. unfold redo, History.redo, History.canRedo.
  apply Z.ltb_lt in L. rewrite L. cbn [negb].
  cbn [History.set_index History.history History.currentIndex].
  rewrite A.
  assert (R : call_redo a dm = (fst (call_redo a dm), Returned))
    by (destruct a; reflexivity).
  rewrite R. unfold History._notifyChange, onChange.
  eexists. eexists. split; [reflexivity|]. repeat split.
Qed.

(** After a [push] and the [undo] of the entry, [redo] finds it. *)
Lemma pushed_then (a : Action) (h : History.t Action) :
  History.index_ok h -> (1 <= History.maxSteps h)%Z ->
  History.at_index (History.history (History.pushed a h))
                   (History.currentIndex (History.pushed a h)) = Some a /\
  (History.currentIndex (History.pushed a h) - 1 <
   History.len (History.pushed a h) - 1)%Z /\
  History.at_index (History.history (History.pushed a h))
                   (History.currentIndex (History.pushed a h) - 1 + 1)
  = Some a.
Proof.
  intros I M. pose proof (HistoryFacts.pushed_points_at a I M) as P.
  pose proof (HistoryFacts.pushed_tail a I) as T.
  split; [exact P|]. split; [lia|].
  replace (History.currentIndex (History.pushed a h) - 1 + 1)%Z
    with (History.currentIndex (History.pushed a h)) by lia.
  exact P.
Qed.

(** What [undo] and then [redo] do after an operation that has pushed
    the entry [a] and left the history alone since. *)
Lemma undo_redo_of_pushed (a : Action) (h : History.t Action) (dm : t) :
  History.index_ok h -> (1 <= History.maxSteps h)%Z ->
  history dm = History.pushed a h ->
  exists h1 e1,
    undo dm = set_history h1 (emit e1 (fst (call_undo a dm))) /\
    exists h2 e2,
      redo (undo dm) =
      set_history h2 (emit e2 (fst (call_redo a (undo dm)))).
Proof.
  intros I M E. destruct (pushed_then a I M) as (P1 & P2 & P3).
  rewrite <- E in P1, P2, P3.
  destruct (undo_runs dm P1) as (h1 & e1 & U & Uh & Um & Ui).
  exists h1, e1. split; [exact U|].
  assert (H1 : history (undo dm) = h1) by (rewrite U; reflexivity).
  destruct (@redo_runs a (undo dm)) as (h2 & e2 & R & _).
  - rewrite H1. unfold History.len in *. rewrite Uh, Ui. exact P2.
  - rewrite H1, Uh, Ui. exact P3.
  - exists h2, e2. exact R.
Qed.

(** ** Deleting a shape *)

(** X25. [deleteShape] removes the shape from the registry; [undo] brings it
    back with the data it had, and [redo] removes it again; the other
    shapes keep their data throughout. *)
Theorem deleteShape_undo_redo (k k' : string) (shape : Shape) (dm : t) :
  consistent dm -> History.index_ok (history dm) ->
  (1 <= History.maxSteps (history dm))%Z ->
  JSMap.get k (shapes dm) = Some shape ->
  getShapeById k (deleteShape k dm) = None /\
  getShapeById k (undo (deleteShape k dm)) = Some (_serialize shape) /\
  getShapeById k (redo (undo (deleteShape k dm))) = None /\
  (k' <> k ->
   getShapeById k' (deleteShape k dm) = getShapeById k' dm /\
   getShapeById k' (undo (deleteShape k dm)) = getShapeById k' dm /\
   getShapeById k' (redo (undo (deleteShape k dm))) = getShapeById k' dm).
Proof.
  intros C I M G.
  assert (K : id shape = k) by (apply (key_is_id C), G).
  set (a := ActDelete (_serialize shape) k).
  assert (D : deleteShape k dm = _removeShape k (history_push a dm))
    by (unfold deleteShape; rewrite G; reflexivity).
  assert (C1 : consistent (history_push a dm))
    by (apply consistent_history_push, C).
  assert (H : history (deleteShape k dm) = History.pushed a (history dm))
    by (rewrite D, history__removeShape; reflexivity).
  destruct (undo_redo_of_pushed a (deleteShape k dm) I M H)
    as (h1 & e1 & U & h2 & e2 & R).
  assert (C2 : consistent (undo (deleteShape k dm)))
    by (apply consistent_undo, consistent_deleteShape, C).
  assert (Q : forall x,
             getShapeById x (deleteShape k dm) =
             if String.eqb x k then None else getShapeById x dm).
  { intros x. rewrite D, getShapeById__removeShape by exact C1.
    reflexivity. }
  assert (Qu : forall x,
             getShapeById x (undo (deleteShape k dm)) =
             if String.eqb x k then Some (_serialize shape)
             else getShapeById x dm).
  { intros x. rewrite U. cbn [call_undo a fst].
    change (getShapeById x (set_history h1 (emit e1 ?d)))
      with (getShapeById x d).
    rewrite getShapeById__restoreShape.
    cbn [d_id _serialize]. rewrite K, Q.
    destruct (String.eqb x k); reflexivity. }
  assert (Qr : forall x,
             getShapeById x (redo (undo (deleteShape k dm))) =
             if String.eqb x k then None else getShapeById x dm).
  { intros x. rewrite R. cbn [call_redo a fst].
    change (getShapeById x (set_history h2 (emit e2 ?d)))
      with (getShapeById x d).
    rewrite getShapeById__removeShape by exact C2. rewrite Qu.
    destruct (String.eqb x k); reflexivity. }
  rewrite Q, Qu, Qr, String.eqb_refl.
  split; [reflexivity|]. split; [reflexivity|]. split; [reflexivity|].
  intros N. rewrite Q, Qu, Qr. apply String.eqb_neq in N. rewrite N.
  repeat split.
Qed.

(** ** Completing a drawing *)

Lemma shapes__registerShape (shape : Shape) (dm : t) :
  shapes (_registerShape shape dm) =
  JSMap.set (id shape) shape (shapes dm).
Proof.
  unfold _registerShape.
  match goal with |- context [if ?b then _ else _] => destruct b end;
    reflexivity.
Qed.

Lemma shapes_emit (e : Event) (dm : t) : shapes (emit e dm) = shapes dm.
Proof. reflexivity. Qed.

Lemma shapes_stopDrawing (dm : t) : shapes (stopDrawing dm) = shapes dm.
Proof. reflexivity. Qed.

Lemma shapes_set_store (st : Store) (dm : t) :
  shapes (set_store st dm) = shapes dm.
Proof. reflexivity. Qed.

Lemma isDrawing_stopDrawing (dm : t) : isDrawing (stopDrawing dm) = false.
Proof. reflexivity. Qed.

Lemma drawingPath_stopDrawing (dm : t) : drawingPath (stopDrawing dm) = [].
Proof. reflexivity. Qed.

(** A drawing that is completed with enough points. *)
Lemma completeDrawing_creates (g : ShapeGeometry) (a : R) (dm : t) :
  isDrawing dm = true ->
  length_lt (length (drawingPath dm)) (minPoints (drawingType dm)) = false ->
  shape_of_drawing (drawingType dm) (drawingPath dm) = Some (g, a) ->
  let k := "shape_" ++ digits (S (_idCounter dm)) in
  let data := mkShapeData k ("Shape " ++ digits (S (_shapeNameCounter dm)))
                          g a in
  (forall x, getShapeById x (completeDrawing dm) =
             if String.eqb x k then Some data else getShapeById x dm) /\
  history (completeDrawing dm) =
    History.pushed (ActCreate k data) (history dm) /\
  isDrawing (completeDrawing dm) = false /\
  drawingPath (completeDrawing dm) = [].
Proof.
  intros Hd Hn Hs. cbv zeta. unfold completeDrawing.
  rewrite Hd. cbn [negb].
  rewrite Hn. unfold _createShape.
  cbn [drawingType drawingPath set__idCounter set__shapeNameCounter
       _idCounter _shapeNameCounter].
  rewrite Hs. unfold alloc.
  split; [|split; [|split]].
  - intros x. unfold getShapeById.
    rewrite shapes_stopDrawing, shapes_emit, shapes__registerShape.
    cbn [id]. rewrite get_set, shapes_set_store.
    destruct (String.eqb x _); reflexivity.
  - rewrite history_stopDrawing, DrawingFacts.history_emit.
    rewrite history__registerShape, history_set_store. reflexivity.
  - apply isDrawing_stopDrawing.
  - apply drawingPath_stopDrawing.
Qed.

(** A drawing that gives a shape is of one of the four types, whose
    minimum is a number: with at least as many points the test of
    [completeDrawing] fails. *)
Lemma enough_points (drawingType : option string) (path : list Point)
    (g : ShapeGeometry) (a : R) :
  shape_of_drawing drawingType path = Some (g, a) ->
  (forall n, minPoints drawingType = Points n -> (n <= length path)%nat) ->
  length_lt (length path) (minPoints drawingType) = false.
Proof.
  intros Hs Hn.
  destruct (DrawingFacts.minPoints_cases drawingType)
    as [(n & E & _)|(name & _ & _ & _ & N)].
  - rewrite E. cbn [length_lt]. apply Nat.ltb_ge, Hn, E.
  - rewrite N in Hs. discriminate Hs.
Qed.

(** X26. [completeDrawing] with enough points registers the shape under the
    next id, with the next name, and leaves the drawing mode; [undo]
    removes the shape and [redo] brings it back with the same data; the
    other shapes keep their data throughout. *)
Theorem completeDrawing_undo_redo
    (g : ShapeGeometry) (a : R) (k' : string) (dm : t) :
  consistent dm -> History.index_ok (history dm) ->
  (1 <= History.maxSteps (history dm))%Z ->
  isDrawing dm = true ->
  (forall n, minPoints (drawingType dm) = Points n ->
             (n <= length (drawingPath dm))%nat) ->
  shape_of_drawing (drawingType dm) (drawingPath dm) = Some (g, a) ->
  let k := "shape_" ++ digits (S (_idCounter dm)) in
  let data := mkShapeData k ("Shape " ++ digits (S (_shapeNameCounter dm)))
                          g a in
  let created := completeDrawing dm in
  getShapeById k created = Some data /\
  isDrawing created = false /\
  getShapeById k (undo created) = None /\
  getShapeById k (redo (undo created)) = Some data /\
  (k' <> k ->
   getShapeById k' created = getShapeById k' dm /\
   getShapeById k' (undo created) = getShapeById k' dm /\
   getShapeById k' (redo (undo created)) = getShapeById k' dm).
Proof.
  intros C I M Hd Hn Hs. cbv zeta.
  destruct (completeDrawing_creates dm Hd (enough_points _ _ Hs Hn) Hs)
    as (Q & H & D & _).
  cbv zeta in Q, H.
  set (k := "shape_" ++ digits (S (_idCounter dm))) in *.
  set (data := mkShapeData k ("Shape " ++ digits (S (_shapeNameCounter dm)))
                           g a) in *.
  set (created := completeDrawing dm) in *.
  assert (C1 : consistent created) by (apply consistent_completeDrawing, C).
  destruct (undo_redo_of_pushed (ActCreate k data) created I M H)
    as (h1 & e1 & U & h2 & e2 & R).
  assert (Qu : forall x,
             getShapeById x (undo created) =
             if String.eqb x k then None else getShapeById x dm).
  { intros x. rewrite U. cbn [call_undo fst].
    change (getShapeById x (set_history h1 (emit e1 ?d)))
      with (getShapeById x d).
    rewrite getShapeById__removeShape by exact C1. rewrite Q.
    destruct (String.eqb x k); reflexivity. }
  assert (Qr : forall x,
             getShapeById x (redo (undo created)) =
             if String.eqb x k then Some data else getShapeById x dm).
  { intros x. rewrite R. cbn [call_redo fst].
    change (getShapeById x (set_history h2 (emit e2 ?d)))
      with (getShapeById x d).
    rewrite getShapeById__restoreShape. cbn [d_id data]. rewrite Qu.
    destruct (String.eqb x k); reflexivity. }
  rewrite Q, Qu, Qr, String.eqb_refl.
  split; [reflexivity|]. split; [exact D|].
  split; [reflexivity|]. split; [reflexivity|].
  intros N. rewrite Q, Qu, Qr. apply String.eqb_neq in N. rewrite N.
  repeat split.
Qed.

(** ** Clearing the registry *)

Lemma delete_all (V : Type) (m : JSMap.t V) :
  fold_left (fun m k => JSMap.delete k m) (JSMap.keys m) m = [].
Proof.
  induction m as [|[k v] m IH]; [reflexivity|].
  cbn [JSMap.keys List.map fst fold_left JSMap.delete].
  rewrite String.eqb_refl. exact IH.
Qed.

Lemma shapes_fold_remove (ks : list string) (dm : t) :
  shapes (fold_left (fun d k => _removeShape k d) ks dm) =
  fold_left (fun m k => JSMap.delete k m) ks (shapes dm).
Proof.
  revert dm. induction ks as [|k ks IH]; intros dm; [reflexivity|].
  cbn [fold_left]. rewrite IH, shapes__removeShape. reflexivity.
Qed.

Lemma getShapes_fold_restore (all : list ShapeData) (dm : t) :
  NoDup (JSMap.keys (shapes dm) ++ List.map d_id all) ->
  getShapes (fold_left (fun d data => _restoreShape data d) all dm) =
  (getShapes dm ++ all)%list.
Proof.
  revert dm. induction all as [|data all IH]; intros dm N.
  - cbn [fold_left]. rewrite app_nil_r. reflexivity.
  - cbn [fold_left List.map] in *.
    assert (A : ~ In (d_id data) (JSMap.keys (shapes dm))).
    { intros I. apply NoDup_remove_2 in N. apply N.
      apply in_or_app. left. exact I. }
    assert (S : shapes (_restoreShape data dm) =
                (shapes dm ++
                 [(d_id data,
                   mkShape (d_id data) (d_name data) (d_geometry data)
                           (d_area data) (length (store dm)))])%list).
    { rewrite shapes__restoreShape. apply set_absent, A. }
    rewrite IH.
    + unfold getShapes, JSMap.values. rewrite S, !map_app.
      cbn [List.map snd _serialize id name geometry area].
      rewrite <- app_assoc. cbn [app]. destruct data; reflexivity.
    + rewrite S. unfold JSMap.keys. rewrite map_app. cbn [List.map fst].
      rewrite <- app_assoc. cbn [app]. exact N.
Qed.

Lemma ids_are_keys (dm : t) :
  consistent dm ->
  List.map d_id (getShapes dm) = JSMap.keys (shapes dm).
Proof.
  intros C. pose proof (key_is_id C) as K. pose proof (keys_once C) as N.
  unfold getShapes, JSMap.values, JSMap.keys in *.
  rewrite !map_map. apply map_ext_in. intros [k shape] I.
  cbn [fst snd _serialize d_id]. apply K.
  apply SessionFacts.get_of_in; assumption.
Qed.

(** X27. [clearAll] on a registry that is not empty removes every shape, and
    [undo] brings all of them back, with their data and in their order;
    on an empty registry [clearAll] does nothing and records nothing. *)
Theorem clearAll_undo_restores (dm : t) :
  consistent dm -> History.index_ok (history dm) ->
  (1 <= History.maxSteps (history dm))%Z ->
  (getShapes dm = [] -> clearAll dm = dm) /\
  (getShapes dm <> [] ->
   getShapes (clearAll dm) = [] /\
   getShapes (undo (clearAll dm)) = getShapes dm /\
   getShapes (redo (undo (clearAll dm))) = []).
Proof.
  intros C I M. unfold clearAll at 1 2.
  assert (Z : (JSMap.size (shapes dm) =? 0)%nat = true <-> getShapes dm = []).
  { unfold getShapes, JSMap.values, JSMap.size.
    destruct (shapes dm); cbn; split; intros; try reflexivity;
      discriminate. }
  split.
  - intros E. apply Z in E. rewrite E. reflexivity.
  - intros N.
    assert (S : (JSMap.size (shapes dm) =? 0)%nat = false).
    { destruct (JSMap.size (shapes dm) =? 0)%nat; [|reflexivity].
      exfalso. apply N, Z. reflexivity. }
    set (a := ActClear (getShapes dm)).
    assert (E : clearAll dm =
                emit ShapesCleared
                  (fold_left (fun d k => _removeShape k d)
                             (JSMap.keys (shapes dm)) (history_push a dm))).
    { unfold clearAll. rewrite S. reflexivity. }
    assert (Sh : shapes (clearAll dm) = []).
    { rewrite E. change (shapes (emit ?e ?d)) with (shapes d).
      rewrite shapes_fold_remove. apply delete_all. }
    assert (H : history (clearAll dm) = History.pushed a (history dm)).
    { rewrite E, DrawingFacts.history_emit.
      rewrite (history_fold _removeShape) by apply history__removeShape.
      reflexivity. }
    destruct (undo_redo_of_pushed a (clearAll dm) I M H)
      as (h1 & e1 & U & h2 & e2 & R).
    assert (G0 : getShapes (clearAll dm) = [])
      by (unfold getShapes; rewrite Sh; reflexivity).
    assert (Gu : getShapes (undo (clearAll dm)) = getShapes dm).
    { rewrite U. cbn [call_undo a fst].
      change (getShapes (set_history h1 (emit e1 ?d))) with (getShapes d).
      rewrite getShapes_fold_restore.
      - rewrite G0. reflexivity.
      - rewrite Sh. cbn [JSMap.keys List.map app].
        rewrite (ids_are_keys C). apply (keys_once C). }
    split; [exact G0|]. split; [exact Gu|].
    rewrite R. cbn [call_redo a fst].
    change (getShapes (set_history h2 (emit e2 ?d))) with (getShapes d).
    unfold getShapes. rewrite shapes_fold_remove, delete_all. reflexivity.
Qed.

(** ** The sample session *)

Lemma default_bound : (0 <= history_maxSteps default_options)%Z.
Proof. cbn. lia. Qed.

Lemma advances_drawing_click (latLng : Point) (dm : t) :
  advances (history dm) (history (drawing_click latLng dm)).
Proof.
  unfold drawing_click. destruct (negb (isDrawing dm));
    [apply advances_refl; reflexivity|apply advances__handleDrawingClick].
Qed.

(** The invariants of a state, as a session keeps them. *)
Abbreviation sound dm :=
  (consistent dm /\ History.index_ok (history dm) /\
   Z.le 1 (History.maxSteps (history dm))).

Lemma sound_new : sound (new Sample.map default_options).
Proof.
  split; [apply consistent_new|].
  destruct (history_new Sample.map default_options) as [N1 N2].
  split; [exact N1|apply N2, default_bound].
Qed.

Lemma sound_step (dm dm' : t) :
  (consistent dm -> consistent dm') ->
  advances (history dm) (history dm') ->
  sound dm -> sound dm'.
Proof.
  intros C [A1 A2] (S1 & S2 & S3).
  split; [apply C, S1|]. split; [apply A1, S2|]. rewrite A2. exact S3.
Qed.

Lemma sound_startDrawing (type : string) (dm : t) :
  sound dm -> sound (startDrawing type dm).
Proof.
  apply sound_step; [apply consistent_startDrawing|].
  apply advances_refl, history_startDrawing.
Qed.

Lemma sound_drawing_click (latLng : Point) (dm : t) :
  sound dm -> sound (drawing_click latLng dm).
Proof.
  apply sound_step;
    [apply consistent_drawing_click|apply advances_drawing_click].
Qed.

Lemma sound_completeDrawing (dm : t) :
  sound dm -> sound (completeDrawing dm).
Proof.
  apply sound_step;
    [apply consistent_completeDrawing|apply advances_completeDrawing].
Qed.

Lemma three_clicks_state : sound three_clicks.
Proof.
  unfold three_clicks, Sample.two_clicks.
  do 3 apply sound_drawing_click. apply sound_startDrawing, sound_new.
Qed.

Lemma triangle_state : sound Sample.triangle.
Proof.
  unfold Sample.triangle.
  apply sound_completeDrawing. do 3 apply sound_drawing_click.
  apply sound_startDrawing, sound_new.
Qed.

Lemma triangle_registered :
  exists shape, JSMap.get "shape_1" (shapes Sample.triangle) = Some shape.
Proof.
  exact (@SnapFacts.has_get_some _ "shape_1" (shapes Sample.triangle)
           eq_refl).
Qed.

Lemma triangle_not_empty : getShapes Sample.triangle <> [].
Proof.
  destruct triangle_registered as (shape & G).
  unfold getShapes, JSMap.values.
  destruct (shapes Sample.triangle); [discriminate G|].
  cbn [List.map]. discriminate.
Qed.

Lemma three_clicks_ready :
  isDrawing three_clicks = true /\
  (forall n, minPoints (drawingType three_clicks) = Points n ->
             (n <= length (drawingPath three_clicks))%nat) /\
  shape_of_drawing (drawingType three_clicks) (drawingPath three_clicks) =
    Some (Polygon (drawingPath three_clicks),
          calculatePolygonArea (drawingPath three_clicks)).
Proof.
  split; [reflexivity|]. split; [|reflexivity].
  intros n E.
  assert (M : minPoints (drawingType three_clicks) = Points 3)
    by reflexivity.
  assert (L : length (drawingPath three_clicks) = 3%nat) by reflexivity.
  rewrite M in E. injection E as <-. rewrite L. lia.
Qed.

Lemma deleteShape_undo_redo_witness :
  exists shape,
    JSMap.get "shape_1" (shapes Sample.triangle) = Some shape /\
    getShapeById "shape_1" (deleteShape "shape_1" Sample.triangle) = None /\
    getShapeById "shape_1" (undo (deleteShape "shape_1" Sample.triangle)) =
      Some (_serialize shape).
Proof.
  destruct triangle_registered as (shape & G).
  destruct triangle_state as (C & I & M).
  exists shape. split; [exact G|].
  destruct (@deleteShape_undo_redo "shape_1" "shape_2" shape Sample.triangle
              C I M G) as (A & B & _).
  split; [exact A|exact B].
Defined.

Lemma completeDrawing_undo_redo_witness :
  isDrawing three_clicks = true /\
  isDrawing (completeDrawing three_clicks) = false /\
  getShapeById ("shape_" ++ digits (S (_idCounter three_clicks)))
               (undo (completeDrawing three_clicks)) = None.
Proof.
  destruct three_clicks_state as (C & I & M).
  destruct three_clicks_ready as (D & N & S).
  split; [exact D|].
  destruct (@completeDrawing_undo_redo _ _ "shape_2" three_clicks
              C I M D N S) as (_ & A & B & _).
  split; [exact A|exact B].
Defined.

Lemma clearAll_undo_restores_witness :
  getShapes Sample.triangle <> [] /\
  getShapes (clearAll Sample.triangle) = [] /\
  getShapes (undo (clearAll Sample.triangle)) = getShapes Sample.triangle.
Proof.
  destruct triangle_state as (C & I & M).
  split; [exact triangle_not_empty|].
  destruct (proj2 (@clearAll_undo_restores Sample.triangle C I M)
              triangle_not_empty) as (A & B & _).
  split; [exact A|exact B].
Defined.

End UndoFacts.

(* ================================================================== *)
(** * Drawing: cancelling and the shapes of two clicks *)
(* ================================================================== *)

Module DrawingModeFacts.

Import Geometry GoogleMaps Drawing Session JSMapFacts SessionFacts UndoFacts.
Local Open Scope string_scope.

(** What a pointer event keeps while a path is drawn. *)
Lemma shapes_deselectShape (dm : t) :
  shapes (deselectShape dm) = shapes dm.
Proof.
  unfold deselectShape.
  destruct (selectedShapeId dm) as [sel|]; [|reflexivity].
  destruct (truthy sel); [|reflexivity].
  rewrite shapes_emit.
  destruct (JSMap.get sel (shapes (_hideMarkers sel dm)));
    unfold restyle; SessionFacts.core_fields;
    apply (DrawingFacts.shapes__hideMarkers sel dm).
Qed.

Lemma mode_deselectShape (dm : t) :
  isDrawing (deselectShape dm) = isDrawing dm /\
  drawingType (deselectShape dm) = drawingType dm /\
  drawingPath (deselectShape dm) = drawingPath dm.
Proof.
  unfold deselectShape.
  destruct (selectedShapeId dm) as [sel|]; [|repeat split].
  destruct (truthy sel); [|repeat split].
  assert (H : isDrawing (_hideMarkers sel dm) = isDrawing dm /\
              drawingType (_hideMarkers sel dm) = drawingType dm /\
              drawingPath (_hideMarkers sel dm) = drawingPath dm).
  { unfold _hideMarkers.
    destruct (JSMap.get sel (_vertexMarkers dm));
      match goal with
      | |- context [match ?x with _ => _ end] => destruct x
      end; repeat split. }
  destruct (JSMap.get sel (shapes (_hideMarkers sel dm))); exact H.
Qed.

Lemma startDrawing_mode (type : string) (dm : t) :
  shapes (startDrawing type dm) = shapes dm /\
  history (startDrawing type dm) = history dm /\
  isDrawing (startDrawing type dm) = true /\
  drawingType (startDrawing type dm) = Some type /\
  drawingPath (startDrawing type dm) = [] /\
  _drawingListeners (startDrawing type dm) = true.
Proof.
  unfold startDrawing.
  set (d0 := if isDrawing dm then stopDrawing dm else dm).
  assert (E0 : shapes d0 = shapes dm /\ history d0 = history dm)
    by (unfold d0; destruct (isDrawing dm); split; reflexivity).
  clearbody d0.
  set (d4 := set_lastSnapPoint None
               (set_drawingPath []
                  (set_drawingType (Some type) (set_isDrawing true d0)))).
  assert (E4 : shapes d4 = shapes d0 /\ history d4 = history d0 /\
               isDrawing d4 = true /\ drawingType d4 = Some type /\
               drawingPath d4 = []) by (repeat split).
  clearbody d4.
  pose proof (shapes_deselectShape d4) as S.
  pose proof (history_deselectShape d4) as H.
  pose proof (mode_deselectShape d4) as M.
  revert S H M. generalize (deselectShape d4). intros d5 S H (M1 & M2 & M3).
  destruct E0 as (A1 & A2). destruct E4 as (B1 & B2 & B3 & B4 & B5).
  cbn [emit set_events set__drawingListeners set_draggableCursor shapes
       history isDrawing drawingType drawingPath _drawingListeners].
  repeat split; congruence.
Qed.

Lemma path_mode (type : string) :
  type = "polygon" \/ type = "polyline" ->
  is_type (Some type) "polygon" || is_type (Some type) "polyline" = true.
Proof. intros [-> | ->]; reflexivity. Qed.

Lemma pointer_keeps (type : string) (o : Op) (dm : t) :
  type = "polygon" \/ type = "polyline" ->
  is_pointer o = true ->
  isDrawing dm = true -> drawingType dm = Some type ->
  shapes (apply o dm) = shapes dm /\
  history (apply o dm) = history dm /\
  isDrawing (apply o dm) = true /\
  drawingType (apply o dm) = Some type.
Proof.
  intros T P D Ty. destruct o; try discriminate P; cbn [apply].
  - destruct (_drawingListeners dm); [|repeat split; assumption].
    unfold drawing_click. rewrite D. cbn [negb].
    unfold _handleDrawingClick. rewrite Ty, (path_mode T).
    repeat split; assumption.
  - destruct (_drawingListeners dm); [|repeat split; assumption].
    unfold drawing_mousemove.
    destruct (snapping_enabled (options dm)).
    + unfold findSnapPoint.
      destruct (Snap.findSnapPoint _ _ _ _) as [[[snap|] se] cs];
        [|repeat split; assumption].
      match goal with |- context [if ?b then _ else _] => destruct b end;
        repeat split; assumption.
    + match goal with |- context [if ?b then _ else _] => destruct b end;
        repeat split; assumption.
Qed.

Lemma pointers_keep (type : string) (ops : list Op) (dm : t) :
  type = "polygon" \/ type = "polyline" ->
  forallb is_pointer ops = true ->
  isDrawing dm = true -> drawingType dm = Some type ->
  shapes (run ops dm) = shapes dm /\
  history (run ops dm) = history dm /\
  isDrawing (run ops dm) = true.
Proof.
  intros T. revert dm. induction ops as [|o ops IH]; intros dm P D Ty.
  - repeat split. exact D.
  - cbn [forallb] in P. apply andb_true_iff in P. destruct P as [P1 P2].
    destruct (pointer_keeps o dm T P1 D Ty) as (K1 & K2 & K3 & K4).
    cbn [run fold_left].
    destruct (IH (apply o dm) P2 K3 K4) as (I1 & I2 & I3).
    unfold run in I1, I2, I3. rewrite I1, I2, I3, K1, K2. repeat split.
Qed.

(** X28. A drawing of a polygon or of a polyline that is cancelled, by
    [stopDrawing()] or by the Escape key, leaves no trace: whatever the
    clicks and moves of the pointer were, the shapes and the history
    are those from before [startDrawing], and the drawing state is
    reset. *)
Theorem cancelled_drawing_leaves_no_trace
    (type : string) (ops : list Op) (dm : t) :
  type = "polygon" \/ type = "polyline" ->
  forallb is_pointer ops = true ->
  let drawing := run ops (startDrawing type dm) in
  keydown false false "Escape" drawing = stopDrawing drawing /\
  getShapes (stopDrawing drawing) = getShapes dm /\
  history (stopDrawing drawing) = history dm /\
  isDrawing (stopDrawing drawing) = false /\
  drawingType (stopDrawing drawing) = None /\
  drawingPath (stopDrawing drawing) = [] /\
  _previewMarkers (stopDrawing drawing) = [] /\
  _drawingListeners (stopDrawing drawing) = false.
Proof.
  intros T P. cbv zeta.
  destruct (startDrawing_mode type dm) as (S1 & S2 & S3 & S4 & _).
  destruct (pointers_keep ops (startDrawing type dm) T P S3 S4)
    as (K1 & K2 & K3).
  set (drawing := run ops (startDrawing type dm)) in *.
  split.
  - unfold keydown. cbn [andb orb negb String.eqb Ascii.eqb Bool.eqb].
    rewrite K3. reflexivity.
  - split.
    + unfold getShapes. rewrite shapes_stopDrawing, K1, S1. reflexivity.
    + split; [rewrite history_stopDrawing, K2, S2; reflexivity|].
      repeat split.
Qed.

(** ** The second click of a circle and of a rectangle *)

Lemma second_click (type : string) (p1 latLng : Point) (dm : t) :
  type = "circle" \/ type = "rectangle" ->
  isDrawing dm = true -> drawingType dm = Some type ->
  drawingPath dm = [p1] ->
  let pt := match lastSnapPoint dm with Some s => s | None => latLng end in
  drawing_click latLng dm = completeDrawing (set_drawingPath [p1; pt] dm).
Proof.
  intros T D Ty Pa. cbv zeta. unfold drawing_click. rewrite D. cbn [negb].
  unfold _handleDrawingClick. rewrite Ty, Pa.
  destruct T as [-> | ->]; reflexivity.
Qed.

(** X29. For a circle and a rectangle the second click completes the
    drawing, at the snap point when there is one.  The circle has the
    first point as centre and the distance to the second as radius; the
    rectangle has the two points as opposite corners, whatever their
    order, so that its south is not above its north and its west not
    beyond its east. *)
Theorem second_click_completes (p1 latLng : Point) (dm : t) :
  isDrawing dm = true -> drawingPath dm = [p1] ->
  let pt := match lastSnapPoint dm with Some s => s | None => latLng end in
  let k := "shape_" ++ digits (S (_idCounter dm)) in
  let name := "Shape " ++ digits (S (_shapeNameCounter dm)) in
  let dm' := drawing_click latLng dm in
  (drawingType dm = Some "circle" ->
   let radius := distanceLatLng p1 pt in
   getShapeById k dm' =
     Some (mkShapeData k name (Circle p1 radius)
                       (PI * radius * radius)%R) /\
   isDrawing dm' = false) /\
  (drawingType dm = Some "rectangle" ->
   exists b area,
     getShapeById k dm' = Some (mkShapeData k name (Rectangle b) area) /\
     north b = Rmax (lat p1) (lat pt) /\ south b = Rmin (lat p1) (lat pt) /\
     east b = Rmax (lng p1) (lng pt) /\ west b = Rmin (lng p1) (lng pt) /\
     (south b <= north b)%R /\ (west b <= east b)%R /\
     isDrawing dm' = false).
Proof.
  intros D Pa. cbv zeta.
  set (pt := match lastSnapPoint dm with Some s => s | None => latLng end).
  set (dm1 := set_drawingPath [p1; pt] dm).
  assert (D1 : isDrawing dm1 = true) by exact D.
  split; intros Ty.
  - rewrite (@second_click "circle" p1 latLng dm (or_introl eq_refl) D Ty Pa).
    fold pt. fold dm1.
    assert (N : length_lt (length (drawingPath dm1))
                          (minPoints (drawingType dm1)) = false).
    { change (drawingType dm1) with (drawingType dm). rewrite Ty.
      reflexivity. }
    assert (S : shape_of_drawing (drawingType dm1) (drawingPath dm1) =
                Some (Circle p1 (distanceLatLng p1 pt),
                      (PI * distanceLatLng p1 pt * distanceLatLng p1 pt)%R)).
    { change (drawingType dm1) with (drawingType dm). rewrite Ty.
      reflexivity. }
    destruct (completeDrawing_creates dm1 D1 N S) as (Q & _ & I & _).
    cbv zeta in Q. rewrite Q.
    change (_idCounter dm1) with (_idCounter dm).
    rewrite String.eqb_refl. split; [reflexivity|exact I].
  - rewrite (@second_click "rectangle" p1 latLng dm (or_intror eq_refl)
               D Ty Pa).
    fold pt. fold dm1.
    assert (N : length_lt (length (drawingPath dm1))
                          (minPoints (drawingType dm1)) = false).
    { change (drawingType dm1) with (drawingType dm). rewrite Ty.
      reflexivity. }
    set (b := mkBounds (Math_max (lat p1) (lat pt))
                       (Math_min (lat p1) (lat pt))
                       (Math_max (lng p1) (lng pt))
                       (Math_min (lng p1) (lng pt))).
    set (area :=
           (distanceLatLng (mkPoint (north b) (west b))
                           (mkPoint (north b) (east b)) *
            distanceLatLng (mkPoint (south b) (west b))
                           (mkPoint (north b) (west b)))%R).
    assert (S : shape_of_drawing (drawingType dm1) (drawingPath dm1) =
                Some (Rectangle b, area)).
    { change (drawingType dm1) with (drawingType dm). rewrite Ty.
      reflexivity. }
    destruct (completeDrawing_creates dm1 D1 N S) as (Q & _ & I & _).
    cbv zeta in Q. exists b, area. rewrite Q.
    change (_idCounter dm1) with (_idCounter dm).
    rewrite String.eqb_refl. split; [reflexivity|].
    unfold b, Math_max, Math_min. cbn [north south east west].
    repeat split; try exact I.
    + eapply Rle_trans; [apply Rmin_l|apply Rmax_l].
    + eapply Rle_trans; [apply Rmin_l|apply Rmax_l].
Qed.

(** ** Renaming a shape *)

(** X30. [updateShapeName] gives a registered shape its new name and leaves
    its other data and the other shapes alone; the label, when the shape
    has one, shows the new name at the centre of the shape; the event
    [shape:updated] carries the new data.  Nothing is pushed on the
    history, so that [undo] does not take a renaming back.  For an id
    that is not registered nothing happens. *)
Theorem updateShapeName_renames
    (k k' newName : string) (shape : Shape) (dm : t) :
  JSMap.get k (shapes dm) = Some shape ->
  let dm' := updateShapeName k newName dm in
  let data := mkShapeData (id shape) newName (geometry shape) (area shape) in
  getShapeById k dm' = Some data /\
  (k' <> k -> getShapeById k' dm' = getShapeById k' dm) /\
  history dm' = history dm /\
  events dm' = (events dm ++ [ShapeUpdated data])%list /\
  (forall label,
     JSMap.get (id shape) (_labels dm) = Some label ->
     JSMap.get (id shape) (_labels dm') =
       Some (mkLabel (_getShapeCenter shape) newName (lb_on_map label))) /\
  (JSMap.get k' (shapes dm) = None -> updateShapeName k' newName dm = dm).
Proof.
  intros G. cbv zeta.
  split; [|split; [|split; [apply history_updateShapeName|split; [|split]]]].
  - unfold updateShapeName, getShapeById. rewrite G.
    rewrite shapes_emit, (shapes_of_core (core__updateLabel _ _)).
    cbn [shapes set_shapes]. rewrite get_set_eq. reflexivity.
  - intros N. unfold updateShapeName, getShapeById. rewrite G.
    rewrite shapes_emit, (shapes_of_core (core__updateLabel _ _)).
    cbn [shapes set_shapes]. rewrite get_set_neq by exact N. reflexivity.
  - unfold updateShapeName. rewrite G. unfold emit at 1.
    cbn [events set_events]. f_equal.
    unfold _updateLabel. cbn [id _labels set_shapes].
    destruct (JSMap.get (id shape) (_labels dm)); reflexivity.
  - intros label L. unfold updateShapeName. rewrite G.
    unfold _updateLabel. cbn [id name _labels set_shapes emit set_events].
    rewrite L. cbn [_labels set__labels]. rewrite get_set_eq. reflexivity.
  - intros N. unfold updateShapeName. rewrite N. reflexivity.
Qed.

(** ** Samples *)

Lemma one_click_circle :
  isDrawing (one_click "circle") = true /\
  drawingPath (one_click "circle") = [Sample.v1] /\
  drawingType (one_click "circle") = Some "circle".
Proof. repeat split. Qed.

Lemma cancelled_drawing_leaves_no_trace_witness :
  forallb is_pointer [Click Sample.v1; MouseMove Sample.m1; Click Sample.v2]
  = true /\
  getShapes
    (stopDrawing
       (run [Click Sample.v1; MouseMove Sample.m1; Click Sample.v2]
            (startDrawing "polygon" Sample.triangle))) =
  getShapes Sample.triangle.
Proof.
  split; [reflexivity|].
  exact (proj1 (proj2
           (@cancelled_drawing_leaves_no_trace "polygon"
              [Click Sample.v1; MouseMove Sample.m1; Click Sample.v2]
              Sample.triangle (or_introl eq_refl) eq_refl))).
Defined.

Lemma second_click_completes_witness :
  isDrawing (one_click "circle") = true /\
  drawingPath (one_click "circle") = [Sample.v1] /\
  drawingType (one_click "circle") = Some "circle" /\
  isDrawing (drawing_click Sample.v2 (one_click "circle")) = false.
Proof.
  destruct one_click_circle as (D & P & T).
  split; [exact D|]. split; [exact P|]. split; [exact T|].
  exact (proj2 (proj1 (@second_click_completes Sample.v1 Sample.v2
                          (one_click "circle") D P) T)).
Defined.

Lemma updateShapeName_renames_witness :
  exists shape,
    JSMap.get "shape_1" (shapes Sample.triangle) = Some shape /\
    getShapeById "shape_1" (updateShapeName "shape_1" "Field" Sample.triangle)
    = Some (mkShapeData (id shape) "Field" (geometry shape) (area shape)) /\
    history (updateShapeName "shape_1" "Field" Sample.triangle) =
    history Sample.triangle.
Proof.
  destruct triangle_registered as (shape & G).
  exists shape. split; [exact G|].
  destruct (@updateShapeName_renames "shape_1" "shape_2" "Field" shape
              Sample.triangle G) as (A & _ & B & _).
  split; [exact A|exact B].
Defined.

End DrawingModeFacts.
